(** * Rappa document pipeline: classifier, OCR, extraction service,
      integrity analyzer and job orchestrator

    A shallow embedding of the Python services under
    [backend/app/services] and of the Celery task in
    [backend/app/workers/tasks.py], with the properties the specification
    states about them.

    Conventions of the embedding:
    - a Python [str] is a [string]; each [ascii] stands for one code point
      below 256, so [len] is [String.length] and the string methods below
      follow Python on that range;
    - a Python [float] is a binary64 [float] of the kernel ([PrimFloat]);
      a Python [int] that is used as a number in float arithmetic is taken
      at its float value, an [int] that counts or indexes is a [Z];
    - an exception is a value: functions that can raise return [result];
    - library calls whose behaviour is not part of the repository (the
      OCR engine, the extraction service, [json.loads], [float] on a
      string, [strptime], PyMuPDF, PIL, the object store, the database
      engine) are fields of records that the functions take as
      arguments. *)

From Stdlib Require Import ZArith List String Ascii Bool Lia.
From Stdlib Require Import PrimFloat Uint63 DecimalString.
Import ListNotations.

Set Warnings "-inexact-float,-register-all".

Open Scope string_scope.
Open Scope list_scope.
Open Scope Z_scope.

(* ================================================================== *)
(** * Python values and builtins *)
(* ================================================================== *)

Module Py.

(** ** Exceptions *)

Inductive exn_kind :=
| ValueError | TypeError | KeyError | AttributeError
| RuntimeError | JSONDecodeError | OtherError.

(** [exn_msg] is what [str(e)] returns. *)
Record exn := Exn { exn_kind_of : exn_kind; exn_msg : string }.

Inductive result (A : Type) :=
| Ok (a : A)
| Raise (e : exn).
Arguments Ok {A} a.
Arguments Raise {A} e.

Definition bind {A B} (m : result A) (k : A -> result B) : result B :=
  match m with
  | Ok a => k a
  | Raise e => Raise e
  end.

Definition is_ok {A} (m : result A) : bool :=
  match m with Ok _ => true | Raise _ => false end.

(** ** Strings *)

(** [str.isspace] on code points below 256: U+0009..U+000D,
    U+001C..U+0020, U+0085 and U+00A0. *)
Definition isspace (c : ascii) : bool :=
  let n := N_of_ascii c in
  (((9 <=? n) && (n <=? 13)) || ((28 <=? n) && (n <=? 32))
   || (n =? 133) || (n =? 160))%N.

Fixpoint lstrip (s : string) : string :=
  match s with
  | EmptyString => EmptyString
  | String c r => if isspace c then lstrip r else s
  end.

Fixpoint rstrip (s : string) : string :=
  match s with
  | EmptyString => EmptyString
  | String c r =>
      let r' := rstrip r in
      if isspace c && (r' =? "")%string then EmptyString else String c r'
  end.

(** [s.strip()] *)
Definition strip (s : string) : string := lstrip (rstrip s).

(** [str.lower] on code points below 256: A..Z and U+00C0..U+00DE
    (U+00D7 apart) move up by 32. *)
Definition lower_char (c : ascii) : ascii :=
  let n := N_of_ascii c in
  if (((65 <=? n) && (n <=? 90))
      || ((192 <=? n) && (n <=? 222) && negb (n =? 215)))%N
  then ascii_of_N (n + 32) else c.

Fixpoint lower (s : string) : string :=
  match s with
  | EmptyString => EmptyString
  | String c r => String (lower_char c) (lower r)
  end.

Definition len (s : string) : Z := Z.of_nat (String.length s).

Definition startswith (s p : string) : bool := String.prefix p s.

Fixpoint drop (n : nat) (s : string) : string :=
  match n, s with
  | O, _ => s
  | S n', String _ r => drop n' r
  | S _, EmptyString => EmptyString
  end.

Fixpoint take (n : nat) (s : string) : string :=
  match n, s with
  | O, _ => EmptyString
  | S n', String c r => String c (take n' r)
  | S _, EmptyString => EmptyString
  end.

Definition endswith (s p : string) : bool :=
  (String.length p <=? String.length s)%nat
  && (drop (String.length s - String.length p) s =? p)%string.

(** [sub in s] *)
Fixpoint contains (sub s : string) : bool :=
  String.prefix sub s
  || match s with
     | EmptyString => false
     | String _ r => contains sub r
     end.

(** [sep.join(l)] *)
Definition join (sep : string) (l : list string) : string :=
  String.concat sep l.

(** [str(n)] for an [int]. *)
Definition str_of_int (n : Z) : string :=
  NilZero.string_of_int (Z.to_int n).

Definition isdigit (c : ascii) : bool :=
  let n := N_of_ascii c in ((48 <=? n) && (n <=? 57))%N.

(** ** Floats *)

(** [bool(x)] for a float: false exactly for 0.0 and -0.0. *)
Definition float_truthy (x : float) : bool := negb (x =? 0)%float.

(** [float(n)] for a list length. *)
Definition float_of_nat (n : nat) : float :=
  PrimFloat.of_uint63 (Uint63.of_Z (Z.of_nat n)).

(** [sum(l)]: additions from the left, starting at 0 (the plain loop of
    CPython up to 3.11; later versions compensate the rounding error of
    float sums, which can change the last bit). *)
Definition py_sum (l : list float) : float :=
  fold_left PrimFloat.add l 0%float.

(** [sum(l) / len(l)] *)
Definition mean (l : list float) : float :=
  (py_sum l / float_of_nat (List.length l))%float.

(** ** Dynamically typed cells: [None], a [str] or a number *)

Inductive pyval :=
| PNone
| PStr (s : string)
| PNum (x : float).

Definition truthy (v : pyval) : bool :=
  match v with
  | PNone => false
  | PStr s => negb (s =? "")%string
  | PNum x => float_truthy x
  end.

(** [a or b] *)
Definition py_or (a b : pyval) : pyval := if truthy a then a else b.

(** ** Dictionaries with [str] keys, in insertion order *)

Definition pydict (V : Type) := list (string * V).

Fixpoint dict_set {V} (k : string) (v : V) (d : pydict V) : pydict V :=
  match d with
  | [] => [(k, v)]
  | (k', v') :: r =>
      if (k =? k')%string then (k, v) :: r else (k', v') :: dict_set k v r
  end.

Fixpoint dict_get {V} (k : string) (d : pydict V) : option V :=
  match d with
  | [] => None
  | (k', v) :: r => if (k =? k')%string then Some v else dict_get k r
  end.

(** [d.get(k, default)] *)
Definition dict_get_default {V} (k : string) (default : V) (d : pydict V) : V :=
  match dict_get k d with Some v => v | None => default end.

Definition dict_mem {V} (k : string) (d : pydict V) : bool :=
  match dict_get k d with Some _ => true | None => false end.

(** ** Decoded JSON *)

Inductive json :=
| JNull
| JBool (b : bool)
| JNum (x : float)
| JStr (s : string)
| JArr (l : list json)
| JObj (d : list (string * json)).

(** [bool(v)] *)
Definition json_truthy (v : json) : bool :=
  match v with
  | JNull => false
  | JBool b => b
  | JNum x => float_truthy x
  | JStr s => negb (s =? "")%string
  | JArr l => match l with [] => false | _ => true end
  | JObj d => match d with [] => false | _ => true end
  end.

(** The value of [v] in arithmetic and in a [%] format: numbers, and
    booleans as 1 and 0; nothing else has one. *)
Definition json_number (v : json) : option float :=
  match v with
  | JNum x => Some x
  | JBool true => Some 1%float
  | JBool false => Some 0%float
  | _ => None
  end.

(** ** The runtime's library functions *)

Record Runtime := {
  (** [float(s)] on a [str]; [None] is [ValueError]. *)
  py_float : string -> option float;
  (** [json.loads(s)]; [None] is [json.JSONDecodeError]. *)
  json_loads : string -> option json;
  (** [str(v)] of a decoded JSON value. *)
  py_str : json -> string;
  (** [repr] of a float, as an f-string prints it. *)
  float_repr : float -> string;
  (** [round(x, 3)] *)
  round3 : float -> float;
  (** [datetime.strptime(s, fmt)] as a point on the time line; [None] is
      [ValueError]. *)
  strptime : string -> string -> option Z;
  (** [d.isoformat()] of a point on the time line. *)
  isoformat : Z -> string;
  (** [hashlib.sha256(data).hexdigest()] *)
  sha256_hexdigest : string -> string
}.

(** What the clock shows during a call: [datetime.now()] and
    [datetime.utcnow()]. *)
Record Clock := {
  now : Z;
  utcnow : Z
}.

(** [float(v)] on a cell. *)
Definition float_of (rt : Runtime) (v : pyval) : result float :=
  match v with
  | PNum x => Ok x
  | PStr s =>
      match py_float rt s with
      | Some x => Ok x
      | None =>
          Raise (Exn ValueError
                   ("could not convert string to float: '" ++ s ++ "'")%string)
      end
  | PNone =>
      Raise (Exn TypeError
               "float() argument must be a string or a real number, not 'NoneType'")
  end.

(** The line feed. *)
Definition nl : string := String (ascii_of_N 10) EmptyString.

End Py.
Import Py.

Notation "x <- m ;; k" := (bind m (fun x => k))
  (at level 61, m at next level, right associativity).

(* ================================================================== *)
(** * services/pdf_classifier.py *)
(* ================================================================== *)

Module pdf_classifier.

Inductive PDFType := TEXT_ONLY | IMAGE_HEAVY | IMAGE_LIGHT | MIXED.

Definition PDFType_value (t : PDFType) : string :=
  match t with
  | TEXT_ONLY => "text_only"
  | IMAGE_HEAVY => "image_heavy"
  | IMAGE_LIGHT => "image_light"
  | MIXED => "mixed"
  end.

(** A PIL image as the classifier sees it: [size], [mode], and whether
    its pixel data can be decoded ([Image.open] reads the header only;
    [convert] decodes). *)
Record pil_image := {
  img_width : Z;
  img_height : Z;
  img_mode : string;
  img_decodes : bool
}.

(** [pil_image.convert('RGB')] *)
Definition convert_rgb (im : pil_image) : result pil_image :=
  if img_decodes im
  then Ok {| img_width := img_width im; img_height := img_height im;
             img_mode := "RGB"; img_decodes := true |}
  else Raise (Exn OtherError "cannot decode image data").

(** One page of an opened document: [page.get_text()], and for every entry
    of [page.get_images()] the outcome of [doc.extract_image(xref)]
    followed by [Image.open]. *)
Record pdf_page := {
  page_text : string;
  page_images : list (result pil_image)
}.

(** PyMuPDF. *)
Record Fitz := {
  fitz_open : string -> result (list pdf_page);
  (** [page.get_pixmap(matrix=fitz.Matrix(zoom, zoom))] turned into a PIL
      image by [Image.frombytes]. *)
  get_pixmap : pdf_page -> float -> result pil_image
}.

Record PDFClassification := {
  pdf_type : PDFType;
  page_count : Z;
  image_count : Z;
  has_text : bool;
  text_length : Z;
  images : list pil_image;
  text_content : string
}.

(** The classifier object: the four attributes [__init__] stores. *)
Record PDFClassifier := {
  image_threshold : Z;
  min_image_width : Z;
  min_image_height : Z;
  min_image_area : Z
}.

(** [PDFClassifier(image_threshold=t)] with the other defaults of
    [__init__]. *)
Definition PDFClassifier_init (t : Z) : PDFClassifier :=
  {| image_threshold := t; min_image_width := 200;
     min_image_height := 200; min_image_area := 40000 |}.

Definition get_pdf_classifier : PDFClassifier := PDFClassifier_init 2.

(** The size test of [classify_pdf] (lines 110-112) that separates content
    images from logos and icons. *)
Definition is_content_image (self : PDFClassifier) (width height : Z) : bool :=
  let area := width * height in
  (width >=? min_image_width self)
  && (height >=? min_image_height self)
  && (area >=? min_image_area self).

(** The body of the [try] for one embedded image: [Some] of the image to
    append, [None] when it is filtered out. *)
Definition extract_one (self : PDFClassifier) (e : result pil_image)
  : result (option pil_image) :=
  pil <- e ;;
  if is_content_image self (img_width pil) (img_height pil)
  then pil' <- (if negb (img_mode pil =? "RGB")%string
                then convert_rgb pil else Ok pil) ;;
       Ok (Some pil')
  else Ok None.

(** One turn of the inner loop, on [(images, real_image_count)]: an
    exception is logged and the loop goes on. *)
Definition image_step (self : PDFClassifier)
    (st : list pil_image * Z) (e : result pil_image) : list pil_image * Z :=
  match extract_one self e with
  | Ok (Some pil) => (fst st ++ [pil], snd st + 1)
  | Ok None => st
  | Raise _ => st
  end.

Definition page_step (self : PDFClassifier)
    (st : list pil_image * Z) (p : pdf_page) : list pil_image * Z :=
  fold_left (image_step self) (page_images p) st.

Definition extract_images (self : PDFClassifier) (doc : list pdf_page)
  : list pil_image * Z :=
  fold_left (page_step self) doc ([], 0).

(** The [if]/[elif] chain of lines 135-169. *)
Definition classify_type (self : PDFClassifier)
    (image_count : Z) (has_text : bool) (text_length page_count : Z) : PDFType :=
  if (image_count =? 0) && has_text then TEXT_ONLY
  else if (image_count >? image_threshold self) && negb has_text then IMAGE_HEAVY
  else if (image_count <=? image_threshold self) && negb has_text
          && (page_count <=? 5) then IMAGE_LIGHT
  else if (image_count <=? image_threshold self) && negb has_text
          && (page_count >? 5) then IMAGE_HEAVY
  else if has_text && (text_length >? 500) then TEXT_ONLY
  else if (image_count <=? image_threshold self) && (page_count <=? 5)
       then IMAGE_LIGHT
  else if (image_count <=? image_threshold self) && (page_count >? 5)
       then IMAGE_HEAVY
  else MIXED.

(** [classify_pdf] once [fitz.open] has returned the document. *)
Definition classify_document (self : PDFClassifier) (doc : list pdf_page)
  : PDFClassification :=
  let page_count := Z.of_nat (List.length doc) in
  let text_content :=
    fold_left (fun acc p => acc ++ page_text p)%string doc "" in
  let has_text := len (strip text_content) >? 50 in
  let text_length := len (strip text_content) in
  let '(images, real_image_count) := extract_images self doc in
  let image_count := real_image_count in
  {| pdf_type := classify_type self image_count has_text text_length page_count;
     page_count := page_count;
     image_count := image_count;
     has_text := has_text;
     text_length := text_length;
     images := images;
     text_content := text_content |}.

Definition classify_pdf (fz : Fitz) (self : PDFClassifier) (pdf_path : string)
  : result PDFClassification :=
  doc <- fitz_open fz pdf_path ;;
  Ok (classify_document self doc).

(** [render_all_pages_to_images] *)
Fixpoint render_pages (fz : Fitz) (zoom : float) (doc : list pdf_page)
  : result (list pil_image) :=
  match doc with
  | [] => Ok []
  | p :: rest =>
      img <- get_pixmap fz p zoom ;;
      imgs <- render_pages fz zoom rest ;;
      Ok (img :: imgs)
  end.

Definition render_all_pages_to_images (fz : Fitz) (pdf_path : string)
    (dpi : float) : result (list pil_image) :=
  doc <- fitz_open fz pdf_path ;;
  let zoom := (dpi / 72)%float in
  render_pages fz zoom doc.

End pdf_classifier.

(* ================================================================== *)
(** * services/simple_ocr_service.py *)
(* ================================================================== *)

Module simple_ocr_service.
Import pdf_classifier.

(** pytesseract, called with an image, [lang] and [config]:
    [image_to_string], and the ['conf'] column of
    [image_to_data(..., output_type=Output.DICT)]. *)
Record Tesseract := {
  image_to_string : pil_image -> string -> string -> result string;
  image_to_data_conf : pil_image -> string -> string -> result (list pyval)
}.

(** [conf == '-1']: the cell the engine writes where no text was
    detected. *)
Definition is_no_text (conf : pyval) : bool :=
  match conf with
  | PStr s => (s =? "-1")%string
  | _ => false
  end.

(** [[float(conf) for conf in data['conf'] if conf != '-1']] *)
Fixpoint token_confidences (rt : Runtime) (cells : list pyval)
  : result (list float) :=
  match cells with
  | [] => Ok []
  | conf :: rest =>
      if is_no_text conf then token_confidences rt rest
      else x <- float_of rt conf ;;
           xs <- token_confidences rt rest ;;
           Ok (x :: xs)
  end.

(** [sum(l) / len(l) if l else 0.0] *)
Definition mean_or_zero (l : list float) : float :=
  match l with
  | [] => 0%float
  | _ => mean l
  end.

(** ['+'.join(languages)], after [languages] defaulted to [['eng']]. *)
Definition lang_param (languages : option (list string)) : string :=
  let languages :=
    match languages with
    | None | Some [] => ["eng"]
    | Some l => l
    end in
  join "+" languages.

(** [f'--psm {psm}'] *)
Definition config (psm : Z) : string := ("--psm " ++ str_of_int psm)%string.

Definition extract_text_from_image (rt : Runtime) (tess : Tesseract)
    (image : pil_image) (languages : option (list string)) (psm : Z)
  : result (string * float) :=
  match
    (text <- image_to_string tess image (lang_param languages) (config psm) ;;
     data_conf <-
       image_to_data_conf tess image (lang_param languages) (config psm) ;;
     confidences <- token_confidences rt data_conf ;;
     let avg_confidence := mean_or_zero confidences in
     let confidence_score := (avg_confidence / 100)%float in
     Ok (strip text, confidence_score))
  with
  | Ok r => Ok r
  | Raise e =>
      Raise (Exn RuntimeError ("OCR extraction failed: " ++ exn_msg e)%string)
  end.

(** The header [f"--- Page/Image {i+1} ---\n{text}"] of image [i]. *)
Definition page_block (i : Z) (text : string) : string :=
  ("--- Page/Image " ++ str_of_int (i + 1) ++ " ---" ++ nl ++ text)%string.

(** The [for] loop over [enumerate(images)], from index [i] on. *)
Fixpoint ocr_loop (rt : Runtime) (tess : Tesseract)
    (languages : option (list string)) (psm : Z)
    (i : Z) (images : list pil_image)
    (all_text : list string) (all_confidences : list float)
  : result (list string * list float) :=
  match images with
  | [] => Ok (all_text, all_confidences)
  | image :: rest =>
      r <- extract_text_from_image rt tess image languages psm ;;
      ocr_loop rt tess languages psm (i + 1) rest
        (all_text ++ [page_block i (fst r)])
        (all_confidences ++ [snd r])
  end.

Definition extract_text_from_images (rt : Runtime) (tess : Tesseract)
    (images : list pil_image) (languages : option (list string)) (psm : Z)
  : result (string * float) :=
  r <- ocr_loop rt tess languages psm 0 images [] [] ;;
  let combined_text := join (nl ++ nl)%string (fst r) in
  let avg_confidence := mean_or_zero (snd r) in
  Ok (combined_text, avg_confidence).

End simple_ocr_service.

(* ================================================================== *)
(** * services/gemini_service.py *)
(* ================================================================== *)

Module gemini_service.
Import pdf_classifier.

Inductive content_part :=
| PartText (s : string)
| PartImage (im : pil_image).

(** The generative model: the module's prompt constant, and
    [model.generate_content(parts).text]. *)
Record GenAI := {
  FIELD_EXTRACTION_PROMPT : string;
  generate_content : list content_part -> result string
}.

(** The entries of a successful result. [confidence] and [api_confidence]
    hold the numeric value of what the service reported. *)
Record extracted := {
  document_type : json;
  confidence : float;
  extracted_data : json;
  summary : json;
  method : string;
  ocr_confidence : option float;
  api_confidence : float
}.

(** The returned dictionary: ["success": True] with its entries, or
    ["success": False] with [error], [raw_response] and [method]. *)
Inductive extraction :=
| Success (r : extracted)
| Failure (error : string) (raw_response : option string) (method : string).


(** Stripping the reply and its code fence, as each method does before
    [json.loads]. *)
Definition clean_response (text : string) : string :=
  let response_text := strip text in
  let response_text :=
    if startswith response_text "```json" then drop 7 response_text
    else response_text in
  let response_text :=
    if startswith response_text "```" then drop 3 response_text
    else response_text in
  let response_text :=
    if endswith response_text "```"
    then take (String.length response_text - 3) response_text
    else response_text in
  strip response_text.

(** The handler of [except Exception]. *)
Definition service_error (method : string) : extraction :=
  Failure "Document processing service error" None method.

(** The handler of [except json.JSONDecodeError]. *)
Definition parse_error (response_text method : string) : extraction :=
  Failure "Failed to process document response"
          (Some (take 500 response_text)) method.

(** Lines 109-114: the average with the OCR confidence when there is
    one, the service's confidence alone otherwise. *)
Definition combine_confidence (ocr_confidence : option float) (api : float)
  : float :=
  match ocr_confidence with
  | Some ocr => ((ocr + api) / 2)%float
  | None => api
  end.

Definition extract_fields_from_text (rt : Runtime) (ai : GenAI)
    (text : string) (ocr_confidence : option float) : extraction :=
  let full_prompt :=
    (FIELD_EXTRACTION_PROMPT ai ++ nl ++ nl ++ "--- DOCUMENT TEXT ---"
       ++ nl ++ text)%string in
  match generate_content ai [PartText full_prompt] with
  | Raise _ => service_error "gemini_text"
  | Ok raw =>
      let response_text := clean_response raw in
      match json_loads rt response_text with
      | None => parse_error response_text "gemini_text"
      | Some (JObj result) =>
          let api_confidence :=
            dict_get_default "confidence" (JNum 0.9) result in
          match json_number api_confidence with
          | None => service_error "gemini_text"
          | Some api =>
              let overall_confidence :=
                combine_confidence ocr_confidence api in
              Success
                {| document_type :=
                     dict_get_default "document_type" (JStr "Unknown") result;
                   confidence := overall_confidence;
                   extracted_data :=
                     dict_get_default "extracted_data" (JArr []) result;
                   summary := dict_get_default "summary" (JStr "") result;
                   method := "gemini_text";
                   ocr_confidence := ocr_confidence;
                   api_confidence := api |}
          end
      | Some _ => service_error "gemini_text"
      end
  end.

Definition extract_fields_from_images (rt : Runtime) (ai : GenAI)
    (images : list pil_image) (text_context : option string) : extraction :=
  let max_images := 10%nat in
  let images :=
    if (max_images <? List.length images)%nat
    then firstn max_images images else images in
  let prompt_parts := [FIELD_EXTRACTION_PROMPT ai] in
  let prompt_parts :=
    match text_context with
    | Some (String c r) =>
        prompt_parts
        ++ [(nl ++ nl ++ "--- ADDITIONAL TEXT CONTEXT ---" ++ nl
               ++ String c r)%string]
    | _ => prompt_parts
    end in
  let prompt_parts :=
    prompt_parts ++ [(nl ++ nl ++ "--- DOCUMENT IMAGES ---")%string] in
  let content_parts :=
    PartText (join nl prompt_parts) :: map PartImage images in
  match generate_content ai content_parts with
  | Raise _ => service_error "gemini_vision"
  | Ok raw =>
      let response_text := clean_response raw in
      match json_loads rt response_text with
      | None => parse_error response_text "gemini_vision"
      | Some (JObj result) =>
          let api_confidence :=
            dict_get_default "confidence" (JNum 0.9) result in
          match json_number api_confidence with
          | None => service_error "gemini_vision"
          | Some api =>
              Success
                {| document_type :=
                     dict_get_default "document_type" (JStr "Unknown") result;
                   confidence := api;
                   extracted_data :=
                     dict_get_default "extracted_data" (JArr []) result;
                   summary := dict_get_default "summary" (JStr "") result;
                   method := "gemini_vision";
                   ocr_confidence := None;
                   api_confidence := api |}
          end
      | Some _ => service_error "gemini_vision"
      end
  end.

End gemini_service.

(* ================================================================== *)
(** * services/document_processor.py *)
(* ================================================================== *)

Module document_processor.
Import pdf_classifier simple_ocr_service gemini_service.

(** The services a [DocumentProcessor] holds. *)
Record DocumentProcessor := {
  the_classifier : PDFClassifier;
  fitz : Fitz;
  ocr_service : Tesseract;
  gemini : GenAI
}.

(** [result['metadata']] *)
Record doc_metadata := {
  md_pdf_type : string;
  md_page_count : Z;
  md_image_count : Z;
  md_has_text : bool;
  md_text_length : Z
}.

(** The returned dictionary: the extraction service's result with the
    metadata entry added. *)
Record processed := {
  extraction_of : extraction;
  metadata : doc_metadata
}.

(** Step 2: [(extracted_text, page_images, ocr_confidence)] by type. *)
Definition extract_content (rt : Runtime) (self : DocumentProcessor)
    (pdf_path : string) (classification : PDFClassification)
  : result (string * list pil_image * option float) :=
  match pdf_type classification with
  | TEXT_ONLY =>
      Ok (text_content classification, [], None)
  | IMAGE_LIGHT =>
      page_images <- render_all_pages_to_images (fitz self) pdf_path 250 ;;
      Ok (if has_text classification then text_content classification else "",
          page_images, None)
  | IMAGE_HEAVY =>
      match images classification with
      | _ :: _ =>
          r <- extract_text_from_images rt (ocr_service self)
                 (images classification) (Some ["eng"; "kan"]) 6 ;;
          Ok (fst r, [], Some (snd r))
      | [] =>
          page_images <- render_all_pages_to_images (fitz self) pdf_path 300 ;;
          r <- extract_text_from_images rt (ocr_service self)
                 page_images (Some ["eng"; "kan"]) 6 ;;
          Ok (fst r, page_images, Some (snd r))
      end
  | MIXED =>
      let text_parts :=
        if has_text classification
        then ["=== Extracted Text ==="; text_content classification]
        else [] in
      match images classification with
      | _ :: _ =>
          r <- extract_text_from_images rt (ocr_service self)
                 (images classification) (Some ["eng"; "kan"]) 6 ;;
          let text_parts :=
            text_parts ++ [(nl ++ "=== OCR from Images ===")%string; fst r] in
          Ok (join (nl ++ nl)%string text_parts, [], Some (snd r))
      | [] =>
          Ok (join (nl ++ nl)%string text_parts, [], None)
      end
  end.

Definition process_document (rt : Runtime) (self : DocumentProcessor)
    (pdf_path : string) : result processed :=
  classification <- classify_pdf (fitz self) (the_classifier self) pdf_path ;;
  content <- extract_content rt self pdf_path classification ;;
  let '(extracted_text, page_images, ocr_confidence) := content in
  let result :=
    match page_images, pdf_type classification with
    | _ :: _, IMAGE_LIGHT =>
        extract_fields_from_images rt (gemini self) page_images
          (match extracted_text with
           | EmptyString => None
           | _ => Some extracted_text
           end)
    | _, _ =>
        extract_fields_from_text rt (gemini self) extracted_text ocr_confidence
    end in
  Ok {| extraction_of := result;
        metadata :=
          {| md_pdf_type := PDFType_value (pdf_type classification);
             md_page_count := page_count classification;
             md_image_count := image_count classification;
             md_has_text := has_text classification;
             md_text_length := text_length classification |} |}.

Definition get_document_processor (fz : Fitz) (tess : Tesseract) (ai : GenAI)
  : DocumentProcessor :=
  {| the_classifier := get_pdf_classifier; fitz := fz;
     ocr_service := tess; gemini := ai |}.

End document_processor.

(* ================================================================== *)
(** * models/job.py and models/field.py *)
(* ================================================================== *)

Module models.

Inductive JobStatus := QUEUED | PROCESSING | COMPLETED | FAILED.

Definition JobStatus_eqb (a b : JobStatus) : bool :=
  match a, b with
  | QUEUED, QUEUED | PROCESSING, PROCESSING
  | COMPLETED, COMPLETED | FAILED, FAILED => true
  | _, _ => false
  end.

(** A row of [jobs]; [R] is the type of the stored fraud report. *)
Record Job (R : Type) := {
  id : Z;
  user_id : Z;
  filename : string;
  s3_path : string;
  file_hash : option string;
  status : JobStatus;
  error_message : option string;
  fraud_analysis : option R;
  created_at : Z;
  completed_at : option Z
}.
Arguments id {R}. Arguments user_id {R}. Arguments filename {R}.
Arguments s3_path {R}. Arguments file_hash {R}. Arguments status {R}.
Arguments error_message {R}. Arguments fraud_analysis {R}.
Arguments created_at {R}. Arguments completed_at {R}.

(** A row of [extracted_fields] (the autoincrement key is left out). *)
Record ExtractedField := {
  job_id : Z;
  field_name : string;
  original_value : option string;
  edited_value : option string;
  confidence : option string;
  is_edited : bool
}.

(** The [current_value] property. *)
Definition current_value (f : ExtractedField) : option string :=
  if is_edited f then edited_value f else original_value f.

End models.

(* ================================================================== *)
(** * services/fraud_detection.py *)
(* ================================================================== *)

Module fraud_detection.
Import models.

(** The three strings ["low"], ["medium"], ["high"] that serve as risk
    level and as severity. *)
Inductive level := low | medium | high.

Definition level_eqb (a b : level) : bool :=
  match a, b with
  | low, low | medium, medium | high, high => true
  | _, _ => false
  end.

(** An entry of [extracted_fields]: the keys the analyzer reads.
    [current_value = None] stands for a missing key as well. *)
Record field := {
  f_field_name : string;
  f_current_value : option string;
  f_confidence : pyval;
  f_extraction_confidence : pyval
}.

(** What the file at a path yields: the EXIF items of [Image.open(path)]
    (tag names through [TAGS.get], values through [str]), and the items of
    [PyPDF2.PdfReader(f).metadata]. *)
Record FileProbe := {
  (** The bytes [open(path, "rb")] reads. *)
  read_bytes : string -> result string;
  exif_items : string -> result (list (string * string));
  pdf_metadata_items : string -> result (list (string * string))
}.

(** ** calculate_file_hash *)

Definition calculate_file_hash (rt : Runtime) (fp : FileProbe)
    (file_path : string) : result string :=
  content <- read_bytes fp file_path ;;
  Ok (sha256_hexdigest rt content).

(** ** check_duplicate *)

Record duplicate_info := {
  is_duplicate : bool;
  original_job_id : Z;
  original_filename : string;
  original_upload_date : string;
  dup_risk_level : level;
  dup_message : string
}.

(** The filter of the query: same user, same hash, status completed. *)
Definition is_prior_copy {R} (file_hash0 : string) (user_id0 : Z) (j : Job R)
  : bool :=
  (user_id j =? user_id0)
  && match file_hash j with
     | Some h => (h =? file_hash0)%string
     | None => false
     end
  && JobStatus_eqb (status j) COMPLETED.

Definition check_duplicate {R} (rt : Runtime) (file_hash0 : string)
    (user_id0 : Z) (db_session : list (Job R)) : option duplicate_info :=
  match find (is_prior_copy file_hash0 user_id0) db_session with
  | Some duplicate_job =>
      Some {| is_duplicate := true;
              original_job_id := id duplicate_job;
              original_filename := filename duplicate_job;
              original_upload_date := isoformat rt (created_at duplicate_job);
              dup_risk_level := high;
              dup_message := "This document has already been processed" |}
  | None => None
  end.

(** ** analyze_image_metadata *)

Record metadata_analysis := {
  manipulation_indicators : list string;
  metadata_available : bool;
  meta_risk_level : level
}.

Definition dict_of_items (items : list (string * string)) : pydict string :=
  fold_left (fun d kv => dict_set (fst kv) (snd kv) d) items [].

Definition _analyze_pdf_metadata (fp : FileProbe) (pdf_path : string)
  : pydict string :=
  match pdf_metadata_items fp pdf_path with
  | Ok items => dict_of_items items
  | Raise _ => []
  end.

Definition editors : list string := ["photoshop"; "gimp"; "paint"].

Definition analyze_image_metadata (fp : FileProbe) (file_path : string)
  : metadata_analysis :=
  let '(indicators, metadata) :=
    if endswith (lower file_path) ".pdf"
    then ([], _analyze_pdf_metadata fp file_path)
    else
      match exif_items fp file_path with
      | Raise _ => (["Unable to extract metadata"], [])
      | Ok items =>
          let metadata := dict_of_items items in
          let indicators :=
            match dict_get "Software" metadata with
            | Some sw =>
                let software := lower sw in
                if existsb (fun editor => contains editor software) editors
                then ["Document edited with image editing software"]
                else []
            | None => []
            end in
          let indicators :=
            if negb (dict_mem "DateTime" metadata)
            then indicators ++ ["Missing creation timestamp"]
            else indicators in
          (indicators, metadata)
      end in
  let risk_level :=
    if (2 <=? List.length indicators)%nat then high
    else match indicators with [] => low | _ => medium end in
  {| manipulation_indicators := indicators;
     metadata_available := match metadata with [] => false | _ => true end;
     meta_risk_level := risk_level |}.

(** ** _extract_amount and _parse_date *)

(** [re.sub(r'[,$...]', '', text)]: of the symbols in the class, the
    comma, the dollar and the pound sign are code points below 256. *)
Definition is_currency_symbol (c : ascii) : bool :=
  let n := N_of_ascii c in ((n =? 44) || (n =? 36) || (n =? 163))%N.

Fixpoint remove_currency (s : string) : string :=
  match s with
  | EmptyString => EmptyString
  | String c r =>
      if is_currency_symbol c then remove_currency r
      else String c (remove_currency r)
  end.

(** [s.replace(',', '')] *)
Fixpoint remove_commas (s : string) : string :=
  match s with
  | EmptyString => EmptyString
  | String c r =>
      if (N_of_ascii c =? 44)%N then remove_commas r
      else String c (remove_commas r)
  end.

Fixpoint take_digits (s : string) : string :=
  match s with
  | String c r => if isdigit c then String c (take_digits r) else EmptyString
  | EmptyString => EmptyString
  end.

Fixpoint drop_digits (s : string) : string :=
  match s with
  | String c r => if isdigit c then drop_digits r else s
  | EmptyString => EmptyString
  end.

(** [re.search(r'[\d,]+\.?\d*', cleaned).group()] on a string without
    commas: the leftmost run of digits, a dot if one follows, and the
    digits after it. *)
Fixpoint search_number (cleaned : string) : option string :=
  match cleaned with
  | EmptyString => None
  | String c r =>
      if isdigit c then
        let int_part := take_digits cleaned in
        match drop_digits cleaned with
        | String "." after => Some (int_part ++ "." ++ take_digits after)%string
        | _ => Some int_part
        end
      else search_number r
  end.

Definition _extract_amount (rt : Runtime) (text : option string)
  : option float :=
  match text with
  | None | Some EmptyString => None
  | Some text =>
      let cleaned := remove_currency text in
      match search_number cleaned with
      | Some m => py_float rt (remove_commas m)
      | None => None
      end
  end.

Definition date_formats : list string :=
  ["%Y-%m-%d"; "%d/%m/%Y"; "%m/%d/%Y"; "%d-%m-%Y"; "%m-%d-%Y"; "%Y/%m/%d";
   "%d %B %Y"; "%B %d, %Y"].

Fixpoint first_parse (rt : Runtime) (date_str : string) (formats : list string)
  : option Z :=
  match formats with
  | [] => None
  | fmt :: rest =>
      match strptime rt date_str fmt with
      | Some d => Some d
      | None => first_parse rt date_str rest
      end
  end.

Definition _parse_date (rt : Runtime) (date_str : option string) : option Z :=
  match date_str with
  | None | Some EmptyString => None
  | Some s => first_parse rt s date_formats
  end.

(** ** check_text_consistency *)

Record consistency_issue := {
  issue : string;
  details : string;
  severity : level
}.

Record consistency_check := {
  consistency_issues : list consistency_issue;
  total_issues : Z;
  cons_risk_level : level
}.

(** [self.fraud_patterns['suspicious_amounts']], each pattern as the test
    [re.search(pattern, s)]:
    - [\$9{3,}] finds a dollar sign followed by three nines;
    - [\.00$] finds [.00] at the end, or before a final line feed. *)
Definition suspicious_amounts : list (string -> bool) :=
  [ (fun s => contains "$999" s);
    (fun s => endswith s ".00" || endswith s (".00" ++ nl)%string) ].

(** [str(value)] of a dictionary value. *)
Definition str_of_value (v : option string) : string :=
  match v with Some s => s | None => "None" end.

(** [{field['field_name']: field.get('current_value', '') ...}] *)
Definition field_dict_of (extracted_fields : list field)
  : pydict (option string) :=
  fold_left (fun d f => dict_set (f_field_name f) (f_current_value f) d)
            extracted_fields [].

(** [bool(x)] of an [Optional[float]]. *)
Definition amount_truthy (a : option float) : bool :=
  match a with Some x => float_truthy x | None => false end.

(** [bool(s)] of a dictionary value. *)
Definition value_truthy (v : option string) : bool :=
  match v with
  | Some (String _ _) => true
  | _ => false
  end.

Definition total_mismatch_issue (rt : Runtime)
    (subtotal tax calculated_total total_amount : float) : consistency_issue :=
  {| issue := "Total amount mismatch";
     details :=
       ("Subtotal (" ++ float_repr rt subtotal ++ ") + Tax ("
          ++ float_repr rt tax ++ ") = " ++ float_repr rt calculated_total
          ++ ", but Total shows " ++ float_repr rt total_amount)%string;
     severity := high |}.

(** The check of the invoice totals (lines 192-203). *)
Definition totals_issues (rt : Runtime) (field_dict : pydict (option string))
  : list consistency_issue :=
  let total_amount :=
    _extract_amount rt (dict_get_default "invoice_total" (Some "") field_dict) in
  let subtotal :=
    _extract_amount rt (dict_get_default "invoice_subtotal" (Some "") field_dict) in
  let tax :=
    _extract_amount rt (dict_get_default "invoice_tax" (Some "") field_dict) in
  if amount_truthy total_amount && amount_truthy subtotal && amount_truthy tax
  then
    match total_amount, subtotal, tax with
    | Some total_amount, Some subtotal, Some tax =>
        let calculated_total := (subtotal + tax)%float in
        if (0.01 <? abs (calculated_total - total_amount))%float
        then [total_mismatch_issue rt subtotal tax calculated_total total_amount]
        else []
    | _, _, _ => []
    end
  else [].

(** The two date checks (lines 206-228). *)
Definition date_issues (rt : Runtime) (clk : Clock)
    (field_dict : pydict (option string)) : list consistency_issue :=
  let invoice_date := dict_get_default "invoice_date" (Some "") field_dict in
  let due_date := dict_get_default "invoice_due_date" (Some "") field_dict in
  let future :=
    if value_truthy invoice_date then
      match _parse_date rt invoice_date with
      | Some parsed_date =>
          if now clk <? parsed_date
          then [ {| issue := "Future invoice date";
                    details :=
                      ("Invoice date (" ++ str_of_value invoice_date
                         ++ ") is in the future")%string;
                    severity := medium |} ]
          else []
      | None => []
      end
    else [] in
  let inverted :=
    if value_truthy invoice_date && value_truthy due_date then
      match _parse_date rt invoice_date, _parse_date rt due_date with
      | Some inv_date, Some d_date =>
          if d_date <? inv_date
          then [ {| issue := "Due date before invoice date";
                    details :=
                      ("Due date (" ++ str_of_value due_date
                         ++ ") is before invoice date ("
                         ++ str_of_value invoice_date ++ ")")%string;
                    severity := high |} ]
          else []
      | _, _ => []
      end
    else [] in
  future ++ inverted.

(** The pattern screen over the items of the dictionary (lines 231-239). *)
Definition pattern_issues (field_dict : pydict (option string))
  : list consistency_issue :=
  flat_map
    (fun kv : string * option string =>
       let '(field_name0, value) := kv in
       if contains "amount" (lower field_name0)
          || contains "total" (lower field_name0)
       then
         flat_map
           (fun pattern : string -> bool =>
              if pattern (str_of_value value)
              then [ {| issue := "Suspicious amount pattern";
                        details :=
                          ("Field '" ++ field_name0
                             ++ "' has suspicious value: "
                             ++ str_of_value value)%string;
                        severity := medium |} ]
              else [])
           suspicious_amounts
       else [])
    field_dict.

Definition check_text_consistency (rt : Runtime) (clk : Clock)
    (extracted_fields : list field) : consistency_check :=
  let field_dict := field_dict_of extracted_fields in
  let issues :=
    totals_issues rt field_dict
    ++ date_issues rt clk field_dict
    ++ pattern_issues field_dict in
  let risk_level :=
    if existsb (fun i => level_eqb (severity i) high) issues then high
    else match issues with [] => low | _ => medium end in
  {| consistency_issues := issues;
     total_issues := Z.of_nat (List.length issues);
     cons_risk_level := risk_level |}.

(** ** analyze_confidence_scores *)

Record low_confidence_field := {
  lc_field : string;
  lc_confidence : float;
  lc_value : option string;
  lc_reason : string
}.

Record confidence_analysis := {
  average_confidence : float;
  low_confidence_fields : list low_confidence_field;
  total_low_confidence : Z;
  conf_risk_level : level
}.

Definition critical_fields : list string :=
  ["invoice_total"; "invoice_number"; "invoice_date";
   "customer_name"; "vendor_name"].

Definition confidence_map : pydict float :=
  [("high", 0.9%float); ("medium", 0.7%float); ("low", 0.5%float);
   ("very high", 0.95%float); ("very low", 0.3%float)].

(** [field.get('confidence') or field.get('extraction_confidence')] *)
Definition confidence_of (f : field) : pyval :=
  py_or (f_confidence f) (f_extraction_confidence f).

(** The number the first loop reads off a confidence; [None] where the
    loop goes on to the next field. *)
Definition conf_float (rt : Runtime) (conf : pyval) : option float :=
  match conf with
  | PStr s =>
      match dict_get (strip (lower s)) confidence_map with
      | Some x => Some x
      | None => py_float rt s
      end
  | PNum x => Some x
  | PNone => None
  end.

(** One turn of the first loop. *)
Definition flag_step (rt : Runtime)
    (low_confidence_fields : list low_confidence_field) (f : field)
  : list low_confidence_field :=
  let field_name0 := f_field_name f in
  let conf := confidence_of f in
  if truthy conf then
    match conf_float rt conf with
    | None => low_confidence_fields
    | Some x =>
        if existsb (String.eqb field_name0) critical_fields
           && (x <? 0.70)%float
        then low_confidence_fields
             ++ [ {| lc_field := field_name0; lc_confidence := x;
                     lc_value := f_current_value f;
                     lc_reason := "Critical field with low confidence" |} ]
        else if (x <? 0.50)%float
        then low_confidence_fields
             ++ [ {| lc_field := field_name0; lc_confidence := x;
                     lc_value := f_current_value f;
                     lc_reason := "Extremely low extraction confidence" |} ]
        else low_confidence_fields
    end
  else low_confidence_fields.

(** The second loop: the confidences that enter the average. *)
Fixpoint collect_confidences (rt : Runtime) (extracted_fields : list field)
    (confidences : list float) : result (list float) :=
  match extracted_fields with
  | [] => Ok confidences
  | f :: rest =>
      let conf := confidence_of f in
      if truthy conf then
        x <- float_of rt conf ;;
        collect_confidences rt rest (confidences ++ [x])
      else collect_confidences rt rest confidences
  end.

Definition confidence_level (avg_confidence : float)
    (low_confidence_fields : list low_confidence_field) : level :=
  if (avg_confidence <? 0.60)%float
     || (3 <=? List.length low_confidence_fields)%nat then high
  else if (avg_confidence <? 0.75)%float
          || match low_confidence_fields with [] => false | _ => true end
  then medium
  else low.

Definition analyze_confidence_scores (rt : Runtime)
    (extracted_fields : list field) : result confidence_analysis :=
  let low_confidence_fields := fold_left (flag_step rt) extracted_fields [] in
  confidences <- collect_confidences rt extracted_fields [] ;;
  let avg_confidence :=
    match confidences with
    | [] => 0%float
    | _ => mean confidences
    end in
  Ok {| average_confidence := round3 rt avg_confidence;
        low_confidence_fields := low_confidence_fields;
        total_low_confidence := Z.of_nat (List.length low_confidence_fields);
        conf_risk_level := confidence_level avg_confidence low_confidence_fields |}.

(** ** perform_full_analysis *)

Record risk_scores := {
  rs_duplicate : Z;
  rs_metadata : Z;
  rs_consistency : Z;
  rs_confidence : Z
}.

Record detailed_analysis := {
  duplicate_detection : option duplicate_info;
  da_metadata_analysis : metadata_analysis;
  da_consistency_check : consistency_check;
  da_confidence_analysis : confidence_analysis
}.

Record report := {
  overall_risk_level : level;
  risk_score : Z;
  max_risk_score : Z;
  recommendation : string;
  flags : list string;
  total_flags : Z;
  detailed : detailed_analysis;
  timestamp : string
}.

(** The dictionary [risk_scores] of lines 361-369. *)
Definition risk_scores_of (d : detailed_analysis) : risk_scores :=
  {| rs_duplicate :=
       match duplicate_detection d with Some _ => 3 | None => 0 end;
     rs_metadata :=
       match meta_risk_level (da_metadata_analysis d) with
       | high => 2 | medium => 1 | low => 0
       end;
     rs_consistency :=
       match cons_risk_level (da_consistency_check d) with
       | high => 3 | medium => 1 | low => 0
       end;
     rs_confidence :=
       match conf_risk_level (da_confidence_analysis d) with
       | high => 2 | medium => 1 | low => 0
       end |}.

(** [sum(risk_scores.values())] *)
Definition sum_values (s : risk_scores) : Z :=
  0 + rs_duplicate s + rs_metadata s + rs_consistency s + rs_confidence s.

(** Lines 374-382. *)
Definition overall_of (total_risk_score : Z) : level * string :=
  if total_risk_score >=? 6
  then (high, "Manual review required - Multiple fraud indicators detected")
  else if total_risk_score >=? 3
  then (medium, "Review recommended - Some fraud indicators present")
  else (low, "Document appears legitimate").

(** Lines 385-397. *)
Definition all_flags_of (d : detailed_analysis) : list string :=
  (match duplicate_detection d with
   | Some _ => ["Duplicate document detected"]
   | None => []
   end)
  ++ manipulation_indicators (da_metadata_analysis d)
  ++ map issue (consistency_issues (da_consistency_check d))
  ++ match low_confidence_fields (da_confidence_analysis d) with
     | [] => []
     | l => [(str_of_int (Z.of_nat (List.length l))
                ++ " fields with low confidence")%string]
     end.

Definition perform_full_analysis {R} (rt : Runtime) (fp : FileProbe)
    (clk : Clock) (file_path file_hash0 : string) (user_id0 : Z)
    (extracted_fields : list field) (db_session : list (Job R))
  : result report :=
  let duplicate_check := check_duplicate rt file_hash0 user_id0 db_session in
  let metadata_analysis0 := analyze_image_metadata fp file_path in
  let consistency_check0 := check_text_consistency rt clk extracted_fields in
  confidence_analysis0 <- analyze_confidence_scores rt extracted_fields ;;
  let d :=
    {| duplicate_detection := duplicate_check;
       da_metadata_analysis := metadata_analysis0;
       da_consistency_check := consistency_check0;
       da_confidence_analysis := confidence_analysis0 |} in
  let total_risk_score := sum_values (risk_scores_of d) in
  let '(overall_risk, recommendation0) := overall_of total_risk_score in
  let all_flags := all_flags_of d in
  Ok {| overall_risk_level := overall_risk;
        risk_score := total_risk_score;
        max_risk_score := 9;
        recommendation := recommendation0;
        flags := all_flags;
        total_flags := Z.of_nat (List.length all_flags);
        detailed := d;
        timestamp := isoformat rt (utcnow clk) |}.

End fraud_detection.

(* ================================================================== *)
(** * workers/tasks.py *)
(* ================================================================== *)

Module tasks.
Import models pdf_classifier simple_ocr_service gemini_service.
Import document_processor fraud_detection.

Definition job := Job report.

(** The session: the two tables the task reads and writes. *)
Record database := {
  jobs : list job;
  extracted_fields : list ExtractedField
}.

(** The object store and the temporary directory. *)
Record Storage := {
  UPLOAD_TEMP_DIR : string;
  mkdir : string -> result unit;
  download_file : string -> string -> result unit
}.

(** The database behind the session, as far as the task depends on it:
    what the INSERT of a row stores in [field_name], a column declared
    [String(100), nullable=False], for a key that is not null, or the
    error the flush raises (a key the column cannot hold; which keys
    those are is the engine's matter). *)
Record Engine := {
  insert_field_name : json -> result string
}.

Record Services := {
  rt : Runtime;
  clock : Clock;
  storage : Storage;
  processor : DocumentProcessor;
  probe : FileProbe;
  engine : Engine
}.

(** How the task ends: with one of its three dictionaries, or, when its
    handler's own [db.commit()] raises, with that exception leaving the
    function; [cause] is the error of the flush that left the session
    inactive. *)
Inductive task_result :=
| JobNotFound
| TaskCompleted (method pdf_type : string) (document_type : json)
                (confidence : float) (fields_count : Z)
| TaskFailed (error : string)
| TaskRaised (cause : exn).

(** ** save_extracted_fields *)

(** [str(v)]: a [str] is itself. *)
Definition str_of_json (rt : Runtime) (v : json) : string :=
  match v with
  | JStr s => s
  | _ => py_str rt v
  end.

(** The items [for item in extracted_data] visits; a value that cannot
    be iterated raises [TypeError]. *)
Definition json_items (v : json) : result (list json) :=
  match v with
  | JArr l => Ok l
  | JObj d => Ok (map (fun kv => JStr (fst kv)) d)
  | JStr s => Ok (map (fun c => JStr (String c EmptyString))
                      (list_ascii_of_string s))
  | _ => Raise (Exn TypeError "object is not iterable")
  end.

Definition is_not_found (v : json) : bool :=
  match v with
  | JStr s => (s =? "Not found")%string
  | _ => false
  end.

Definition metadata_fields (rt : Runtime) (result_data : processed)
  : list (string * json) :=
  match extraction_of result_data with
  | Success r =>
      [ ("_document_type", document_type r);
        ("_confidence", JStr (float_repr rt (gemini_service.confidence r)));
        ("_summary", summary r);
        ("_method", JStr (method r));
        ("_pdf_type", JStr (md_pdf_type (metadata result_data))) ]
  | Failure _ _ m =>
      [ ("_document_type", JStr "Unknown");
        ("_confidence", JStr (float_repr rt 0));
        ("_summary", JStr "");
        ("_method", JStr m);
        ("_pdf_type", JStr (md_pdf_type (metadata result_data))) ]
  end.

Definition metadata_rows (rt : Runtime) (job_id0 : Z) (result_data : processed)
  : list ExtractedField :=
  flat_map
    (fun nv : string * json =>
       if json_truthy (snd nv)
       then [ {| job_id := job_id0; field_name := fst nv;
                 original_value := Some (take 500 (str_of_json rt (snd nv)));
                 edited_value := None; models.confidence := Some "0.90";
                 is_edited := false |} ]
       else [])
    (metadata_fields rt result_data).

(** A row between [db.add] and the flush: [field_name] still holds the
    key as the reply gave it, whatever its type. *)
Record pending_field := {
  pf_field_name : json;
  pf_original_value : string
}.

(** One turn of the loop over [extracted_data]: the row it adds to the
    session, if any. *)
Definition data_row (rt : Runtime) (item : json) : list pending_field :=
  match item with
  | JObj d =>
      match dict_get "key" d, dict_get "value" d with
      | Some k, Some value =>
          if json_truthy value && negb (is_not_found value)
          then [ {| pf_field_name := k;
                    pf_original_value := str_of_json rt value |} ]
          else []
      | _, _ => []
      end
  | _ => []
  end.

(** The INSERT of one pending row: a null [field_name] violates the
    column's NOT NULL constraint; for any other key the engine stores
    what it makes of it, or raises. *)
Definition insert_row (eng : Engine) (job_id0 : Z) (f : pending_field)
  : result ExtractedField :=
  match pf_field_name f with
  | JNull =>
      Raise (Exn OtherError
               "null value in column field_name violates not-null constraint")
  | k =>
      name <- insert_field_name eng k ;;
      Ok {| job_id := job_id0; field_name := name;
            original_value := Some (pf_original_value f);
            edited_value := None; models.confidence := Some "0.70";
            is_edited := false |}
  end.

(** The flush of the pending rows, in the order they were added: the
    first INSERT that fails raises, and no row is stored. *)
Fixpoint flush (eng : Engine) (job_id0 : Z) (pending : list pending_field)
  : result (list ExtractedField) :=
  match pending with
  | [] => Ok []
  | f :: rest =>
      row <- insert_row eng job_id0 f ;;
      rows <- flush eng job_id0 rest ;;
      Ok (row :: rows)
  end.

Definition extracted_data_of (result_data : processed) : json :=
  match extraction_of result_data with
  | Success r => extracted_data r
  | Failure _ _ _ => JArr []
  end.

(** How [save_extracted_fields] ends. [Saved]: it returns, the rows are
    stored. [SaveRaised]: the loop raises; the rows added before it stay
    pending in the session and go out with its next commit.
    [FlushFailed]: [db.commit()] raises in its flush; the transaction,
    with every row of this call, is rolled back, and the session stays
    inactive: it refuses a further commit until [rollback()] is
    called. *)
Inductive save_outcome :=
| Saved
| SaveRaised (e : exn)
| FlushFailed (e : exn).

(** The session after the call, and how the call ended. The rows with
    the five fixed names are taken to be storable. *)
Definition save_extracted_fields (rt : Runtime) (eng : Engine)
    (db : database) (job_id0 : Z) (result_data : processed)
  : database * save_outcome :=
  let db1 :=
    {| jobs := jobs db;
       extracted_fields :=
         extracted_fields db ++ metadata_rows rt job_id0 result_data |} in
  match json_items (extracted_data_of result_data) with
  | Raise e => (db1, SaveRaised e)
  | Ok items =>
      match flush eng job_id0 (flat_map (data_row rt) items) with
      | Ok rows =>
          ({| jobs := jobs db1;
              extracted_fields := extracted_fields db1 ++ rows |},
           Saved)
      | Raise e => (db, FlushFailed e)
      end
  end.

(** ** process_document *)

(** Writing the job object back to its row. The task writes the job's
    columns with values of their declared types (a status, a digest of 64
    characters, a message, a report, a time): this UPDATE is taken to
    succeed. *)
Definition commit (db : database) (j : job) : database :=
  {| jobs := map (fun x => if id x =? id j then j else x) (jobs db);
     extracted_fields := extracted_fields db |}.

Definition with_status (j : job) (st : JobStatus) : job :=
  {| id := id j; user_id := user_id j; filename := filename j;
     s3_path := s3_path j; file_hash := file_hash j; status := st;
     error_message := error_message j; fraud_analysis := fraud_analysis j;
     created_at := created_at j; completed_at := completed_at j |}.

Definition with_file_hash (j : job) (h : string) : job :=
  {| id := id j; user_id := user_id j; filename := filename j;
     s3_path := s3_path j; file_hash := Some h; status := status j;
     error_message := error_message j; fraud_analysis := fraud_analysis j;
     created_at := created_at j; completed_at := completed_at j |}.

Definition with_fraud_analysis (j : job) (r : report) : job :=
  {| id := id j; user_id := user_id j; filename := filename j;
     s3_path := s3_path j; file_hash := file_hash j; status := status j;
     error_message := error_message j; fraud_analysis := Some r;
     created_at := created_at j; completed_at := completed_at j |}.

Definition completed (j : job) (t : Z) : job :=
  {| id := id j; user_id := user_id j; filename := filename j;
     s3_path := s3_path j; file_hash := file_hash j; status := COMPLETED;
     error_message := error_message j; fraud_analysis := fraud_analysis j;
     created_at := created_at j; completed_at := Some t |}.

Definition failed (j : job) (msg : string) (t : Z) : job :=
  {| id := id j; user_id := user_id j; filename := filename j;
     s3_path := s3_path j; file_hash := file_hash j; status := FAILED;
     error_message := Some msg; fraud_analysis := fraud_analysis j;
     created_at := created_at j; completed_at := Some t |}.

(** [field.current_value or field.original_value] and the other entries
    of [fields_list]. *)
Definition field_entry (f : ExtractedField) : field :=
  {| f_field_name := field_name f;
     f_current_value :=
       match current_value f with
       | Some (String c r) => Some (String c r)
       | _ => original_value f
       end;
     f_confidence :=
       match models.confidence f with
       | Some c => PStr c
       | None => PNone
       end;
     f_extraction_confidence := PNone |}.

(** How the body of the [try] ends: it returns, or an exception reaches
    the handler, with the session still usable or, after a failed flush,
    inactive. *)
Inductive body_end :=
| Returns (r : task_result)
| Raises (e : exn)
| RaisesInactive (e : exn).

(** The body of the [try] once the job is found and set to PROCESSING:
    the session and the job object as the body leaves them, and its
    outcome. *)
Definition try_body (sv : Services) (db : database) (j : job)
  : database * job * body_end :=
  let job_id0 := id j in
  let temp_dir := UPLOAD_TEMP_DIR (storage sv) in
  let temp_file :=
    (temp_dir ++ "/job_" ++ str_of_int job_id0 ++ "_" ++ filename j)%string in
  match (_ <- mkdir (storage sv) temp_dir ;;
         download_file (storage sv) (s3_path j) temp_file) with
  | Raise e => (db, j, Raises e)
  | Ok _ =>
  match calculate_file_hash (rt sv) (probe sv) temp_file with
  | Raise e => (db, j, Raises e)
  | Ok file_hash0 =>
  let j := with_file_hash j file_hash0 in
  let db := commit db j in
  match process_document (rt sv) (processor sv) temp_file with
  | Raise e => (db, j, Raises e)
  | Ok result =>
  match extraction_of result with
  | Failure error _ _ =>
      (db, j,
       Raises (Exn ValueError ("Document processing failed: " ++ error)%string))
  | Success r =>
  match save_extracted_fields (rt sv) (engine sv) db job_id0 result with
  | (db, FlushFailed e) => (db, j, RaisesInactive e)
  | (db, SaveRaised e) => (db, j, Raises e)
  | (db, Saved) =>
  let fields_list :=
    map field_entry
        (filter (fun f => job_id f =? job_id0) (extracted_fields db)) in
  match perform_full_analysis (rt sv) (probe sv) (clock sv) temp_file
          file_hash0 (user_id j) fields_list (jobs db) with
  | Raise e => (db, j, Raises e)
  | Ok fraud_analysis0 =>
  let j := with_fraud_analysis j fraud_analysis0 in
  let db := commit db j in
  let j := completed j (utcnow (clock sv)) in
  let db := commit db j in
  match json_items (extracted_data r) with
  | Raise e => (db, j, Raises e)
  | Ok items =>
      (db, j,
       Returns (TaskCompleted (method r) (md_pdf_type (metadata result))
                  (document_type r) (gemini_service.confidence r)
                  (Z.of_nat (List.length items) + 3)))
  end end end end end end end.

(** Lines 73-208. In the handler the job is set to FAILED and committed;
    on an inactive session that commit raises in its turn, the exception
    leaves the task, and the session scope rolls back what was not
    committed: the job's row stays as the last commit of the body left
    it. *)
Definition process_document (sv : Services) (db : database) (job_id0 : Z)
  : database * task_result :=
  match find (fun j : job => id j =? job_id0) (jobs db) with
  | None => (db, JobNotFound)
  | Some j =>
      let j := with_status j PROCESSING in
      let db := commit db j in
      match try_body sv db j with
      | (db, _, Returns r) => (db, r)
      | (db, j, Raises e) =>
          let j := failed j (exn_msg e) (utcnow (clock sv)) in
          (commit db j, TaskFailed (exn_msg e))
      | (db, _, RaisesInactive e) => (db, TaskRaised e)
      end
  end.

(** The row of a job after a run. *)
Definition job_after (db : database) (job_id0 : Z) : option job :=
  find (fun j : job => id j =? job_id0) (jobs db).

End tasks.

(* ================================================================== *)
(** * services/pdf_classifier.py: the loaders of image files *)
(* ================================================================== *)

Module image_files.
Import pdf_classifier.

(** An image as [Image.open] returns it: positioned at its first frame,
    with what [img.seek(n)] finds at the frames after it (the frame, or
    the exception [seek] raises); past the last frame [seek] raises
    [EOFError]. *)
Record opened_image := {
  first_frame : pil_image;
  later_frames : list (result pil_image)
}.

(** [Image.open] *)
Record Pillow := {
  image_open : string -> result opened_image
}.

(** [img.copy()]: the pixel data is loaded. *)
Definition copy (im : pil_image) : result pil_image :=
  if img_decodes im then Ok im
  else Raise (Exn OtherError "cannot decode image data").

(** [img.mode not in ('RGB', 'L')] *)
Definition needs_rgb (im : pil_image) : bool :=
  negb ((img_mode im =? "RGB")%string || (img_mode im =? "L")%string).

(** The [while True] loop of lines 270-285 from one frame on; the end of
    the frames is the [EOFError] that ends the loop. *)
Fixpoint tiff_pages (frames : list (result pil_image))
    (pages : list pil_image) : result (list pil_image) :=
  match frames with
  | [] => Ok pages
  | Raise e :: _ => Raise e
  | Ok img :: rest =>
      page_img <- (if needs_rgb img then convert_rgb img else copy img) ;;
      tiff_pages rest (pages ++ [page_img])
  end.

(** Lines 249-295. *)
Definition process_tiff_to_images (pil : Pillow) (tiff_path : string)
  : result (list pil_image) :=
  match (img <- image_open pil tiff_path ;;
         pages <- tiff_pages (Ok (first_frame img) :: later_frames img) [] ;;
         match pages with
         | [] => Raise (Exn ValueError "No valid pages found in TIFF file")
         | _ => Ok pages
         end) with
  | Ok pages => Ok pages
  | Raise e => Raise (Exn ValueError ("Invalid TIFF file: " ++ exn_msg e)%string)
  end.

(** Lines 298-324. *)
Definition process_image_file (pil : Pillow) (image_path : string)
  : result (list pil_image) :=
  match (img <- image_open pil image_path ;;
         img <- (if needs_rgb (first_frame img)
                 then convert_rgb (first_frame img)
                 else Ok (first_frame img)) ;;
         Ok [img]) with
  | Ok l => Ok l
  | Raise e => Raise (Exn ValueError ("Invalid image file: " ++ exn_msg e)%string)
  end.

End image_files.

(* ================================================================== *)
(** * services/credit_service.py *)
(* ================================================================== *)

Module credit_service.

Record User := {
  u_id : Z;
  credits : Z
}.

Record CreditLog := {
  cl_user_id : Z;
  cl_amount : Z;
  cl_reason : string
}.

(** [settings.CREDITS_PER_DOCUMENT] and [str.upper]. *)
Record Settings := {
  CREDITS_PER_DOCUMENT : Z;
  upper : string -> string
}.

Definition CREDIT_COST_PER_IMAGE : Z := 1.
Definition CREDIT_COST_PER_PDF_PAGE : Z := 1.

(** Lines 43-68. *)
Definition calculate_credits_required (settings : Settings)
    (file_type : string) (page_count : Z) : Z :=
  let file_type := lower file_type in
  if (file_type =? "pdf")%string then CREDIT_COST_PER_PDF_PAGE * page_count
  else if existsb (String.eqb file_type)
            ["jpg"; "jpeg"; "png"; "gif"; "bmp"; "tiff"]
  then CREDIT_COST_PER_IMAGE
  else CREDITS_PER_DOCUMENT settings.

(** Lines 72-103. *)
Definition check_sufficient_credits (settings : Settings) (user : User)
    (file_type : string) (page_count : Z) : bool * Z * string :=
  let required_credits :=
    calculate_credits_required settings file_type page_count in
  if required_credits <=? credits user then
    (true, required_credits,
     ("Sufficient credits (" ++ str_of_int (credits user) ++ " available, "
      ++ str_of_int required_credits ++ " required)")%string)
  else
    (false, required_credits,
     ("Insufficient credits. You have " ++ str_of_int (credits user)
      ++ " credits, but need " ++ str_of_int required_credits ++ " "
      ++ "to process this " ++ upper settings file_type ++ " "
      ++ (if (1 <? page_count)%Z
          then "document with " ++ str_of_int page_count ++ " pages"
          else "file") ++ ".")%string).

(** Lines 105-167: the user and the log after the call, and the number
    returned. *)
Definition deduct_credits (settings : Settings) (user : User)
    (db : list CreditLog) (file_type : string) (page_count : Z)
    (filename : string) (job_id : option Z)
  : result (User * list CreditLog * Z) :=
  let credits_required :=
    calculate_credits_required settings file_type page_count in
  let '(has_credits, _, message) :=
    check_sufficient_credits settings user file_type page_count in
  if negb has_credits then Raise (Exn ValueError message)
  else
    let user :=
      {| u_id := u_id user; credits := credits user - credits_required |} in
    let reason :=
      if (file_type =? "pdf")%string && (1 <? page_count)
      then ("PDF processing: " ++ filename ++ " (" ++ str_of_int page_count
            ++ " pages)")%string
      else if (file_type =? "pdf")%string
      then ("PDF processing: " ++ filename ++ " (1 page)")%string
      else ("Image processing: " ++ filename)%string in
    let reason :=
      match job_id with
      | Some n =>
          if n =? 0 then reason
          else (reason ++ " [Job #" ++ str_of_int n ++ "]")%string
      | None => reason
      end in
    let credit_log :=
      {| cl_user_id := u_id user; cl_amount := - credits_required;
         cl_reason := reason |} in
    Ok (user, db ++ [credit_log], credits_required).

(** Lines 169-198. *)
Definition add_credits (user : User) (db : list CreditLog) (amount : Z)
    (reason : string) : result (User * list CreditLog) :=
  if amount <=? 0
  then Raise (Exn ValueError "Credit amount must be positive")
  else
    let user := {| u_id := u_id user; credits := credits user + amount |} in
    Ok (user,
        db ++ [ {| cl_user_id := u_id user; cl_amount := amount;
                   cl_reason := reason |} ]).

End credit_service.

(* ================================================================== *)
(** * Sample collaborators

    Small instances of the library records, on which the statements below
    are exercised. *)
(* ================================================================== *)

Module samples.
Import models pdf_classifier simple_ocr_service gemini_service.
Import document_processor fraud_detection tasks.

Fixpoint digits_value (s : string) (acc : Z) : option Z :=
  match s with
  | EmptyString => Some acc
  | String c r =>
      if isdigit c
      then digits_value r (10 * acc + (Z.of_N (N_of_ascii c) - 48))
      else None
  end.

Definition float_of_Z (n : Z) : float := PrimFloat.of_uint63 (Uint63.of_Z n).

(** [float] on plain decimals [ddd] and [ddd.ddd] of at most fifteen
    digits, where it is the quotient of two exact floats; [None]
    elsewhere. *)
Definition short_decimal (s : string) : option float :=
  let int_part := take_digits s in
  match int_part, drop_digits s with
  | EmptyString, _ => None
  | _, EmptyString =>
      if (String.length int_part <=? 15)%nat
      then option_map float_of_Z (digits_value int_part 0) else None
  | _, String "." frac =>
      if (String.length int_part + String.length frac <=? 15)%nat
      then match digits_value (int_part ++ frac) 0 with
           | Some n =>
               Some (float_of_Z n
                     / float_of_Z (10 ^ Z.of_nat (String.length frac)))%float
           | None => None
           end
      else None
  | _, _ => None
  end.

(** A decoder that knows two documents. *)
Definition tiny_json_loads (s : string) : option json :=
  if (s =? "{}")%string then Some (JObj [])
  else if (s =? "[]")%string then Some (JArr [])
  else None.

Definition sample_runtime : Runtime :=
  {| py_float := short_decimal;
     json_loads := tiny_json_loads;
     py_str := fun _ => "?";
     float_repr := fun _ => "?";
     round3 := fun x => x;
     strptime := fun _ _ => None;
     isoformat := fun _ => "1970-01-01T00:00:00";
     sha256_hexdigest := fun data => data |}.

Definition sample_clock : Clock := {| now := 0; utcnow := 0 |}.

Definition gray_scan : pil_image :=
  {| img_width := 1240; img_height := 1754; img_mode := "L";
     img_decodes := true |}.

Definition truncated_scan : pil_image :=
  {| img_width := 1240; img_height := 1754; img_mode := "L";
     img_decodes := false |}.

Definition scan_page : pdf_page :=
  {| page_text := "";
     page_images := [Ok gray_scan; Raise (Exn OtherError "bad xref")] |}.

Definition sample_fitz : Fitz :=
  {| fitz_open := fun _ => Ok [scan_page];
     get_pixmap := fun _ _ => Ok gray_scan |}.

(** Six scanned pages without text. *)
Definition long_scan_fitz : Fitz :=
  {| fitz_open := fun _ => Ok (repeat scan_page 6);
     get_pixmap := fun _ _ => Ok gray_scan |}.

Definition sample_tesseract : Tesseract :=
  {| image_to_string := fun _ _ _ => Ok " Total 1300 ";
     image_to_data_conf := fun _ _ _ => Ok [PStr "-1"; PNum 90; PStr "96"] |}.

(** An engine whose ['conf'] column holds numbers, the first of them the
    -1 of a cell without text. *)
Definition numeric_tesseract : Tesseract :=
  {| image_to_string := fun _ _ _ => Ok " Total 1300 ";
     image_to_data_conf := fun _ _ _ => Ok [PNum (-1); PNum 96] |}.

(** The same engine on a page without text. *)
Definition blank_tesseract : Tesseract :=
  {| image_to_string := fun _ _ _ => Ok "";
     image_to_data_conf := fun _ _ _ => Ok [PNum (-1); PNum (-1)] |}.

(** A service that answers every request with an empty object. *)
Definition sample_genai : GenAI :=
  {| FIELD_EXTRACTION_PROMPT := "Return ONLY the JSON object, nothing else.";
     generate_content := fun _ => Ok "```json {} ```" |}.

(** A service whose answer is no JSON. *)
Definition babbling_genai : GenAI :=
  {| FIELD_EXTRACTION_PROMPT := "Return ONLY the JSON object, nothing else.";
     generate_content := fun _ => Ok "I could not read the document." |}.

Definition sample_probe : FileProbe :=
  {| read_bytes := fun _ => Ok "%PDF-1.4 sample";
     exif_items := fun _ => Ok [];
     pdf_metadata_items := fun _ => Ok [] |}.

Definition sample_storage : Storage :=
  {| UPLOAD_TEMP_DIR := "/tmp/uploads";
     mkdir := fun _ => Ok tt;
     download_file := fun _ _ => Ok tt |}.

(** An engine that stores a string of at most 100 characters as it is
    and refuses every other key. *)
Definition sample_engine : Engine :=
  {| insert_field_name := fun k =>
       match k with
       | JStr s =>
           if (String.length s <=? 100)%nat then Ok s
           else Raise (Exn OtherError
                         "value too long for type character varying(100)")
       | _ => Raise (Exn OtherError "can't adapt type")
       end |}.

Definition sample_services (ai : GenAI) : Services :=
  {| rt := sample_runtime;
     clock := sample_clock;
     storage := sample_storage;
     processor := get_document_processor sample_fitz sample_tesseract ai;
     probe := sample_probe;
     engine := sample_engine |}.

(** The double quote. *)
Definition dq : string := String (ascii_of_nat 34) EmptyString.

(** A reply that is an object, of another shape than the one asked
    for. *)
Definition error_reply : string :=
  ("{" ++ dq ++ "error" ++ dq ++ ": " ++ dq ++ "quota exceeded" ++ dq
     ++ "}")%string.

(** A reply whose only pair has a null key. *)
Definition null_key_reply : string :=
  ("{" ++ dq ++ "extracted_data" ++ dq ++ ": [{" ++ dq ++ "key" ++ dq
     ++ ": null, " ++ dq ++ "value" ++ dq ++ ": " ++ dq ++ "x" ++ dq
     ++ "}]}")%string.

(** A decoder that knows these two replies as well. *)
Definition reply_json_loads (s : string) : option json :=
  if (s =? error_reply)%string
  then Some (JObj [("error", JStr "quota exceeded")])
  else if (s =? null_key_reply)%string
  then Some (JObj [("extracted_data",
                    JArr [JObj [("key", JNull); ("value", JStr "x")]])])
  else tiny_json_loads s.

Definition reply_runtime : Runtime :=
  {| py_float := short_decimal;
     json_loads := reply_json_loads;
     py_str := fun _ => "?";
     float_repr := fun x => if (x =? 0.9)%float then "0.9" else "?";
     round3 := fun x => x;
     strptime := fun _ _ => None;
     isoformat := fun _ => "1970-01-01T00:00:00";
     sha256_hexdigest := fun data => data |}.


(** A service that answers with a pair whose key is null. *)
Definition null_key_genai : GenAI :=
  {| FIELD_EXTRACTION_PROMPT := "Return ONLY the JSON object, nothing else.";
     generate_content := fun _ => Ok null_key_reply |}.

Definition reply_services (ai : GenAI) : Services :=
  {| rt := reply_runtime;
     clock := sample_clock;
     storage := sample_storage;
     processor := get_document_processor sample_fitz sample_tesseract ai;
     probe := sample_probe;
     engine := sample_engine |}.

Definition sample_job (i u : Z) (h : option string) (st : JobStatus) : job :=
  {| id := i; user_id := u; filename := "invoice.pdf";
     s3_path := "uploads/invoice.pdf"; file_hash := h; status := st;
     error_message := None; fraud_analysis := None;
     created_at := 0; completed_at := None |}.

Definition sample_field (name value : string) (conf : pyval) : field :=
  {| f_field_name := name; f_current_value := Some value;
     f_confidence := conf; f_extraction_confidence := PNone |}.

End samples.

(* ================================================================== *)
(** * Properties of the classifier *)
(* ================================================================== *)

Module pdf_classifier_facts.
Import pdf_classifier samples.

Lemma classify_document_fields (self : PDFClassifier) (doc : list pdf_page) :
  let c := classify_document self doc in
  pdf_type c
  = classify_type self (image_count c) (has_text c) (text_length c) (page_count c)
  /\ page_count c = Z.of_nat (List.length doc)
  /\ image_count c = snd (extract_images self doc)
  /\ images c = fst (extract_images self doc).
Proof.
  unfold classify_document.
  destruct (extract_images self doc) as [imgs n]; cbn.
  repeat split.
Qed.




(** The size test is the conjunction of its three comparisons. *)
Lemma is_content_image_spec (self : PDFClassifier) (w h : Z) :
  is_content_image self w h = true
  <-> w >= min_image_width self
      /\ h >= min_image_height self
      /\ w * h >= min_image_area self.
Proof.
  unfold is_content_image. cbv zeta.
  rewrite !andb_true_iff, !Z.geb_le. lia.
Qed.

(** C4, as the specification words it: a 160x250 image, of area 40000,
    would pass the default filter. It does not. *)
Lemma image_160x250_is_filtered :
  160 * 250 = 40000
  /\ is_content_image get_pdf_classifier 160 250 <> true.
Proof. split; [reflexivity | vm_compute; discriminate]. Qed.

(** C4, amended. The filter is the predicate
    [width >= min_w /\ height >= min_h /\ width*height >= min_area], with
    defaults 200, 200 and 40000; under the defaults 200x200 passes,
    199x200 and 200x199 do not, and neither does 160x250: an image of area
    exactly 40000 passes only as 200x200. *)
Theorem image_filter_boundaries :
  (forall self w h,
      is_content_image self w h = true
      <-> w >= min_image_width self /\ h >= min_image_height self
          /\ w * h >= min_image_area self)
  /\ (forall t, min_image_width (PDFClassifier_init t) = 200
                /\ min_image_height (PDFClassifier_init t) = 200
                /\ min_image_area (PDFClassifier_init t) = 40000)
  /\ is_content_image get_pdf_classifier 200 200 = true
  /\ is_content_image get_pdf_classifier 199 200 = false
  /\ is_content_image get_pdf_classifier 200 199 = false
  /\ is_content_image get_pdf_classifier 160 250 = false
  /\ (forall w h, w * h = 40000 ->
        is_content_image get_pdf_classifier w h = true -> w = 200 /\ h = 200).
Proof.
  split; [exact is_content_image_spec|].
  split; [intros t; repeat split|].
  do 4 (split; [reflexivity|]).
  intros w h Harea Hpass.
  apply is_content_image_spec in Hpass. cbn in Hpass. nia.
Qed.

Lemma image_filter_boundaries_witness : 200 = 200 /\ 200 = 200.
Proof.
  exact (proj2 (proj2 (proj2 (proj2 (proj2 (proj2 image_filter_boundaries)))))
           200 200 eq_refl eq_refl).
Defined.

(** An image whose extraction raises leaves the loop state as it was. *)
Lemma image_step_raise (self : PDFClassifier) st e :
  is_ok (extract_one self e) = false -> image_step self st e = st.
Proof.
  unfold image_step. destruct (extract_one self e) as [[im|]|x]; cbn;
    congruence.
Qed.

(** [extract_one] raises exactly when the image cannot be opened, or when
    it passes the filter, is not RGB and cannot be decoded. *)
Lemma extract_one_raises (self : PDFClassifier) (e : result pil_image) :
  is_ok (extract_one self e) = false
  <-> (exists x, e = Raise x)
      \/ (exists im, e = Ok im
            /\ is_content_image self (img_width im) (img_height im) = true
            /\ img_mode im <> "RGB"
            /\ img_decodes im = false).
Proof.
  unfold extract_one, convert_rgb. destruct e as [im|x]; cbn.
  - destruct (is_content_image self (img_width im) (img_height im)) eqn:F; cbn.
    + destruct (String.eqb_spec (img_mode im) "RGB") as [M|M]; cbn.
      * split; [discriminate|].
        intros [[x Hx]|(im' & Him & _ & Hm & _)]; [discriminate|].
        injection Him as <-. contradiction.
      * destruct (img_decodes im) eqn:D; cbn.
        -- split; [discriminate|].
           intros [[x Hx]|(im' & Him & _ & _ & Hd)]; [discriminate|].
           injection Him as <-. congruence.
        -- split; [|reflexivity]. intros _. right. exists im. auto.
    + split; [discriminate|].
      intros [[x Hx]|(im' & Him & Hf & _)]; [discriminate|].
      injection Him as <-. congruence.
  - split; [|reflexivity]. intros _. left. now exists x.
Qed.

Lemma page_step_skip (self : PDFClassifier) st t i1 e i2 :
  is_ok (extract_one self e) = false ->
  page_step self st {| page_text := t; page_images := i1 ++ e :: i2 |}
  = page_step self st {| page_text := t; page_images := i1 ++ i2 |}.
Proof.
  intros He. unfold page_step; cbn.
  rewrite !fold_left_app. cbn. now rewrite image_step_raise.
Qed.

Lemma text_fold_app (doc1 doc2 : list pdf_page) (acc : string) :
  fold_left (fun a p => (a ++ page_text p)%string) (doc1 ++ doc2) acc
  = fold_left (fun a p => (a ++ page_text p)%string) doc2
      (fold_left (fun a p => (a ++ page_text p)%string) doc1 acc).
Proof. apply fold_left_app. Qed.

Lemma classify_document_skip (self : PDFClassifier) pre t i1 e i2 post :
  is_ok (extract_one self e) = false ->
  classify_document self
    (pre ++ {| page_text := t; page_images := i1 ++ e :: i2 |} :: post)
  = classify_document self
    (pre ++ {| page_text := t; page_images := i1 ++ i2 |} :: post).
Proof.
  intros He. unfold classify_document, extract_images.
  rewrite !text_fold_app, !fold_left_app. cbn [fold_left page_text].
  rewrite (page_step_skip self _ t i1 e i2 He).
  rewrite !length_app. cbn [List.length]. reflexivity.
Qed.

(** C10. When extracting, opening, measuring or decoding one embedded
    image raises, [classify_pdf] still returns, and what it returns is the
    classification of the document without that image: the image is
    neither kept nor counted, the other images and the text are used. *)
Theorem failing_image_is_skipped :
  forall (fz : Fitz) (self : PDFClassifier) (pdf_path : string)
         (pre post : list pdf_page) (t : string)
         (i1 i2 : list (result pil_image)) (e : result pil_image),
    is_ok (extract_one self e) = false ->
    fitz_open fz pdf_path
    = Ok (pre ++ {| page_text := t; page_images := i1 ++ e :: i2 |} :: post) ->
    classify_pdf fz self pdf_path
    = Ok (classify_document self
            (pre ++ {| page_text := t; page_images := i1 ++ i2 |} :: post)).
Proof.
  intros fz self path pre post t i1 i2 e He Hopen.
  unfold classify_pdf. rewrite Hopen. cbn.
  now rewrite (classify_document_skip self pre t i1 e i2 post He).
Qed.

Lemma failing_image_is_skipped_witness :
  classify_pdf sample_fitz get_pdf_classifier "scan.pdf"
  = Ok (classify_document get_pdf_classifier
          [ {| page_text := ""; page_images := [Ok gray_scan] |} ]).
Proof.
  exact (failing_image_is_skipped sample_fitz get_pdf_classifier "scan.pdf"
           [] [] "" [Ok gray_scan] [] (Raise (Exn OtherError "bad xref"))
           eq_refl eq_refl).
Defined.

(** The same for an image that opens, passes the filter, and cannot be
    decoded when it is converted to RGB. *)
Example undecodable_image_is_skipped :
  classify_document get_pdf_classifier
    [ {| page_text := "";
         page_images := [Ok truncated_scan; Ok gray_scan] |} ]
  = classify_document get_pdf_classifier
    [ {| page_text := ""; page_images := [Ok gray_scan] |} ].
Proof.
  apply (classify_document_skip get_pdf_classifier [] "" [] (Ok truncated_scan)
           [Ok gray_scan] []).
  reflexivity.
Qed.

End pdf_classifier_facts.

(* ================================================================== *)
(** * Properties of the OCR extractor *)
(* ================================================================== *)

Module simple_ocr_facts.
Import pdf_classifier simple_ocr_service samples.

(** ** The specification's side *)

(** Following the specification's words: the sentinel of a token without
    text is the confidence -1 the engine gives it, whether the cell
    arrives as the number or as its text. *)
Definition is_sentinel (conf : pyval) : bool :=
  match conf with
  | PStr s => (s =? "-1")%string
  | PNum x => (x =? -1)%float
  | PNone => false
  end.

(** [float] of every cell, in order. *)
Fixpoint floats_of (rt : Runtime) (cells : list pyval) : result (list float) :=
  match cells with
  | [] => Ok []
  | conf :: rest =>
      x <- float_of rt conf ;;
      xs <- floats_of rt rest ;;
      Ok (x :: xs)
  end.

(** The arithmetic mean, 0.0 for no value. *)
Definition arithmetic_mean (l : list float) : float :=
  match l with
  | [] => 0%float
  | _ => (py_sum l / float_of_nat (List.length l))%float
  end.

(** Following the specification's words: the mean of the token
    confidences, the sentinel tokens left out, scaled from the range
    0-100 to 0-1; 0.0 when no token is left. *)
Definition spec_confidence (rt : Runtime) (cells : list pyval)
  : result float :=
  vals <- floats_of rt (filter (fun conf => negb (is_sentinel conf)) cells) ;;
  Ok (arithmetic_mean vals / 100)%float.

(** Following the specification's words: the text blocks of the images,
    each under its page separator, numbered from [i] in input order. *)
Fixpoint numbered (i : nat) (texts : list string) : list string :=
  match texts with
  | [] => []
  | t :: rest =>
      ("--- Page/Image " ++ str_of_int (Z.of_nat i) ++ " ---" ++ nl ++ t)%string
      :: numbered (S i) rest
  end.

(** ** The code's side *)

(** Among numbers the comparison with the string never holds: every
    numeric cell is read. *)
Lemma token_confidences_numeric (rt : Runtime) (xs : list float) :
  token_confidences rt (map PNum xs) = Ok xs.
Proof.
  induction xs as [|x xs IH]; cbn; [reflexivity|]. now rewrite IH.
Qed.

(** C8. The sentinel is not left out when the engine hands the
    confidences over as numbers: every cell of the column then enters the
    mean, the -1 of the tokens without text included. For one image on
    which the engine answers with a column of numbers, the confidence is
    the mean of all of them, divided by 100. *)
Theorem numeric_sentinel_enters_mean :
  forall (rt : Runtime) (tess : Tesseract) (image : pil_image)
         (languages : option (list string)) (psm : Z) (text : string)
         (xs : list float),
    image_to_string tess image (lang_param languages) (config psm) = Ok text ->
    image_to_data_conf tess image (lang_param languages) (config psm)
    = Ok (map PNum xs) ->
    extract_text_from_image rt tess image languages psm
    = Ok (strip text,
          (match xs with
           | [] => 0
           | _ => py_sum xs / float_of_nat (List.length xs)
           end / 100)%float).
Proof.
  intros rt tess image languages psm text xs Htext Hdata.
  unfold extract_text_from_image. rewrite Htext, Hdata. cbn.
  rewrite token_confidences_numeric. cbn. destruct xs; reflexivity.
Qed.

Lemma numeric_sentinel_enters_mean_witness :
  extract_text_from_image sample_runtime numeric_tesseract gray_scan None 6
  = Ok ("Total 1300", 0.475%float)
  /\ spec_confidence sample_runtime [PNum (-1); PNum 96] = Ok 0.96%float.
Proof.
  split; [|reflexivity].
  exact (numeric_sentinel_enters_mean sample_runtime numeric_tesseract
           gray_scan None 6 " Total 1300 " [(-1)%float; 96%float]
           eq_refl eq_refl).
Defined.

(** A page without text: two tokens, both the sentinel. The extractor
    returns a negative confidence where the specification has 0.0. *)
Example blank_page_confidence :
  extract_text_from_image sample_runtime blank_tesseract gray_scan None 6
  = Ok ("", (-0.01)%float)
  /\ spec_confidence sample_runtime [PNum (-1); PNum (-1)] = Ok 0%float.
Proof. split; reflexivity. Qed.

(** ** What holds *)

(** No cell is the number -1. *)
Definition no_numeric_sentinel (cells : list pyval) : bool :=
  forallb (fun conf => match conf with
                       | PNum x => negb (x =? -1)%float
                       | _ => true
                       end) cells.

Lemma token_confidences_textual (rt : Runtime) (cells : list pyval) :
  no_numeric_sentinel cells = true ->
  token_confidences rt cells
  = floats_of rt (filter (fun conf => negb (is_sentinel conf)) cells).
Proof.
  induction cells as [|c cells IH]; cbn; [reflexivity|].
  intros H. apply andb_true_iff in H as [Hc Hrest].
  rewrite (IH Hrest).
  destruct c as [|s|x]; cbn.
  - reflexivity.
  - destruct (s =? "-1")%string; reflexivity.
  - rewrite Hc. reflexivity.
Qed.

(** X29. When the sentinel arrives as the text '-1', that is when no cell
    of the column is the number -1, the extractor does what the
    specification says for one image: its confidence is the mean of the
    token confidences without the sentinel cells, divided by 100, and 0.0
    when no token is left, with the stripped text of the engine; and a
    cell [float] cannot read makes the call raise. *)
Theorem confidence_with_text_sentinel :
  forall (rt : Runtime) (tess : Tesseract) (image : pil_image)
         (languages : option (list string)) (psm : Z) (text : string)
         (cells : list pyval),
    image_to_string tess image (lang_param languages) (config psm) = Ok text ->
    image_to_data_conf tess image (lang_param languages) (config psm)
    = Ok cells ->
    no_numeric_sentinel cells = true ->
    extract_text_from_image rt tess image languages psm
    = match spec_confidence rt cells with
      | Ok c => Ok (strip text, c)
      | Raise e =>
          Raise (Exn RuntimeError
                   ("OCR extraction failed: " ++ exn_msg e)%string)
      end.
Proof.
  intros rt tess image languages psm text cells Htext Hdata Hcells.
  unfold extract_text_from_image, spec_confidence.
  rewrite Htext, Hdata. cbn.
  rewrite (token_confidences_textual rt cells Hcells).
  destruct (floats_of rt _) as [vals|e]; cbn; [|reflexivity].
  destruct vals; reflexivity.
Qed.

Lemma confidence_with_text_sentinel_witness :
  extract_text_from_image sample_runtime sample_tesseract gray_scan None 6
  = Ok ("Total 1300", 0.93%float).
Proof.
  exact (confidence_with_text_sentinel sample_runtime sample_tesseract
           gray_scan None 6 " Total 1300 " [PStr "-1"; PNum 90; PStr "96"]
           eq_refl eq_refl eq_refl).
Defined.

(** The text blocks of the pages from index [i] on, in order. *)
Fixpoint page_blocks (i : Z) (texts : list string) : list string :=
  match texts with
  | [] => []
  | t :: rest => page_block i t :: page_blocks (i + 1) rest
  end.

Lemma page_blocks_numbered (texts : list string) :
  forall i : nat, page_blocks (Z.of_nat i) texts = numbered (S i) texts.
Proof.
  induction texts as [|t texts IH]; intros i; cbn [page_blocks numbered];
    [reflexivity|].
  unfold page_block. rewrite <- (IH (S i)).
  replace (Z.of_nat (S i)) with (Z.of_nat i + 1) by lia. reflexivity.
Qed.

Lemma ocr_loop_spec (rt : Runtime) (tess : Tesseract)
    (languages : option (list string)) (psm : Z) :
  forall images rs,
    Forall2 (fun im r => extract_text_from_image rt tess im languages psm = Ok r)
            images rs ->
    forall i all_text all_confidences,
      ocr_loop rt tess languages psm i images all_text all_confidences
      = Ok (all_text ++ page_blocks i (map fst rs),
            all_confidences ++ map snd rs).
Proof.
  induction 1 as [|im r images rs Hr _ IH]; intros i at_ ac; cbn.
  - now rewrite !app_nil_r.
  - rewrite Hr. cbn. rewrite IH, <- !app_assoc. reflexivity.
Qed.

(** An image on which the engine fails makes the whole call fail. *)
Lemma ocr_loop_raises (rt : Runtime) (tess : Tesseract)
    (languages : option (list string)) (psm : Z) :
  forall imgs,
    Exists (fun im => is_ok (extract_text_from_image rt tess im languages psm)
                      = false) imgs ->
    forall i all_text all_confidences,
      is_ok (ocr_loop rt tess languages psm i imgs all_text all_confidences)
      = false.
Proof.
  intros imgs. induction imgs as [|im imgs IH]; intros Hex i at_ ac.
  - inversion Hex.
  - cbn. destruct (extract_text_from_image rt tess im languages psm) as [r|e]
      eqn:Hr; cbn; [|reflexivity].
    apply IH. inversion Hex as [? ? Hh|? ? Ht]; subst; [|assumption].
    rewrite Hr in Hh. discriminate.
Qed.

(** X30. For a list of images on each of which the extraction succeeds,
    the returned text is the per-image texts, each under its separator
    "--- Page/Image n ---" with n counting from 1, in input order and two
    line breaks apart, and the returned confidence is the arithmetic
    mean of the per-image confidences, 0.0 for no image. *)
Theorem pages_are_joined_in_order :
  forall (rt : Runtime) (tess : Tesseract)
         (languages : option (list string)) (psm : Z)
         (images : list pil_image) (rs : list (string * float)),
    Forall2 (fun im r =>
               extract_text_from_image rt tess im languages psm = Ok r)
            images rs ->
    extract_text_from_images rt tess images languages psm
    = Ok (join (nl ++ nl)%string (numbered 1 (map fst rs)),
          arithmetic_mean (map snd rs)).
Proof.
  intros rt tess languages psm images rs Hrs.
  unfold extract_text_from_images.
  rewrite (ocr_loop_spec rt tess languages psm images rs Hrs).
  cbn [bind fst snd app].
  pose proof (page_blocks_numbered (map fst rs) 0) as Hn.
  change (Z.of_nat 0) with 0 in Hn. rewrite Hn.
  destruct rs; reflexivity.
Qed.

Lemma pages_are_joined_in_order_witness :
  extract_text_from_images sample_runtime sample_tesseract
    [gray_scan; gray_scan] None 6
  = Ok (("--- Page/Image 1 ---" ++ nl ++ "Total 1300" ++ nl ++ nl
         ++ "--- Page/Image 2 ---" ++ nl ++ "Total 1300")%string,
        0.93%float).
Proof.
  exact (pages_are_joined_in_order sample_runtime sample_tesseract None 6
           [gray_scan; gray_scan]
           [("Total 1300", 0.93%float); ("Total 1300", 0.93%float)]
           ltac:(repeat constructor)).
Defined.

End simple_ocr_facts.

(* ================================================================== *)
(** * Properties of the extraction service and of the dispatcher *)
(* ================================================================== *)

Module extraction_facts.
Import pdf_classifier simple_ocr_service gemini_service document_processor.
Import samples.







(** The same on the OCR path: a reply without a confidence, and an OCR
    confidence of 0.8. *)
Example combined_confidence_with_ocr :
  exists r,
    extract_fields_from_text sample_runtime sample_genai "Total 1300"
      (Some 0.8%float) = Success r
    /\ api_confidence r = 0.9%float
    /\ confidence r = ((0.8 + 0.9) / 2)%float.
Proof. eexists. repeat split. Qed.

(** X3. An IMAGE_HEAVY document is read by OCR and sent to the text
    method, never to the vision method: when the dispatcher returns, the
    OCR service has read the images the classifier kept, or the pages
    rendered at 300 DPI when it kept none, with the languages eng and kan
    and page segmentation mode 6, and the result is the one of the text
    method on the text and the confidence the OCR service returned. *)
Lemma image_heavy_uses_text_method (rt : Runtime) (self : DocumentProcessor)
    (pdf_path : string) (c : PDFClassification) (p : processed) :
  classify_pdf (fitz self) (the_classifier self) pdf_path = Ok c ->
  pdf_type c = IMAGE_HEAVY ->
  process_document rt self pdf_path = Ok p ->
  exists scans text ocr,
    (match images c with
     | [] => render_all_pages_to_images (fitz self) pdf_path 300 = Ok scans
     | kept => scans = kept
     end)
    /\ extract_text_from_images rt (ocr_service self) scans
         (Some ["eng"; "kan"]) 6 = Ok (text, ocr)
    /\ extraction_of p
       = extract_fields_from_text rt (gemini self) text (Some ocr).
Proof.
  intros Hc Hty Hp. unfold process_document in Hp. rewrite Hc in Hp.
  cbn in Hp. unfold extract_content in Hp. rewrite Hty in Hp.
  destruct (images c) as [|im ims].
  - destruct (render_all_pages_to_images (fitz self) pdf_path 300)
      as [pages|e]; cbn in Hp; [|discriminate].
    destruct (extract_text_from_images rt (ocr_service self) pages _ 6)
      as [[t o]|e] eqn:Hocr; cbn in Hp; [|discriminate].
    injection Hp as <-. cbn.
    exists pages, t, o. split; [reflexivity|]. split; [exact Hocr|].
    destruct pages; reflexivity.
  - destruct (extract_text_from_images rt (ocr_service self) (im :: ims) _ 6)
      as [[t o]|e] eqn:Hocr; cbn in Hp; [|discriminate].
    injection Hp as <-. cbn.
    exists (im :: ims), t, o. split; [reflexivity|]. split; [exact Hocr|].
    reflexivity.
Qed.

Lemma image_heavy_uses_text_method_witness :
  exists p text ocr,
    process_document sample_runtime
      (get_document_processor long_scan_fitz sample_tesseract sample_genai)
      "scans.pdf" = Ok p
    /\ extract_text_from_images sample_runtime sample_tesseract
         (repeat {| img_width := 1240; img_height := 1754;
                    img_mode := "RGB"; img_decodes := true |} 6)
         (Some ["eng"; "kan"]) 6 = Ok (text, ocr)
    /\ extraction_of p
       = extract_fields_from_text sample_runtime sample_genai text (Some ocr).
Proof.
  eexists.
  destruct (image_heavy_uses_text_method sample_runtime
              (get_document_processor long_scan_fitz sample_tesseract
                 sample_genai)
              "scans.pdf" _ _ eq_refl eq_refl eq_refl)
    as (scans & text & ocr & Hscans & Hocr & H).
  vm_compute in Hscans. subst scans.
  exists text, ocr. split; [reflexivity|]. split; [exact Hocr | exact H].
Defined.

End extraction_facts.

(* ================================================================== *)
(** * Properties of the integrity analyzer *)
(* ================================================================== *)

Module fraud_detection_facts.
Import models fraud_detection samples.

(** ** The risk score *)

Lemma perform_full_analysis_inv {R} (rt : Runtime) (fp : FileProbe)
    (clk : Clock) (file_path h : string) (u : Z) (fields : list field)
    (db : list (Job R)) (r : report) :
  perform_full_analysis rt fp clk file_path h u fields db = Ok r ->
  exists ca,
    analyze_confidence_scores rt fields = Ok ca
    /\ detailed r
       = {| duplicate_detection := check_duplicate rt h u db;
            da_metadata_analysis := analyze_image_metadata fp file_path;
            da_consistency_check := check_text_consistency rt clk fields;
            da_confidence_analysis := ca |}
    /\ risk_score r = sum_values (risk_scores_of (detailed r))
    /\ overall_risk_level r = fst (overall_of (risk_score r))
    /\ flags r = all_flags_of (detailed r).
Proof.
  unfold perform_full_analysis.
  destruct (analyze_confidence_scores rt fields) as [ca|e]; cbn;
    [|discriminate].
  destruct (overall_of _) as [lv rec] eqn:Ho.
  intros H. injection H as <-. cbn. exists ca.
  rewrite Ho. repeat split.
Qed.

(** The analysis returns exactly when the confidence analysis does. *)
Lemma perform_full_analysis_returns {R} (rt : Runtime) (fp : FileProbe)
    (clk : Clock) (file_path h : string) (u : Z) (fields : list field)
    (db : list (Job R)) :
  is_ok (perform_full_analysis rt fp clk file_path h u fields db)
  = is_ok (analyze_confidence_scores rt fields).
Proof.
  unfold perform_full_analysis.
  destruct (analyze_confidence_scores rt fields) as [ca|e]; cbn;
    [|reflexivity].
  now destruct (overall_of _).
Qed.

Lemma sub_score_bounds (d : detailed_analysis) :
  let s := risk_scores_of d in
  0 <= rs_duplicate s <= 3 /\ 0 <= rs_metadata s <= 2
  /\ 0 <= rs_consistency s <= 3 /\ 0 <= rs_confidence s <= 2.
Proof.
  cbn. destruct (duplicate_detection d),
    (meta_risk_level (da_metadata_analysis d)),
    (cons_risk_level (da_consistency_check d)),
    (conf_risk_level (da_confidence_analysis d)); lia.
Qed.

Lemma overall_of_thresholds (n : Z) :
  (6 <= n -> fst (overall_of n) = high)
  /\ (3 <= n < 6 -> fst (overall_of n) = medium)
  /\ (n < 3 -> fst (overall_of n) = low).
Proof.
  unfold overall_of.
  destruct (n >=? 6) eqn:E6; [|destruct (n >=? 3) eqn:E3]; cbn;
    repeat split; intros; try reflexivity; lia.
Qed.

(** X1. Whenever the full analysis returns a report, its risk score is
    the sum of the four sub-scores of the sub-analyses on the same inputs, it
    lies between 0 and 10, and the overall risk is high from 6 on, medium
    from 3 to 5 and low below 3 (2 is low, 3 and 5 are medium, 6 is
    high). *)
Theorem risk_score_sum_and_thresholds :
  forall (R : Type) (rt : Runtime) (fp : FileProbe) (clk : Clock)
         (file_path h : string) (u : Z) (fields : list field)
         (db : list (Job R)) (r : report),
    perform_full_analysis rt fp clk file_path h u fields db = Ok r ->
    let s := risk_scores_of (detailed r) in
    duplicate_detection (detailed r) = check_duplicate rt h u db
    /\ da_metadata_analysis (detailed r) = analyze_image_metadata fp file_path
    /\ da_consistency_check (detailed r) = check_text_consistency rt clk fields
    /\ Ok (da_confidence_analysis (detailed r))
       = analyze_confidence_scores rt fields
    /\ risk_score r
       = rs_duplicate s + rs_metadata s + rs_consistency s + rs_confidence s
    /\ 0 <= risk_score r <= 10
    /\ (6 <= risk_score r -> overall_risk_level r = high)
    /\ (3 <= risk_score r < 6 -> overall_risk_level r = medium)
    /\ (risk_score r < 3 -> overall_risk_level r = low)
    /\ fst (overall_of 2) = low /\ fst (overall_of 3) = medium
    /\ fst (overall_of 5) = medium /\ fst (overall_of 6) = high.
Proof.
  intros R rt fp clk file_path h u fields db r Hr. cbv zeta.
  destruct (perform_full_analysis_inv rt fp clk file_path h u fields db r Hr)
    as (ca & Hca & Hd & Hsum & Hlv & _).
  pose proof (sub_score_bounds (detailed r)) as Hb. cbv zeta in Hb.
  pose proof (overall_of_thresholds (risk_score r)) as (H6 & H3 & H0).
  rewrite <- Hlv in H6, H3, H0.
  unfold sum_values in Hsum.
  rewrite Hd at 1 2 3 4. cbn [duplicate_detection da_metadata_analysis
    da_consistency_check da_confidence_analysis].
  repeat split; try assumption; try reflexivity; try lia.
  now rewrite Hca.
Qed.

Lemma risk_score_sum_and_thresholds_witness :
  exists r : report,
    perform_full_analysis (R := unit) sample_runtime sample_probe sample_clock
      "scan.pdf" "0f1e" 7 [sample_field "vendor_name" "Acme" (PStr "0.70")] []
    = Ok r
    /\ risk_score r = 1 /\ overall_risk_level r = low.
Proof.
  eexists. split; [reflexivity|].
  pose proof (risk_score_sum_and_thresholds unit sample_runtime sample_probe
                sample_clock "scan.pdf" "0f1e" 7
                [sample_field "vendor_name" "Acme" (PStr "0.70")] [] _ eq_refl)
    as (_ & _ & _ & _ & Hsum & _ & _ & _ & Hlow & _).
  split; [exact Hsum | apply Hlow; vm_compute; reflexivity].
Defined.

(** An edited photograph of an invoice whose totals do not add up,
    uploaded a second time. *)
Definition edited_photo_probe : FileProbe :=
  {| read_bytes := fun _ => Ok "JFIF";
     exif_items := fun _ => Ok [("Software", "Adobe Photoshop 25.0")];
     pdf_metadata_items := fun _ => Ok [] |}.

Definition mismatched_invoice : list field :=
  [ sample_field "invoice_subtotal" "1000" PNone;
    sample_field "invoice_tax" "180" PNone;
    sample_field "invoice_total" "1300" PNone ].

(** C1, where the code leaves it. The four sub-scores can be 3, 2, 3 and
    2 at once: the report then carries the risk score 10 next to its own
    [max_risk_score] of 9. *)
Theorem risk_score_exceeds_declared_maximum :
  forall (rt : Runtime) (clk : Clock),
    py_float rt "1000" = Some 1000%float ->
    py_float rt "180" = Some 180%float ->
    py_float rt "1300" = Some 1300%float ->
    exists r : report,
      perform_full_analysis rt edited_photo_probe clk "receipt.jpg" "0f1e" 7
        mismatched_invoice [sample_job 1 7 (Some "0f1e") COMPLETED] = Ok r
      /\ risk_scores_of (detailed r)
         = {| rs_duplicate := 3; rs_metadata := 2;
              rs_consistency := 3; rs_confidence := 2 |}
      /\ risk_score r = 10
      /\ max_risk_score r = 9
      /\ overall_risk_level r = high.
Proof.
  intros rt clk H1000 H180 H1300.
  unfold perform_full_analysis, analyze_confidence_scores. cbn [bind].
  assert (Hc : check_text_consistency rt clk mismatched_invoice
               = {| consistency_issues :=
                      [total_mismatch_issue rt 1000 180 1180 1300];
                    total_issues := 1;
                    cons_risk_level := high |}).
  { unfold check_text_consistency, totals_issues, date_issues, pattern_issues.
    cbn. rewrite H1000, H180, H1300. reflexivity. }
  cbn. rewrite Hc. eexists. split; [reflexivity|]. cbn. repeat split.
Qed.

Lemma risk_score_exceeds_declared_maximum_witness :
  exists r : report,
    perform_full_analysis sample_runtime edited_photo_probe sample_clock
      "receipt.jpg" "0f1e" 7 mismatched_invoice
      [sample_job 1 7 (Some "0f1e") COMPLETED] = Ok r
    /\ risk_score r = 10 /\ max_risk_score r = 9.
Proof.
  destruct (risk_score_exceeds_declared_maximum sample_runtime sample_clock
              eq_refl eq_refl eq_refl) as (r & Hr & _ & Hs & Hm & _).
  exists r. auto.
Defined.

(** ** The duplicate sub-analysis *)

(** A completed job of user [u] with hash [h] is in the store. *)
Definition prior_completed_copy {R} (db : list (Job R)) (h : string) (u : Z)
  : Prop :=
  exists j, In j db /\ status j = COMPLETED /\ file_hash j = Some h
            /\ user_id j = u.

Lemma is_prior_copy_spec {R} (h : string) (u : Z) (j : Job R) :
  is_prior_copy h u j = true
  <-> status j = COMPLETED /\ file_hash j = Some h /\ user_id j = u.
Proof.
  unfold is_prior_copy. rewrite !andb_true_iff, Z.eqb_eq.
  destruct (file_hash j) as [h'|].
  - rewrite String.eqb_eq. destruct (status j); cbn;
      intuition (try discriminate; congruence).
  - intuition discriminate.
Qed.

Lemma check_duplicate_spec {R} (rt : Runtime) (h : string) (u : Z)
    (db : list (Job R)) :
  (exists info, check_duplicate rt h u db = Some info)
  <-> prior_completed_copy db h u.
Proof.
  unfold check_duplicate, prior_completed_copy.
  destruct (find (is_prior_copy h u) db) as [j|] eqn:Hf.
  - apply find_some in Hf as [Hin Hj]. apply is_prior_copy_spec in Hj.
    split; [intros _; now exists j | intros _; eauto].
  - split; [intros [info Hi]; discriminate|].
    intros (j & Hin & Hj). apply (find_none _ _ Hf) in Hin.
    apply is_prior_copy_spec in Hj. congruence.
Qed.

Definition duplicate_flag : string := "Duplicate document detected".

Lemma indicators_known (fp : FileProbe) (file_path s : string) :
  In s (manipulation_indicators (analyze_image_metadata fp file_path)) ->
  In s ["Unable to extract metadata";
        "Document edited with image editing software";
        "Missing creation timestamp"].
Proof.
  unfold analyze_image_metadata.
  destruct (endswith (lower file_path) ".pdf"); [cbn; tauto|].
  destruct (exif_items fp file_path) as [items|e]; [|cbn; tauto].
  destruct (dict_get "Software" (dict_of_items items)) as [sw|];
    [destruct (existsb _ editors)|];
    destruct (negb (dict_mem "DateTime" (dict_of_items items)));
    cbn; tauto.
Qed.

Lemma issue_names_known (rt : Runtime) (clk : Clock) (fields : list field)
    (i : consistency_issue) :
  In i (consistency_issues (check_text_consistency rt clk fields)) ->
  In (issue i) ["Total amount mismatch"; "Future invoice date";
                "Due date before invoice date"; "Suspicious amount pattern"].
Proof.
  unfold check_text_consistency. cbn [consistency_issues].
  rewrite !in_app_iff. intros [H|[H|H]];
    [|unfold date_issues in H; cbv zeta in H;
      apply in_app_iff in H as [H|H]|].
  - unfold totals_issues in H.
    destruct (amount_truthy _ && amount_truthy _ && amount_truthy _);
      [|contradiction].
    destruct (_extract_amount rt _) as [t|]; [|contradiction].
    destruct (_extract_amount rt _) as [sb|]; [|contradiction].
    destruct (_extract_amount rt _) as [tx|]; [|contradiction].
    destruct (0.01 <? _)%float; [|contradiction].
    destruct H as [<-|[]]. cbn. tauto.
  - destruct (value_truthy _); [|contradiction].
    destruct (_parse_date rt _) as [d|]; [|contradiction].
    destruct (now clk <? d); [|contradiction].
    destruct H as [<-|[]]. cbn. tauto.
  - destruct (value_truthy _ && value_truthy _); [|contradiction].
    destruct (_parse_date rt _) as [d1|]; [|contradiction].
    destruct (_parse_date rt _) as [d2|]; [|contradiction].
    destruct (d2 <? d1); [|contradiction].
    destruct H as [<-|[]]. cbn. tauto.
  - unfold pattern_issues in H. apply in_flat_map in H as ((k & v) & _ & H).
    destruct (contains "amount" (lower k) || contains "total" (lower k));
      [|contradiction].
    apply in_flat_map in H as (pat & _ & H).
    destruct (pat (str_of_value v)); [|contradiction].
    destruct H as [<-|[]]. cbn. tauto.
Qed.

Lemma length_append (a b : string) :
  String.length (a ++ b) = (String.length a + String.length b)%nat.
Proof. induction a as [|c a IH]; cbn; [reflexivity|now rewrite IH]. Qed.

Lemma count_flag_is_not_duplicate_flag (n : string) :
  (n ++ " fields with low confidence")%string <> duplicate_flag.
Proof.
  destruct n as [|c n]; [discriminate|].
  intros H. apply (f_equal String.length) in H.
  cbn in H. rewrite length_append in H. cbn in H. lia.
Qed.

Lemma duplicate_flag_iff {R} (rt : Runtime) (fp : FileProbe) (clk : Clock)
    (file_path h : string) (u : Z) (fields : list field) (db : list (Job R))
    (ca : confidence_analysis) :
  In duplicate_flag
     (all_flags_of
        {| duplicate_detection := check_duplicate rt h u db;
           da_metadata_analysis := analyze_image_metadata fp file_path;
           da_consistency_check := check_text_consistency rt clk fields;
           da_confidence_analysis := ca |})
  <-> exists info, check_duplicate rt h u db = Some info.
Proof.
  unfold all_flags_of. cbn [duplicate_detection da_metadata_analysis
    da_consistency_check da_confidence_analysis].
  split.
  - destruct (check_duplicate rt h u db) as [info|]; [eauto|].
    rewrite !in_app_iff. intros [[]|[H|[H|H]]].
    + apply indicators_known in H. cbn in H.
      intuition discriminate.
    + apply in_map_iff in H as (i & Hi & Hin).
      apply issue_names_known in Hin. rewrite Hi in Hin. cbn in Hin.
      intuition discriminate.
    + destruct (low_confidence_fields ca); [contradiction|].
      destruct H as [H|[]].
      now apply count_flag_is_not_duplicate_flag in H.
  - intros [info ->]. now left.
Qed.

(** C5. In a report the analysis returns, the duplicate sub-score is 3
    and the flags hold the duplicate flag exactly when the store has a
    completed job with the same hash and the same owner; otherwise the
    sub-score is 0 and the flag is absent. Jobs of other owners, and jobs
    that are not completed, do not count. *)
Theorem duplicate_sub_score :
  forall (R : Type) (rt : Runtime) (fp : FileProbe) (clk : Clock)
         (file_path h : string) (u : Z) (fields : list field)
         (db : list (Job R)) (r : report),
    perform_full_analysis rt fp clk file_path h u fields db = Ok r ->
    (prior_completed_copy db h u ->
       rs_duplicate (risk_scores_of (detailed r)) = 3
       /\ In duplicate_flag (flags r))
    /\ (~ prior_completed_copy db h u ->
          rs_duplicate (risk_scores_of (detailed r)) = 0
          /\ ~ In duplicate_flag (flags r)).
Proof.
  intros R rt fp clk file_path h u fields db r Hr.
  destruct (perform_full_analysis_inv rt fp clk file_path h u fields db r Hr)
    as (ca & _ & Hd & _ & _ & Hflags).
  rewrite Hflags, Hd.
  rewrite duplicate_flag_iff, check_duplicate_spec.
  cbn [risk_scores_of rs_duplicate duplicate_detection].
  pose proof (check_duplicate_spec rt h u db) as Hspec.
  destruct (check_duplicate rt h u db) as [info|].
  - split; [tauto|]. intros Hno. exfalso. apply Hno, Hspec. eauto.
  - split; [|tauto]. intros Hyes. apply Hspec in Hyes as [info Hi].
    discriminate.
Qed.

Lemma duplicate_sub_score_witness :
  exists r : report,
    perform_full_analysis sample_runtime sample_probe sample_clock
      "scan.pdf" "0f1e" 7 []
      [sample_job 1 8 (Some "0f1e") COMPLETED;
       sample_job 2 7 (Some "0f1e") FAILED;
       sample_job 3 7 (Some "0f1e") COMPLETED] = Ok r
    /\ rs_duplicate (risk_scores_of (detailed r)) = 3
    /\ In duplicate_flag (flags r).
Proof.
  eexists. split; [reflexivity|].
  apply (duplicate_sub_score _ sample_runtime sample_probe sample_clock
           "scan.pdf" "0f1e" 7 []
           [sample_job 1 8 (Some "0f1e") COMPLETED;
            sample_job 2 7 (Some "0f1e") FAILED;
            sample_job 3 7 (Some "0f1e") COMPLETED] _ eq_refl).
  exists (sample_job 3 7 (Some "0f1e") COMPLETED).
  repeat split. cbn. tauto.
Defined.

(** The same content from another owner: no flag, sub-score 0. *)
Example other_owner_is_not_flagged :
  exists r : report,
    perform_full_analysis sample_runtime sample_probe sample_clock
      "scan.pdf" "0f1e" 7 []
      [sample_job 1 8 (Some "0f1e") COMPLETED] = Ok r
    /\ rs_duplicate (risk_scores_of (detailed r)) = 0
    /\ ~ In duplicate_flag (flags r).
Proof.
  eexists. split; [reflexivity|]. split; [reflexivity|].
  cbn. tauto.
Qed.

(** ** The consistency sub-analysis *)

(** The sub-score the report derives from a consistency check. *)
Definition consistency_score (c : consistency_check) : Z :=
  match cons_risk_level c with high => 3 | medium => 1 | low => 0 end.

Lemma consistency_score_in_report (d : detailed_analysis) :
  rs_consistency (risk_scores_of d) = consistency_score (da_consistency_check d).
Proof. reflexivity. Qed.

(** X2. When the three amounts are read and none of them is zero, a sum
    that is off by more than 0.01 is reported with high severity, and the
    sub-score is 3. *)
Lemma total_mismatch_reported (rt : Runtime) (clk : Clock)
    (fields : list field) (total sub tax : float) :
  let d := field_dict_of fields in
  _extract_amount rt (dict_get_default "invoice_total" (Some "") d)
  = Some total ->
  _extract_amount rt (dict_get_default "invoice_subtotal" (Some "") d)
  = Some sub ->
  _extract_amount rt (dict_get_default "invoice_tax" (Some "") d)
  = Some tax ->
  float_truthy total = true -> float_truthy sub = true ->
  float_truthy tax = true ->
  (0.01 <? abs (sub + tax - total))%float = true ->
  let c := check_text_consistency rt clk fields in
  In (total_mismatch_issue rt sub tax (sub + tax) total) (consistency_issues c)
  /\ cons_risk_level c = high
  /\ consistency_score c = 3.
Proof.
  intros d Ht Hs Hx Tt Ts Tx Hdiff c.
  assert (Hin : In (total_mismatch_issue rt sub tax (sub + tax) total)
                   (consistency_issues c)).
  { subst c. unfold check_text_consistency. cbn [consistency_issues].
    apply in_or_app. left. unfold totals_issues. fold d.
    rewrite Ht, Hs, Hx. cbn [amount_truthy]. rewrite Tt, Ts, Tx. cbn [andb].
    rewrite Hdiff. now left. }
  assert (Hlevel : cons_risk_level c = high).
  { subst c. unfold check_text_consistency in *.
    cbn [cons_risk_level consistency_issues] in *.
    replace (existsb _ _) with true; [reflexivity|].
    symmetry. apply existsb_exists. eexists. split; [exact Hin|reflexivity]. }
  unfold consistency_score. now rewrite Hlevel.
Qed.

Lemma total_mismatch_reported_witness :
  consistency_score
    (check_text_consistency sample_runtime sample_clock mismatched_invoice) = 3.
Proof.
  exact (proj2 (proj2
           (total_mismatch_reported sample_runtime sample_clock
              mismatched_invoice 1300 1000 180
              eq_refl eq_refl eq_refl eq_refl eq_refl eq_refl eq_refl))).
Defined.

(** The example of the specification: 1000 + 180 against 1300. *)
Lemma total_mismatch_example (rt : Runtime) (clk : Clock) :
  py_float rt "1000" = Some 1000%float ->
  py_float rt "180" = Some 180%float ->
  py_float rt "1300" = Some 1300%float ->
  let c := check_text_consistency rt clk mismatched_invoice in
  map issue (consistency_issues c) = ["Total amount mismatch"]
  /\ map severity (consistency_issues c) = [high]
  /\ consistency_score c = 3.
Proof.
  intros H1000 H180 H1300.
  unfold check_text_consistency, totals_issues, date_issues, pattern_issues.
  cbn. rewrite H1000, H180, H1300. cbn. repeat split.
Qed.

(** An invoice without tax whose total is off by 300. *)
Definition zero_tax_invoice : list field :=
  [ sample_field "invoice_subtotal" "1000" PNone;
    sample_field "invoice_tax" "0" PNone;
    sample_field "invoice_total" "1300" PNone ].

(** C6, where the code leaves it. Subtotal 1000, tax 0 and total 1300
    differ by more than 0.01, yet the check of the totals is skipped: a
    tax of 0.0 counts as a missing amount. No issue is reported and the
    sub-score is 0. *)
Theorem zero_tax_mismatch_goes_unreported :
  forall (rt : Runtime) (clk : Clock),
    py_float rt "1000" = Some 1000%float ->
    py_float rt "0" = Some 0%float ->
    py_float rt "1300" = Some 1300%float ->
    let d := field_dict_of zero_tax_invoice in
    _extract_amount rt (dict_get_default "invoice_subtotal" (Some "") d)
    = Some 1000%float
    /\ _extract_amount rt (dict_get_default "invoice_tax" (Some "") d)
       = Some 0%float
    /\ _extract_amount rt (dict_get_default "invoice_total" (Some "") d)
       = Some 1300%float
    /\ (0.01 <? abs (1000 + 0 - 1300))%float = true
    /\ check_text_consistency rt clk zero_tax_invoice
       = {| consistency_issues := []; total_issues := 0;
            cons_risk_level := low |}
    /\ consistency_score (check_text_consistency rt clk zero_tax_invoice) = 0.
Proof.
  intros rt clk H1000 H0 H1300.
  assert (Hc : check_text_consistency rt clk zero_tax_invoice
               = {| consistency_issues := []; total_issues := 0;
                    cons_risk_level := low |}).
  { unfold check_text_consistency, totals_issues, date_issues, pattern_issues.
    cbn. rewrite H1000, H0, H1300. reflexivity. }
  cbn. rewrite Hc. repeat split; assumption.
Qed.

Lemma zero_tax_mismatch_goes_unreported_witness :
  consistency_score
    (check_text_consistency sample_runtime sample_clock zero_tax_invoice) = 0.
Proof.
  exact (proj2 (proj2 (proj2 (proj2 (proj2
           (zero_tax_mismatch_goes_unreported sample_runtime sample_clock
              eq_refl eq_refl eq_refl)))))).
Defined.

(** ** The confidence sub-analysis *)

(** The first loop maps the five labels. *)
Example label_values (rt : Runtime) :
  map (conf_float rt)
      [PStr "high"; PStr "medium"; PStr "low"; PStr "very high";
       PStr "very low"; PStr " High "]
  = map Some [0.9; 0.7; 0.5; 0.95; 0.3; 0.9]%float.
Proof. reflexivity. Qed.

(** The second loop raises at the first confidence that is a non-empty
    string on which [float] fails. *)
Lemma collect_confidences_raises (rt : Runtime) (fields : list field) :
  Exists (fun f => exists s, confidence_of f = PStr s /\ s <> ""
                             /\ py_float rt s = None) fields ->
  forall acc, exists e,
    collect_confidences rt fields acc = Raise e
    /\ exn_kind_of e = ValueError.
Proof.
  induction fields as [|f fields IH]; intros Hex acc.
  - inversion Hex.
  - cbn [collect_confidences].
    destruct (truthy (confidence_of f)) eqn:Ht.
    + destruct (float_of rt (confidence_of f)) as [x|e] eqn:Hf; cbn [bind].
      * apply IH. inversion Hex as [? ? (s & Hs & _ & Hnone)|]; subst;
          [|assumption].
        rewrite Hs in Hf. cbn in Hf. rewrite Hnone in Hf. discriminate.
      * exists e. split; [reflexivity|].
        destruct (confidence_of f) as [|s|x]; cbn in Hf, Ht;
          [discriminate| |discriminate].
        destruct (py_float rt s); [discriminate|].
        injection Hf as <-. reflexivity.
    + apply IH. inversion Hex as [? ? (s & Hs & Hne & _)|]; subst;
        [|assumption].
      rewrite Hs in Ht. cbn in Ht.
      destruct (String.eqb_spec s ""); [contradiction|discriminate].
Qed.

(** Every field list in which some confidence is a textual label makes
    the analysis raise [ValueError]. *)
Lemma label_confidence_raises (rt : Runtime) (fields : list field)
    (f : field) (s : string) :
  In f fields -> confidence_of f = PStr s -> s <> "" ->
  py_float rt s = None ->
  exists e, analyze_confidence_scores rt fields = Raise e
            /\ exn_kind_of e = ValueError.
Proof.
  intros Hin Hs Hne Hnone. unfold analyze_confidence_scores.
  destruct (collect_confidences_raises rt fields) with (acc := @nil float)
    as (e & He & Hk).
  - apply Exists_exists. exists f. split; [assumption|]. now exists s.
  - exists e. rewrite He. now split.
Qed.

(** C7, where the code leaves it. A single field whose confidence is the
    label "high" is flagged by no rule of the first loop, and the
    computation of the average then raises [ValueError]: the analysis does
    not complete. *)
Theorem textual_label_raises :
  forall (rt : Runtime),
    py_float rt "high" = None ->
    conf_float rt (PStr "high") = Some 0.9%float
    /\ fold_left (flag_step rt)
         [sample_field "invoice_total" "1300" (PStr "high")] [] = []
    /\ analyze_confidence_scores rt
         [sample_field "invoice_total" "1300" (PStr "high")]
       = Raise (Exn ValueError "could not convert string to float: 'high'").
Proof.
  intros rt Hhigh. split; [reflexivity|]. split; [reflexivity|].
  unfold analyze_confidence_scores. cbn. rewrite Hhigh. reflexivity.
Qed.

Lemma textual_label_raises_witness :
  is_ok (analyze_confidence_scores sample_runtime
           [sample_field "invoice_total" "1300" (PStr "high")]) = false.
Proof.
  rewrite (proj2 (proj2 (textual_label_raises sample_runtime eq_refl))).
  reflexivity.
Defined.

(** With numeric confidences, or strings that [float] reads, the analysis
    returns, and its level follows the two thresholds on the average and
    the number of flagged fields. *)
Lemma collect_confidences_ok (rt : Runtime) (fields : list field) :
  Forall (fun f => truthy (confidence_of f) = true ->
                   is_ok (float_of rt (confidence_of f)) = true) fields ->
  forall acc, is_ok (collect_confidences rt fields acc) = true.
Proof.
  induction 1 as [|f fields Hf _ IH]; intros acc; cbn; [reflexivity|].
  destruct (truthy (confidence_of f)); [|apply IH].
  destruct (float_of rt (confidence_of f)); cbn; [apply IH|].
  now specialize (Hf eq_refl).
Qed.

Lemma analyze_confidence_scores_returns (rt : Runtime) (fields : list field) :
  Forall (fun f => truthy (confidence_of f) = true ->
                   is_ok (float_of rt (confidence_of f)) = true) fields ->
  exists ca,
    analyze_confidence_scores rt fields = Ok ca
    /\ low_confidence_fields ca = fold_left (flag_step rt) fields []
    /\ (conf_risk_level ca = high \/ conf_risk_level ca = medium
        \/ conf_risk_level ca = low).
Proof.
  intros Hall. unfold analyze_confidence_scores.
  pose proof (collect_confidences_ok rt fields Hall []) as Hok.
  destruct (collect_confidences rt fields []) as [l|e]; [|discriminate].
  cbn. eexists. split; [reflexivity|]. cbn. split; [reflexivity|].
  destruct (confidence_level _ _); auto.
Qed.

End fraud_detection_facts.

(* ================================================================== *)
(** * Properties of the job orchestrator *)
(* ================================================================== *)

Module tasks_facts.
Import models pdf_classifier simple_ocr_service gemini_service.
Import document_processor fraud_detection tasks samples.






Lemma commit_ids (db : database) (j : job) :
  map id (jobs (commit db j)) = map id (jobs db).
Proof.
  unfold commit. cbn. induction (jobs db) as [|x l IH]; cbn; [reflexivity|].
  rewrite IH. destruct (Z.eqb_spec (id x) (id j)); congruence.
Qed.

Lemma find_by_id_some (l : list job) (k : Z) (j : job) :
  find (fun x : job => id x =? k) l = Some j -> In k (map id l) /\ id j = k.
Proof.
  intros H. apply find_some in H as [Hin Hk].
  apply Z.eqb_eq in Hk. split; [|assumption].
  rewrite <- Hk. now apply in_map.
Qed.

Lemma job_after_commit (db : database) (j : job) :
  In (id j) (map id (jobs db)) -> job_after (commit db j) (id j) = Some j.
Proof.
  unfold job_after, commit. cbn.
  induction (jobs db) as [|x l IH]; cbn; [contradiction|].
  destruct (Z.eqb_spec (id x) (id j)) as [E|E].
  - intros _. now rewrite Z.eqb_refl.
  - intros [H|H]; [contradiction|].
    destruct (Z.eqb_spec (id x) (id j)); [contradiction|]. now apply IH.
Qed.









(** The two messages the job can carry when the service was reached. *)
Example unparseable_reply_message :
  process_document (sample_services babbling_genai)
    {| jobs := [sample_job 1 7 None QUEUED]; extracted_fields := [] |} 1
  = ({| jobs :=
          [ {| id := 1; user_id := 7; filename := "invoice.pdf";
               s3_path := "uploads/invoice.pdf";
               file_hash := Some "%PDF-1.4 sample"; status := FAILED;
               error_message :=
                 Some "Document processing failed: Failed to process document response";
               fraud_analysis := None; created_at := 0;
               completed_at := Some 0 |} ];
        extracted_fields := [] |},
     TaskFailed "Document processing failed: Failed to process document response").
Proof. reflexivity. Qed.

(** A reply that parses and is an object is another matter: its missing
    entries are filled in, and the job completes. *)
Example empty_object_completes :
  exists j',
    job_after
      (fst (process_document (sample_services sample_genai)
              {| jobs := [sample_job 1 7 None QUEUED];
                 extracted_fields := [] |} 1)) 1 = Some j'
    /\ status j' = COMPLETED.
Proof. eexists. split; reflexivity. Qed.

(** Two uploads of the same bytes by one owner: the second run finds the
    first, completed, and its report carries the duplicate flag. *)
Example second_upload_is_flagged :
  let db0 := {| jobs := [sample_job 1 7 None QUEUED;
                         sample_job 2 7 None QUEUED;
                         sample_job 3 8 None QUEUED];
                extracted_fields := [] |} in
  let db1 := fst (process_document (sample_services sample_genai) db0 1) in
  let db2 := fst (process_document (sample_services sample_genai) db1 2) in
  let db3 := fst (process_document (sample_services sample_genai) db2 3) in
  map (fun j => (status j, option_map flags (fraud_analysis j))) (jobs db3)
  = [ (COMPLETED, Some []);
      (COMPLETED, Some ["Duplicate document detected"]);
      (COMPLETED, Some []) ].
Proof. vm_compute. reflexivity. Qed.

End tasks_facts.

(* ================================================================== *)
(** * More on the classifier: what every classification satisfies *)
(* ================================================================== *)

Module classifier_invariants.
Import pdf_classifier samples.

(** What the image loop keeps true of [(images, real_image_count)]. *)
Definition kept_ok (self : PDFClassifier) (st : list pil_image * Z) : Prop :=
  snd st = Z.of_nat (List.length (fst st))
  /\ Forall (fun im => img_mode im = "RGB"
                       /\ is_content_image self (img_width im) (img_height im)
                          = true) (fst st).

Lemma extract_one_kept (self : PDFClassifier) (e : result pil_image)
    (im : pil_image) :
  extract_one self e = Ok (Some im) ->
  img_mode im = "RGB"
  /\ is_content_image self (img_width im) (img_height im) = true.
Proof.
  unfold extract_one, convert_rgb. destruct e as [pil|x]; cbn; [|discriminate].
  destruct (is_content_image self (img_width pil) (img_height pil)) eqn:F;
    cbn; [|discriminate].
  destruct (String.eqb_spec (img_mode pil) "RGB") as [M|M]; cbn.
  - intros H. injection H as <-. auto.
  - destruct (img_decodes pil); cbn; [|discriminate].
    intros H. injection H as <-. cbn. auto.
Qed.

Lemma image_step_keeps (self : PDFClassifier) st e :
  kept_ok self st -> kept_ok self (image_step self st e).
Proof.
  intros [Hn Hall]. unfold image_step.
  destruct (extract_one self e) as [[im|]|x] eqn:He; [|now split|now split].
  split; cbn.
  - rewrite length_app, Hn. cbn. lia.
  - apply Forall_app. split; [assumption|].
    constructor; [|constructor]. now apply (extract_one_kept self e).
Qed.

Lemma image_step_grows (self : PDFClassifier) st e :
  (List.length (fst (image_step self st e)) <= S (List.length (fst st)))%nat.
Proof.
  unfold image_step. destruct (extract_one self e) as [[im|]|x]; cbn;
    [rewrite length_app; cbn; lia | lia | lia].
Qed.

Lemma page_step_keeps (self : PDFClassifier) (p : pdf_page) :
  forall st,
    kept_ok self st ->
    kept_ok self (page_step self st p)
    /\ (List.length (fst (page_step self st p))
        <= List.length (fst st) + List.length (page_images p))%nat.
Proof.
  unfold page_step. induction (page_images p) as [|e l IH]; intros st Hst; cbn.
  - split; [assumption|lia].
  - destruct (IH (image_step self st e) (image_step_keeps self st e Hst))
      as [Hk Hl].
    split; [assumption|]. pose proof (image_step_grows self st e). lia.
Qed.

Lemma extract_images_keeps (self : PDFClassifier) (doc : list pdf_page) :
  kept_ok self (extract_images self doc)
  /\ (List.length (fst (extract_images self doc))
      <= List.length (flat_map page_images doc))%nat.
Proof.
  unfold extract_images.
  assert (H : forall st,
             kept_ok self st ->
             kept_ok self (fold_left (page_step self) doc st)
             /\ (List.length (fst (fold_left (page_step self) doc st))
                 <= List.length (fst st)
                    + List.length (flat_map page_images doc))%nat).
  { induction doc as [|p doc IH]; intros st Hst; cbn.
    - split; [assumption|lia].
    - destruct (page_step_keeps self p st Hst) as [Hk Hl].
      destruct (IH _ Hk) as [Hk' Hl'].
      split; [assumption|]. rewrite length_app. lia. }
  destruct (H ([], 0)) as [Hk Hl]; [split; [reflexivity|constructor]|].
  split; [assumption|exact Hl].
Qed.

(** X4. In every classification [classify_pdf] returns, [image_count] is
    the number of images in [images], every one of them is in RGB mode and
    passes the size filter, there are no more of them than embedded images
    in the document, [page_count] is the number of pages, and [has_text]
    holds exactly when the stripped text is longer than 50 characters. *)
Theorem classification_is_consistent :
  forall (fz : Fitz) (self : PDFClassifier) (pdf_path : string)
         (doc : list pdf_page) (c : PDFClassification),
    fitz_open fz pdf_path = Ok doc ->
    classify_pdf fz self pdf_path = Ok c ->
    image_count c = Z.of_nat (List.length (images c))
    /\ Forall (fun im => img_mode im = "RGB"
                         /\ is_content_image self (img_width im)
                              (img_height im) = true) (images c)
    /\ image_count c <= Z.of_nat (List.length (flat_map page_images doc))
    /\ page_count c = Z.of_nat (List.length doc)
    /\ text_length c = len (strip (text_content c))
    /\ (has_text c = true <-> text_length c > 50).
Proof.
  intros fz self path doc c Hopen Hc.
  unfold classify_pdf in Hc. rewrite Hopen in Hc. cbn in Hc.
  injection Hc as <-.
  destruct (extract_images_keeps self doc) as [[Hn Hall] Hl].
  unfold classify_document.
  destruct (extract_images self doc) as [imgs n]. cbn in *.
  repeat split; try assumption; lia.
Qed.

Lemma classification_is_consistent_witness :
  exists c,
    classify_pdf sample_fitz get_pdf_classifier "scan.pdf" = Ok c
    /\ image_count c = Z.of_nat (List.length (images c)).
Proof.
  eexists. split; [reflexivity|].
  exact (proj1 (classification_is_consistent sample_fitz get_pdf_classifier
                  "scan.pdf" _ _ eq_refl eq_refl)).
Defined.

(** X5. The class of a document, read off the chain of tests: TEXT_ONLY
    exactly for a document with text that has no content image or more
    than 500 characters; MIXED exactly for a document with text of at most
    500 characters and more content images than the threshold; IMAGE_LIGHT
    only with at most five pages and at most [image_threshold] images;
    IMAGE_HEAVY for the rest. *)
Theorem classification_table :
  forall (fz : Fitz) (self : PDFClassifier) (pdf_path : string)
         (c : PDFClassification),
    classify_pdf fz self pdf_path = Ok c ->
    (pdf_type c = TEXT_ONLY
     <-> has_text c = true /\ (image_count c = 0 \/ text_length c > 500))
    /\ (pdf_type c = MIXED
        <-> has_text c = true /\ text_length c <= 500
            /\ image_count c > image_threshold self /\ image_count c <> 0)
    /\ (pdf_type c = IMAGE_LIGHT
        <-> image_count c <= image_threshold self /\ page_count c <= 5
            /\ (has_text c = true -> image_count c <> 0 /\ text_length c <= 500))
    /\ (pdf_type c = IMAGE_HEAVY
        <-> (has_text c = false
             /\ (image_count c > image_threshold self \/ page_count c > 5))
            \/ (has_text c = true /\ image_count c <> 0 /\ text_length c <= 500
                /\ image_count c <= image_threshold self /\ page_count c > 5)).
Proof.
  intros fz self path c Hc.
  unfold classify_pdf in Hc.
  destruct (fitz_open fz path) as [doc|e]; cbn in Hc; [|discriminate].
  injection Hc as <-.
  destruct (pdf_classifier_facts.classify_document_fields self doc) as (Hty & _).
  cbv zeta in Hty. rewrite Hty. clear Hty.
  set (c := classify_document self doc).
  unfold classify_type.
  destruct (has_text c);
    destruct (Z.eqb_spec (image_count c) 0);
    destruct (Z.gtb_spec (image_count c) (image_threshold self));
    destruct (Z.leb_spec (image_count c) (image_threshold self));
    destruct (Z.leb_spec (page_count c) 5);
    destruct (Z.gtb_spec (page_count c) 5);
    destruct (Z.gtb_spec (text_length c) 500);
    cbn; try lia;
    repeat split; intros; try discriminate; try reflexivity; try lia;
    intuition (try discriminate; try lia).
Qed.

Lemma classification_table_witness :
  exists c,
    classify_pdf sample_fitz get_pdf_classifier "scan.pdf" = Ok c
    /\ pdf_type c <> MIXED.
Proof.
  eexists. split; [reflexivity|].
  pose proof (classification_table sample_fitz get_pdf_classifier "scan.pdf"
                _ eq_refl) as (_ & Hmixed & _).
  intros Hm. apply Hmixed in Hm as [Ht _]. discriminate.
Defined.

End classifier_invariants.

(* ================================================================== *)
(** * More on the OCR extractor and the extraction service: failures *)
(* ================================================================== *)

Module service_failures.
Import pdf_classifier simple_ocr_service gemini_service document_processor.
Import samples.

Lemma extract_text_from_image_error (rt : Runtime) (tess : Tesseract)
    (image : pil_image) (languages : option (list string)) (psm : Z)
    (e : exn) :
  extract_text_from_image rt tess image languages psm = Raise e ->
  exn_kind_of e = RuntimeError
  /\ exists inner, exn_msg e = ("OCR extraction failed: " ++ inner)%string.
Proof.
  unfold extract_text_from_image.
  destruct (bind _ _) as [r|x]; [discriminate|].
  intros H. injection H as <-. cbn. eauto.
Qed.

Lemma ocr_loop_first_failure (rt : Runtime) (tess : Tesseract)
    (languages : option (list string)) (psm : Z) (e : exn) :
  forall imgs i all_text all_confidences,
    ocr_loop rt tess languages psm i imgs all_text all_confidences = Raise e ->
    exists pre im post,
      imgs = pre ++ im :: post
      /\ Forall (fun x => is_ok (extract_text_from_image rt tess x languages psm)
                          = true) pre
      /\ extract_text_from_image rt tess im languages psm = Raise e.
Proof.
  intros imgs. induction imgs as [|im imgs IH]; intros i at_ ac H; cbn in H.
  - discriminate.
  - destruct (extract_text_from_image rt tess im languages psm) as [r|x] eqn:Hr;
      cbn in H.
    + apply IH in H as (pre & im' & post & -> & Hpre & Him).
      exists (im :: pre), im', post. split; [reflexivity|].
      split; [|assumption]. constructor; [now rewrite Hr|assumption].
    + injection H as <-. exists [], im, imgs. repeat split; auto.
Qed.

(** X6. Reading a list of images is all or nothing: the call raises
    exactly when the extraction of some image raises, the error is then
    that of the first such image, a [RuntimeError] whose message starts
    with "OCR extraction failed: ", and no text of the other images is
    returned. *)
Theorem ocr_is_all_or_nothing :
  forall (rt : Runtime) (tess : Tesseract) (imgs : list pil_image)
         (languages : option (list string)) (psm : Z),
    (forall e,
        extract_text_from_images rt tess imgs languages psm = Raise e ->
        exn_kind_of e = RuntimeError
        /\ (exists inner,
               exn_msg e = ("OCR extraction failed: " ++ inner)%string)
        /\ exists pre im post,
             imgs = pre ++ im :: post
             /\ Forall (fun x =>
                          is_ok (extract_text_from_image rt tess x languages psm)
                          = true) pre
             /\ extract_text_from_image rt tess im languages psm = Raise e)
    /\ (Exists (fun im =>
                  is_ok (extract_text_from_image rt tess im languages psm)
                  = false) imgs ->
        is_ok (extract_text_from_images rt tess imgs languages psm) = false).
Proof.
  intros rt tess imgs languages psm. split.
  - intros e H. unfold extract_text_from_images in H.
    destruct (ocr_loop rt tess languages psm 0 imgs [] []) as [r|x] eqn:Hl;
      cbn in H; [discriminate|].
    injection H as <-.
    apply ocr_loop_first_failure in Hl as (pre & im & post & Himgs & Hpre & Him).
    destruct (extract_text_from_image_error _ _ _ _ _ _ Him) as [Hk Hm].
    split; [assumption|]. split; [assumption|]. now exists pre, im, post.
  - intros Hex. unfold extract_text_from_images.
    pose proof (simple_ocr_facts.ocr_loop_raises rt tess languages psm imgs
                  Hex 0 [] []) as Hr.
    destruct (ocr_loop rt tess languages psm 0 imgs [] []); [discriminate|].
    reflexivity.
Qed.

(** An engine that reads the first page and crashes on undecodable
    ones. *)
Definition picky_tesseract : Tesseract :=
  {| image_to_string :=
       fun im _ _ => if img_decodes im then Ok "page"
                     else Raise (Exn OtherError "cannot identify image");
     image_to_data_conf := fun _ _ _ => Ok [PNum 80] |}.

Lemma ocr_is_all_or_nothing_witness :
  extract_text_from_images sample_runtime picky_tesseract
    [gray_scan; truncated_scan; gray_scan] None 6
  = Raise (Exn RuntimeError "OCR extraction failed: cannot identify image").
Proof.
  destruct (extract_text_from_images sample_runtime picky_tesseract
              [gray_scan; truncated_scan; gray_scan] None 6) as [r|e] eqn:H.
  - pose proof (proj2 (ocr_is_all_or_nothing sample_runtime picky_tesseract
                         [gray_scan; truncated_scan; gray_scan] None 6)) as Hn.
    rewrite H in Hn. cbn in Hn.
    assert (Hf : true = false); [|discriminate Hf].
    apply Hn. apply Exists_cons_tl, Exists_cons_hd. reflexivity.
  - vm_compute in H. injection H as <-. reflexivity.
Defined.

Lemma take_length (n : nat) : forall s, (String.length (take n s) <= n)%nat.
Proof.
  induction n as [|n IH]; intros s; cbn; [lia|].
  destruct s; cbn; [lia|]. specialize (IH s). lia.
Qed.

(** The two shapes a failure has. *)
Definition generic_failure (method0 : string) (x : extraction) : Prop :=
  forall error raw m,
    x = Failure error raw m ->
    m = method0
    /\ ((error = "Failed to process document response"
         /\ exists r, raw = Some r /\ (String.length r <= 500)%nat)
        \/ (error = "Document processing service error" /\ raw = None)).

Lemma service_error_generic (m : string) : generic_failure m (service_error m).
Proof.
  intros error raw m' H. unfold service_error in H.
  injection H as <- <- <-. split; [reflexivity|]. right. now split.
Qed.

Lemma parse_error_generic (t m : string) : generic_failure m (parse_error t m).
Proof.
  intros error raw m' H. unfold parse_error in H.
  assert (E : error = "Failed to process document response"
              /\ raw = Some (take 500 t) /\ m' = m)
    by (repeat split; congruence).
  destruct E as (-> & -> & ->). split; [reflexivity|]. left.
  split; [reflexivity|]. exists (take 500 t).
  split; [reflexivity|apply take_length].
Qed.

Lemma success_generic (m : string) (r : extracted) :
  generic_failure m (Success r).
Proof. intros error raw m' H. discriminate. Qed.

(** X7. A failure of the text method never carries the service's own
    exception text: its error is one of two fixed messages, the raw reply
    is included only when the reply did not parse and then cut to 500
    characters, and the method tag is "gemini_text". The vision method
    behaves the same with the tag "gemini_vision". *)
Theorem extraction_failures_are_generic :
  forall (rt : Runtime) (ai : GenAI),
    (forall text ocr error raw m,
        extract_fields_from_text rt ai text ocr = Failure error raw m ->
        m = "gemini_text"
        /\ ((error = "Failed to process document response"
             /\ exists r, raw = Some r /\ (String.length r <= 500)%nat)
            \/ (error = "Document processing service error" /\ raw = None)))
    /\ (forall imgs ctx error raw m,
          extract_fields_from_images rt ai imgs ctx = Failure error raw m ->
          m = "gemini_vision"
          /\ ((error = "Failed to process document response"
               /\ exists r, raw = Some r /\ (String.length r <= 500)%nat)
              \/ (error = "Document processing service error" /\ raw = None))).
Proof.
  intros rt ai. split.
  - intros text ocr.
    change (generic_failure "gemini_text"
              (extract_fields_from_text rt ai text ocr)).
    unfold extract_fields_from_text.
    destruct (generate_content ai _) as [reply|x];
      [|apply service_error_generic].
    destruct (json_loads rt (clean_response reply)) as [[| | | | |d]|];
      try apply service_error_generic; try apply parse_error_generic.
    destruct (json_number _);
      [apply success_generic|apply service_error_generic].
  - intros imgs ctx.
    change (generic_failure "gemini_vision"
              (extract_fields_from_images rt ai imgs ctx)).
    unfold extract_fields_from_images. cbv zeta.
    destruct (generate_content ai _) as [reply|x];
      [|apply service_error_generic].
    destruct (json_loads rt (clean_response reply)) as [[| | | | |d]|];
      try apply service_error_generic; try apply parse_error_generic.
    destruct (json_number _);
      [apply success_generic|apply service_error_generic].
Qed.

(** A service that raises with a message of its own. *)
Definition leaking_genai : GenAI :=
  {| FIELD_EXTRACTION_PROMPT := "Return ONLY the JSON object, nothing else.";
     generate_content :=
       fun _ => Raise (Exn OtherError "403 API key sk-123 is not valid") |}.

Lemma extraction_failures_are_generic_witness :
  extract_fields_from_text sample_runtime leaking_genai "Total 1300" None
  = Failure "Document processing service error" None "gemini_text".
Proof.
  destruct (extract_fields_from_text sample_runtime leaking_genai
              "Total 1300" None) as [r|error raw m] eqn:H.
  - vm_compute in H. discriminate H.
  - destruct (proj1 (extraction_failures_are_generic sample_runtime
                       leaking_genai) _ _ _ _ _ H)
      as [-> [[-> (r & -> & _)]|[-> ->]]].
    + vm_compute in H. discriminate H.
    + reflexivity.
Defined.

Lemma render_pages_length (fz : Fitz) (zoom : float) :
  forall doc imgs,
    render_pages fz zoom doc = Ok imgs -> List.length imgs = List.length doc.
Proof.
  induction doc as [|p doc IH]; intros imgs H; cbn in H.
  - injection H as <-. reflexivity.
  - destruct (get_pixmap fz p zoom); cbn in H; [|discriminate].
    destruct (render_pages fz zoom doc) as [l|]; cbn in H; [|discriminate].
    injection H as <-. cbn. now rewrite (IH l).
Qed.

Lemma classify_pdf_inv (fz : Fitz) (self : PDFClassifier) (path : string)
    (c : PDFClassification) :
  classify_pdf fz self path = Ok c ->
  exists doc, fitz_open fz path = Ok doc /\ c = classify_document self doc.
Proof.
  unfold classify_pdf. destruct (fitz_open fz path) as [doc|e]; cbn;
    [|discriminate].
  intros H. injection H as <-. now exists doc.
Qed.

Lemma image_light_is_short (self : PDFClassifier) (n : Z) (ht : bool)
    (tl pc : Z) :
  classify_type self n ht tl pc = IMAGE_LIGHT -> pc <= 5.
Proof.
  unfold classify_type.
  destruct ((n =? 0) && ht); [discriminate|].
  destruct ((n >? image_threshold self) && negb ht); [discriminate|].
  destruct (Z.leb_spec pc 5); [intros; assumption|].
  rewrite !andb_false_r.
  destruct ((n <=? image_threshold self) && negb ht && (pc >? 5));
    [discriminate|].
  destruct (ht && (tl >? 500)); [discriminate|].
  destruct ((n <=? image_threshold self) && (pc >? 5)); discriminate.
Qed.

Lemma text_method_tag (rt : Runtime) (ai : GenAI) (t : string)
    (o : option float) (r : extracted) :
  extract_fields_from_text rt ai t o = Success r -> method r = "gemini_text".
Proof.
  unfold extract_fields_from_text.
  destruct (generate_content ai _); [|discriminate].
  destruct (json_loads rt _) as [[| | | | |d]|]; try discriminate.
  destruct (json_number _); [|discriminate].
  intros H. injection H as <-. reflexivity.
Qed.

(** X9. Through the dispatcher the vision method is only ever called for
    an IMAGE_LIGHT document, with one rendered image per page and so with
    at most five images: the cap of ten is never reached. *)
Theorem dispatcher_vision_calls :
  forall (rt : Runtime) (self : DocumentProcessor) (pdf_path : string)
         (p : processed) (r : extracted),
    process_document rt self pdf_path = Ok p ->
    extraction_of p = Success r ->
    method r = "gemini_vision" ->
    md_pdf_type (metadata p) = "image_light"
    /\ exists imgs ctx,
         extraction_of p
         = extract_fields_from_images rt (gemini self) imgs ctx
         /\ Z.of_nat (List.length imgs) = md_page_count (metadata p)
         /\ (0 < List.length imgs <= 5)%nat.
Proof.
  intros rt self path p r Hp Hr Hm.
  assert (Htext : forall t o,
             extract_fields_from_text rt (gemini self) t o = Success r ->
             False).
  { intros t o H. apply text_method_tag in H. congruence. }
  unfold process_document in Hp.
  destruct (classify_pdf (fitz self) (the_classifier self) path)
    as [c|e] eqn:Hc; cbn in Hp; [|discriminate].
  apply classify_pdf_inv in Hc as (doc & Hopen & Hcd).
  destruct (extract_content rt self path c) as [[[txt imgs] ocr]|e] eqn:Hx;
    cbn in Hp; [|discriminate].
  injection Hp as <-. cbn in Hr |- *.
  destruct imgs as [|im imgs]; [exfalso; eauto|].
  destruct (pdf_type c) eqn:Hty; try (exfalso; eauto; fail).
  split; [reflexivity|].
  exists (im :: imgs). eexists. split; [reflexivity|].
  unfold extract_content in Hx. rewrite Hty in Hx.
  unfold render_all_pages_to_images in Hx. rewrite Hopen in Hx. cbn in Hx.
  destruct (render_pages (fitz self) _ doc) as [pg|] eqn:Hpg; cbn in Hx;
    [|discriminate].
  injection Hx as _ Hpgeq _. subst pg.
  apply render_pages_length in Hpg.
  destruct (pdf_classifier_facts.classify_document_fields (the_classifier self)
              doc) as (Htype & Hpc & _).
  cbv zeta in Htype, Hpc. rewrite <- Hcd in Htype, Hpc.
  rewrite Hty in Htype. symmetry in Htype. apply image_light_is_short in Htype.
  rewrite Hpg. cbn in Hpg. split; [lia|]. split; [lia|]. lia.
Qed.

Lemma dispatcher_vision_calls_witness :
  exists p imgs ctx,
    process_document sample_runtime
      (get_document_processor sample_fitz sample_tesseract sample_genai)
      "scan.pdf" = Ok p
    /\ extraction_of p
       = extract_fields_from_images sample_runtime sample_genai imgs ctx
    /\ (List.length imgs <= 5)%nat.
Proof.
  eexists.
  destruct (dispatcher_vision_calls sample_runtime
              (get_document_processor sample_fitz sample_tesseract sample_genai)
              "scan.pdf" _ _ eq_refl eq_refl eq_refl)
    as (_ & imgs & ctx & Hcall & _ & Hlen).
  exists imgs, ctx. split; [reflexivity|]. split; [exact Hcall|lia].
Defined.

End service_failures.

(* ================================================================== *)
(** * More on the integrity analyzer: metadata, amounts and dates *)
(* ================================================================== *)

Module analyzer_inputs.
Import models fraud_detection samples.

(** The sub-score the report derives from a metadata analysis. *)
Definition metadata_score (a : metadata_analysis) : Z :=
  match meta_risk_level a with high => 2 | medium => 1 | low => 0 end.

(** X10. A file whose name ends in ".pdf", in any letter case, never gets
    a manipulation indicator: whatever its document information holds,
    the metadata risk is low and the metadata sub-score of a report is
    0. *)
Theorem pdf_metadata_is_never_flagged :
  forall (R : Type) (rt : Runtime) (fp : FileProbe) (clk : Clock)
         (file_path h : string) (u : Z) (fields : list field)
         (db : list (Job R)) (r : report),
    endswith (lower file_path) ".pdf" = true ->
    perform_full_analysis rt fp clk file_path h u fields db = Ok r ->
    manipulation_indicators (analyze_image_metadata fp file_path) = []
    /\ meta_risk_level (analyze_image_metadata fp file_path) = low
    /\ rs_metadata (risk_scores_of (detailed r)) = 0.
Proof.
  intros R rt fp clk path h u fields db r Hpdf Hr.
  destruct (fraud_detection_facts.perform_full_analysis_inv
              rt fp clk path h u fields db r Hr) as (ca & _ & Hd & _).
  rewrite Hd. cbn [risk_scores_of rs_metadata da_metadata_analysis].
  unfold analyze_image_metadata. rewrite Hpdf. cbn. repeat split.
Qed.

(** The information dictionary of a PDF saved from an image editor. *)
Definition edited_pdf_probe : FileProbe :=
  {| read_bytes := fun _ => Ok "%PDF-1.7";
     exif_items := fun _ => Ok [];
     pdf_metadata_items :=
       fun _ => Ok [("/Producer", "Adobe Photoshop 25.0")] |}.

Lemma pdf_metadata_is_never_flagged_witness :
  meta_risk_level (analyze_image_metadata edited_pdf_probe "Invoice.PDF") = low.
Proof.
  exact (proj1 (proj2 (pdf_metadata_is_never_flagged unit sample_runtime
                         edited_pdf_probe sample_clock "Invoice.PDF" "0f1e" 7
                         [] [] _ eq_refl eq_refl))).
Defined.

(** X11. The metadata analysis reports at most two indicators and the
    metadata sub-score is their number; an image file that cannot be
    opened gets the single indicator "Unable to extract metadata", medium
    risk, and no metadata. *)
Theorem metadata_score_counts_indicators :
  forall (fp : FileProbe) (file_path : string) (e : exn),
    endswith (lower file_path) ".pdf" = false ->
    exif_items fp file_path = Raise e ->
    (forall fp' path',
        metadata_score (analyze_image_metadata fp' path')
        = Z.of_nat (List.length
                      (manipulation_indicators
                         (analyze_image_metadata fp' path')))
        /\ (List.length (manipulation_indicators
                           (analyze_image_metadata fp' path')) <= 2)%nat)
    /\ analyze_image_metadata fp file_path
       = {| manipulation_indicators := ["Unable to extract metadata"];
            metadata_available := false;
            meta_risk_level := medium |}.
Proof.
  intros fp path e Hpdf Hexif. split.
  - intros fp' path'. unfold metadata_score, analyze_image_metadata.
    destruct (endswith (lower path') ".pdf"); [cbn; split; [reflexivity|lia]|].
    destruct (exif_items fp' path') as [items|x];
      [|cbn; split; [reflexivity|lia]].
    destruct (dict_get "Software" (dict_of_items items)) as [sw|];
      [destruct (existsb _ editors)|];
      destruct (negb (dict_mem "DateTime" (dict_of_items items)));
      cbn; split; first [reflexivity|lia].
  - unfold analyze_image_metadata. rewrite Hpdf, Hexif. reflexivity.
Qed.

Definition unreadable_probe : FileProbe :=
  {| read_bytes := fun _ => Ok "";
     exif_items := fun _ => Raise (Exn OtherError "cannot identify image file");
     pdf_metadata_items := fun _ => Ok [] |}.

Lemma metadata_score_counts_indicators_witness :
  metadata_score (analyze_image_metadata unreadable_probe "photo.png") = 1.
Proof.
  rewrite (proj2 (metadata_score_counts_indicators unreadable_probe "photo.png"
                    _ eq_refl eq_refl)).
  reflexivity.
Defined.

(** ** Amounts *)

Definition all_digits (s : string) : bool := (drop_digits s =? "")%string.

(** A run of digits, alone or followed by a dot and a run of digits. *)
Definition is_plain_decimal (m : string) : bool :=
  negb (take_digits m =? "")%string
  && match drop_digits m with
     | EmptyString => true
     | String c rest => (c =? ".")%char && all_digits rest
     end.

Lemma take_digits_all (s : string) : all_digits (take_digits s) = true.
Proof.
  unfold all_digits. induction s as [|c s IH]; cbn; [reflexivity|].
  destruct (isdigit c) eqn:D; cbn; [|reflexivity]. now rewrite D.
Qed.

Lemma take_digits_idem (s : string) : take_digits (take_digits s) = take_digits s.
Proof.
  induction s as [|c s IH]; cbn; [reflexivity|].
  destruct (isdigit c) eqn:D; cbn; [|reflexivity]. now rewrite D, IH.
Qed.

Lemma dot_is_no_digit : isdigit "." = false.
Proof. reflexivity. Qed.

Lemma take_digits_dot (s t : string) :
  take_digits (take_digits s ++ String "." t) = take_digits s.
Proof.
  induction s as [|c s IH]; cbn; [reflexivity|].
  destruct (isdigit c) eqn:D; cbn; [|reflexivity]. now rewrite D, IH.
Qed.

Lemma drop_digits_dot (s t : string) :
  drop_digits (take_digits s ++ String "." t) = String "." t.
Proof.
  induction s as [|c s IH]; cbn; [reflexivity|].
  destruct (isdigit c) eqn:D; cbn; [|reflexivity]. now rewrite D, IH.
Qed.

Lemma digit_is_no_comma (c : ascii) :
  isdigit c = true -> (N_of_ascii c =? 44)%N = false.
Proof.
  unfold isdigit. cbv zeta. intros H.
  apply andb_true_iff in H as [H1 H2].
  apply N.leb_le in H1. apply N.eqb_neq. lia.
Qed.

Lemma remove_commas_digits (s : string) :
  remove_commas (take_digits s) = take_digits s.
Proof.
  induction s as [|c s IH]; cbn; [reflexivity|].
  destruct (isdigit c) eqn:D; cbn; [|reflexivity].
  now rewrite (digit_is_no_comma c D), IH.
Qed.

Lemma remove_commas_append (a b : string) :
  remove_commas (a ++ b) = (remove_commas a ++ remove_commas b)%string.
Proof.
  induction a as [|c a IH]; cbn; [reflexivity|].
  destruct (N_of_ascii c =? 44)%N; cbn; now rewrite IH.
Qed.

Lemma search_number_unfold (c : ascii) (s : string) :
  isdigit c = true ->
  search_number (String c s)
  = match drop_digits s with
    | String "." after =>
        Some (String c (take_digits s ++ String "." (take_digits after)))
    | _ => Some (String c (take_digits s))
    end.
Proof.
  intros D. cbn. rewrite D. destruct (drop_digits s) as [|c' after]; [reflexivity|].
  destruct c' as [[] [] [] [] [] [] [] []]; reflexivity.
Qed.

Lemma digits_plain (c : ascii) (s : string) :
  isdigit c = true ->
  is_plain_decimal (String c (take_digits s)) = true
  /\ remove_commas (String c (take_digits s)) = String c (take_digits s).
Proof.
  intros D. split.
  - unfold is_plain_decimal. cbn. rewrite D. cbn.
    pose proof (take_digits_all s) as Ha. unfold all_digits in Ha.
    apply String.eqb_eq in Ha. now rewrite Ha.
  - cbn. now rewrite (digit_is_no_comma c D), remove_commas_digits.
Qed.

Lemma digits_dot_plain (c : ascii) (s after : string) :
  isdigit c = true ->
  is_plain_decimal (String c (take_digits s ++ String "." (take_digits after)))
  = true
  /\ remove_commas (String c (take_digits s ++ String "." (take_digits after)))
     = String c (take_digits s ++ String "." (take_digits after)).
Proof.
  intros D. split.
  - unfold is_plain_decimal. cbn. rewrite D. cbn.
    rewrite drop_digits_dot. cbn. apply take_digits_all.
  - cbn. rewrite (digit_is_no_comma c D), remove_commas_append,
      remove_commas_digits.
    cbn. now rewrite remove_commas_digits.
Qed.

Lemma search_number_plain (s m : string) :
  search_number s = Some m ->
  is_plain_decimal m = true /\ remove_commas m = m.
Proof.
  induction s as [|c s IH]; [discriminate|].
  destruct (isdigit c) eqn:D.
  - rewrite (search_number_unfold c s D).
    destruct (drop_digits s) as [|c' after].
    + intros H. injection H as <-. now apply digits_plain.
    + destruct (Ascii.eqb_spec c' ".") as [->|Hc'].
      * intros H. injection H as <-. now apply digits_dot_plain.
      * intros H.
        assert (Hm : m = String c (take_digits s)).
        { destruct c' as [[] [] [] [] [] [] [] []]; try congruence;
            injection H as <-; reflexivity. }
        subst m. now apply digits_plain.
  - cbn. rewrite D. exact IH.
Qed.


Fixpoint has_digit (s : string) : bool :=
  match s with
  | EmptyString => false
  | String c r => isdigit c || has_digit r
  end.

Lemma search_number_none (s : string) :
  has_digit s = false -> search_number s = None.
Proof.
  induction s as [|c s IH]; cbn; [reflexivity|].
  destruct (isdigit c); cbn; [discriminate|exact IH].
Qed.

Lemma search_number_some (s : string) :
  has_digit s = true -> exists m, search_number s = Some m.
Proof.
  induction s as [|c s IH]; [discriminate|].
  destruct (isdigit c) eqn:D.
  - intros _. rewrite (search_number_unfold c s D).
    destruct (drop_digits s) as [|c' after]; [eauto|].
    destruct c' as [[] [] [] [] [] [] [] []]; eauto.
  - cbn. rewrite D. exact IH.
Qed.

Lemma digit_is_no_symbol (c : ascii) :
  isdigit c = true -> is_currency_symbol c = false.
Proof.
  unfold isdigit, is_currency_symbol. cbv zeta. intros H.
  apply andb_true_iff in H as [H1 H2].
  apply N.leb_le in H1. apply N.leb_le in H2.
  rewrite !orb_false_iff, !N.eqb_neq. lia.
Qed.

Lemma has_digit_remove_currency (s : string) :
  has_digit (remove_currency s) = has_digit s.
Proof.
  induction s as [|c s IH]; cbn; [reflexivity|].
  destruct (is_currency_symbol c) eqn:C.
  - rewrite IH. destruct (isdigit c) eqn:D; [|reflexivity].
    rewrite (digit_is_no_symbol c D) in C. discriminate.
  - cbn. now rewrite IH.
Qed.

Lemma remove_currency_idem (s : string) :
  remove_currency (remove_currency s) = remove_currency s.
Proof.
  induction s as [|c s IH]; cbn; [reflexivity|].
  destruct (is_currency_symbol c) eqn:C; [exact IH|].
  cbn. now rewrite C, IH.
Qed.

(** X12. Whatever the text of an amount field, the string handed to
    [float] is a plain decimal numeral: a run of digits, alone or followed
    by a dot and a run of digits. A text without a digit gives no
    amount. *)
Theorem amount_text_is_plain_decimal :
  forall (rt : Runtime) (s : string),
    has_digit s = true ->
    (exists m, is_plain_decimal m = true
               /\ _extract_amount rt (Some s) = py_float rt m)
    /\ (forall t, has_digit t = false -> _extract_amount rt (Some t) = None).
Proof.
  intros rt s Hs. split.
  - unfold _extract_amount. destruct s as [|c s]; [discriminate|].
    rewrite <- has_digit_remove_currency in Hs.
    destruct (search_number_some _ Hs) as [m Hm]. rewrite Hm.
    destruct (search_number_plain _ _ Hm) as [Hp Hc].
    exists m. now rewrite Hc.
  - intros t Ht. unfold _extract_amount. destruct t as [|c t]; [reflexivity|].
    rewrite <- has_digit_remove_currency in Ht.
    now rewrite (search_number_none _ Ht).
Qed.

Lemma amount_text_is_plain_decimal_witness :
  exists m,
    is_plain_decimal m = true
    /\ _extract_amount sample_runtime (Some "Rs. 1,300.50 only")
       = py_float sample_runtime m.
Proof.
  exact (proj1 (amount_text_is_plain_decimal sample_runtime
                  "Rs. 1,300.50 only" eq_refl)).
Defined.

(** X13. The sign of an amount is dropped, and commas, dollar and pound
    signs are removed wherever they stand before the number is looked
    for: "-5" reads like "5", and a text reads like the same text without
    those symbols. *)
Theorem amount_ignores_sign_and_separators :
  forall (rt : Runtime) (s : string),
    _extract_amount rt (Some ("-" ++ s)%string) = _extract_amount rt (Some s)
    /\ _extract_amount rt (Some s)
       = _extract_amount rt (Some (remove_currency s)).
Proof.
  intros rt s. split.
  - unfold _extract_amount. cbn. destruct s; reflexivity.
  - unfold _extract_amount.
    destruct s as [|c s]; [reflexivity|].
    destruct (remove_currency (String c s)) as [|c' s'] eqn:Hr; [reflexivity|].
    rewrite <- Hr at 2. now rewrite remove_currency_idem, Hr.
Qed.

(** ** Dates *)

Lemma first_parse_spec (rt : Runtime) (s : string) (d : Z) :
  forall formats,
    first_parse rt s formats = Some d ->
    exists pre fmt post,
      formats = pre ++ fmt :: post
      /\ Forall (fun f => strptime rt s f = None) pre
      /\ strptime rt s fmt = Some d.
Proof.
  induction formats as [|f formats IH]; cbn; [discriminate|].
  destruct (strptime rt s f) as [d'|] eqn:Hf.
  - intros H. injection H as <-. exists [], f, formats. auto.
  - intros H. apply IH in H as (pre & fmt & post & -> & Hpre & Hfmt).
    exists (f :: pre), fmt, post. repeat split; auto.
Qed.

(** X14. A date that parses is read with the first of the eight formats,
    in their listed order, that accepts it; in particular a text that is
    not year-first and that the day/month/year format accepts is read day
    first, whatever the month/day/year format would make of it. *)
Theorem date_is_read_with_first_format :
  forall (rt : Runtime) (s : string) (d : Z),
    _parse_date rt (Some s) = Some d ->
    (exists pre fmt post,
        date_formats = pre ++ fmt :: post
        /\ Forall (fun f => strptime rt s f = None) pre
        /\ strptime rt s fmt = Some d)
    /\ (forall day_first,
          strptime rt s "%Y-%m-%d" = None ->
          strptime rt s "%d/%m/%Y" = Some day_first ->
          d = day_first).
Proof.
  intros rt s d H. unfold _parse_date in H.
  destruct s as [|c s]; [discriminate|]. split.
  - now apply first_parse_spec.
  - intros day_first Hiso Hdmy. unfold date_formats in H. cbn in H.
    rewrite Hiso, Hdmy in H. congruence.
Qed.

(** A [strptime] that knows one ambiguous date: days as a count from
    2024-01-01. *)
Definition calendar_runtime : Runtime :=
  {| py_float := short_decimal;
     json_loads := tiny_json_loads;
     py_str := fun _ => "?";
     float_repr := fun _ => "?";
     round3 := fun x => x;
     strptime :=
       fun s fmt =>
         if (s =? "01/02/2024")%string then
           if (fmt =? "%d/%m/%Y")%string then Some 31
           else if (fmt =? "%m/%d/%Y")%string then Some 1
           else None
         else None;
     isoformat := fun _ => "2024-01-01T00:00:00";
     sha256_hexdigest := fun data => data |}.

Lemma date_is_read_with_first_format_witness :
  _parse_date calendar_runtime (Some "01/02/2024") = Some 31.
Proof.
  destruct (_parse_date calendar_runtime (Some "01/02/2024")) as [d|] eqn:H.
  - f_equal.
    exact (proj2 (date_is_read_with_first_format calendar_runtime
                    "01/02/2024" d H) 31 eq_refl eq_refl).
  - vm_compute in H. discriminate H.
Defined.

(** ** Consistency *)

Import fraud_detection_facts.

Lemma issue_severity_known (rt : Runtime) (clk : Clock) (fields : list field)
    (i : consistency_issue) :
  In i (consistency_issues (check_text_consistency rt clk fields)) ->
  (severity i = high
   /\ (issue i = "Total amount mismatch"
       \/ issue i = "Due date before invoice date"))
  \/ (severity i = medium
      /\ (issue i = "Future invoice date"
          \/ issue i = "Suspicious amount pattern")).
Proof.
  unfold check_text_consistency. cbn [consistency_issues].
  rewrite !in_app_iff. intros [H|[H|H]];
    [|unfold date_issues in H; cbv zeta in H;
      apply in_app_iff in H as [H|H]|].
  - unfold totals_issues in H.
    destruct (amount_truthy _ && amount_truthy _ && amount_truthy _);
      [|contradiction].
    destruct (_extract_amount rt _) as [t|]; [|contradiction].
    destruct (_extract_amount rt _) as [sb|]; [|contradiction].
    destruct (_extract_amount rt _) as [tx|]; [|contradiction].
    destruct (0.01 <? _)%float; [|contradiction].
    destruct H as [<-|[]]. cbn. auto.
  - destruct (value_truthy _); [|contradiction].
    destruct (_parse_date rt _) as [d|]; [|contradiction].
    destruct (now clk <? d); [|contradiction].
    destruct H as [<-|[]]. cbn. auto.
  - destruct (value_truthy _ && value_truthy _); [|contradiction].
    destruct (_parse_date rt _) as [d1|]; [|contradiction].
    destruct (_parse_date rt _) as [d2|]; [|contradiction].
    destruct (d2 <? d1); [|contradiction].
    destruct H as [<-|[]]. cbn. auto.
  - unfold pattern_issues in H. apply in_flat_map in H as ((k & v) & _ & H).
    destruct (contains "amount" (lower k) || contains "total" (lower k));
      [|contradiction].
    apply in_flat_map in H as (pat & _ & H).
    destruct (pat (str_of_value v)); [|contradiction].
    destruct H as [<-|[]]. cbn. auto.
Qed.

Lemma consistency_low_iff (rt : Runtime) (clk : Clock) (fields : list field) :
  cons_risk_level (check_text_consistency rt clk fields) = low
  <-> consistency_issues (check_text_consistency rt clk fields) = [].
Proof.
  set (c := check_text_consistency rt clk fields).
  assert (Hlevel :
            cons_risk_level c
            = if existsb (fun i => level_eqb (severity i) high)
                         (consistency_issues c) then high
              else match consistency_issues c with
                   | [] => low
                   | _ => medium
                   end) by reflexivity.
  split.
  - rewrite Hlevel. destruct (existsb _ _); [discriminate|].
    destruct (consistency_issues c); [reflexivity|discriminate].
  - intros Hnil. rewrite Hlevel, Hnil. reflexivity.
Qed.

(** X15. The risk level of the consistency check is low exactly when no
    issue was found and high exactly when a total mismatch or a due date
    before the invoice date was found; a future invoice date and
    suspicious amount patterns alone give medium. The sub-score is
    accordingly 0, 3 or 1, and [total_issues] counts the issues. *)
Theorem consistency_level_follows_issues :
  forall (rt : Runtime) (clk : Clock) (fields : list field),
    let c := check_text_consistency rt clk fields in
    (cons_risk_level c = low <-> consistency_issues c = [])
    /\ (cons_risk_level c = high
        <-> exists i, In i (consistency_issues c)
                      /\ (issue i = "Total amount mismatch"
                          \/ issue i = "Due date before invoice date"))
    /\ total_issues c = Z.of_nat (List.length (consistency_issues c))
    /\ (consistency_score c = 0 \/ consistency_score c = 1
        \/ consistency_score c = 3).
Proof.
  intros rt clk fields c.
  assert (Hlevel :
            cons_risk_level c
            = if existsb (fun i => level_eqb (severity i) high)
                         (consistency_issues c) then high
              else match consistency_issues c with
                   | [] => low
                   | _ => medium
                   end) by reflexivity.
  assert (Hhigh :
            existsb (fun i => level_eqb (severity i) high)
                    (consistency_issues c) = true
            <-> exists i, In i (consistency_issues c)
                          /\ (issue i = "Total amount mismatch"
                              \/ issue i = "Due date before invoice date")).
  { rewrite existsb_exists. split.
    - intros (i & Hin & Hs). exists i. split; [assumption|].
      destruct (issue_severity_known rt clk fields i Hin)
        as [[_ Hn]|[Hm _]]; [assumption|].
      rewrite Hm in Hs. discriminate.
    - intros (i & Hin & Hn). exists i. split; [assumption|].
      destruct (issue_severity_known rt clk fields i Hin)
        as [[Hs _]|[_ Hm]]; [now rewrite Hs|].
      destruct Hn as [Hn|Hn], Hm as [Hm|Hm]; rewrite Hn in Hm; discriminate. }
  split; [apply consistency_low_iff|].
  repeat split.
  - intros Hh. apply Hhigh. rewrite Hlevel in Hh.
    destruct (existsb _ _); [reflexivity|].
    destruct (consistency_issues c); discriminate.
  - intros Hex. apply Hhigh in Hex. now rewrite Hlevel, Hex.
  - unfold consistency_score. destruct (cons_risk_level c); auto.
Qed.

(** ** Lookup in the field dictionary *)

Lemma dict_get_set_same {V} (k : string) (v : V) (d : pydict V) :
  dict_get k (dict_set k v d) = Some v.
Proof.
  induction d as [|[k' v'] d IH]; cbn; [now rewrite String.eqb_refl|].
  destruct (String.eqb_spec k k') as [->|Hk]; cbn.
  - now rewrite String.eqb_refl.
  - destruct (String.eqb_spec k k'); [contradiction|exact IH].
Qed.

Lemma dict_get_set_other {V} (k k0 : string) (v : V) (d : pydict V) :
  k0 <> k -> dict_get k0 (dict_set k v d) = dict_get k0 d.
Proof.
  intros Hne. induction d as [|[k' v'] d IH]; cbn.
  - destruct (String.eqb_spec k0 k); [contradiction|reflexivity].
  - destruct (String.eqb_spec k k') as [->|Hk]; cbn.
    + destruct (String.eqb_spec k0 k'); [contradiction|reflexivity].
    + destruct (String.eqb_spec k0 k'); [reflexivity|exact IH].
Qed.

Lemma dict_get_in {V} (k : string) (v : V) (d : pydict V) :
  dict_get k d = Some v -> In (k, v) d.
Proof.
  induction d as [|[k' v'] d IH]; cbn; [discriminate|].
  destruct (String.eqb_spec k k') as [->|Hk].
  - intros H. injection H as <-. now left.
  - intros H. right. now apply IH.
Qed.

(** The value the dictionary holds for a name is that of the last field
    with that name. *)
Lemma field_dict_last_wins (pre post : list field) (f : field) :
  Forall (fun g => f_field_name g <> f_field_name f) post ->
  dict_get (f_field_name f) (field_dict_of (pre ++ f :: post))
  = Some (f_current_value f).
Proof.
  intros Hpost. unfold field_dict_of. rewrite fold_left_app. cbn [fold_left].
  set (d := dict_set (f_field_name f) (f_current_value f) _).
  assert (Hd : dict_get (f_field_name f) d = Some (f_current_value f))
    by apply dict_get_set_same.
  clearbody d. revert d Hd.
  induction Hpost as [|g post Hg _ IH]; intros d Hd; cbn; [assumption|].
  apply IH. rewrite dict_get_set_other by congruence. assumption.
Qed.

(** X16. A field whose name contains "total" or "amount", in any letter
    case, and whose value ends in ".00" is reported as a suspicious amount
    pattern: a round amount alone makes the consistency risk at least
    medium and the sub-score at least 1. *)
Theorem round_amounts_are_flagged :
  forall (rt : Runtime) (clk : Clock) (pre post : list field) (f : field)
         (value : string),
    Forall (fun g => f_field_name g <> f_field_name f) post ->
    f_current_value f = Some value ->
    contains "amount" (lower (f_field_name f))
    || contains "total" (lower (f_field_name f)) = true ->
    endswith value ".00" = true ->
    let c := check_text_consistency rt clk (pre ++ f :: post) in
    (exists i, In i (consistency_issues c)
               /\ issue i = "Suspicious amount pattern"
               /\ severity i = medium)
    /\ cons_risk_level c <> low
    /\ consistency_score c >= 1.
Proof.
  intros rt clk pre post f value Hpost Hval Hname Hround c.
  set (i := {| issue := "Suspicious amount pattern";
               details := ("Field '" ++ f_field_name f
                             ++ "' has suspicious value: " ++ value)%string;
               severity := medium |}).
  assert (Hin : In i (consistency_issues c)).
  { subst c. unfold check_text_consistency. cbn [consistency_issues].
    apply in_or_app. right. apply in_or_app. right.
    unfold pattern_issues. apply in_flat_map.
    exists (f_field_name f, Some value). split.
    - apply dict_get_in. rewrite <- Hval. now apply field_dict_last_wins.
    - cbv beta iota. rewrite Hname. apply in_flat_map.
      exists (fun s => endswith s ".00" || endswith s (".00" ++ nl)%string).
      split; [cbn; auto|]. cbn [str_of_value]. rewrite Hround. cbn.
      left. reflexivity. }
  assert (Hnot : cons_risk_level c <> low).
  { intros Hlow. apply consistency_low_iff in Hlow. fold c in Hlow.
    rewrite Hlow in Hin. contradiction. }
  split; [exists i; auto|]. split; [assumption|].
  unfold consistency_score. destruct (cons_risk_level c); [contradiction|lia|lia].
Qed.

Lemma round_amounts_are_flagged_witness :
  consistency_score
    (check_text_consistency sample_runtime sample_clock
       [sample_field "Grand Total" "1000.00" PNone]) >= 1.
Proof.
  exact (proj2 (proj2
           (round_amounts_are_flagged sample_runtime sample_clock [] []
              (sample_field "Grand Total" "1000.00" PNone) "1000.00"
              (Forall_nil _) eq_refl eq_refl eq_refl))).
Defined.

(** ** Confidence *)

Lemma flag_step_falsy (rt : Runtime) (fields : list field) :
  Forall (fun f => truthy (confidence_of f) = false) fields ->
  forall acc, fold_left (flag_step rt) fields acc = acc.
Proof.
  induction 1 as [|f fields Hf _ IH]; intros acc; cbn; [reflexivity|].
  unfold flag_step at 2. rewrite Hf. apply IH.
Qed.

Lemma collect_confidences_falsy (rt : Runtime) (fields : list field) :
  Forall (fun f => truthy (confidence_of f) = false) fields ->
  forall acc, collect_confidences rt fields acc = Ok acc.
Proof.
  induction 1 as [|f fields Hf _ IH]; intros acc; cbn; [reflexivity|].
  rewrite Hf. apply IH.
Qed.

(** X17. When no field carries a confidence (the list is empty, or every
    confidence is missing, empty or the number 0), the analysis returns
    average 0, no flagged field, and the risk level high: the confidence
    sub-score is 2. *)
Theorem missing_confidence_is_high_risk :
  forall (rt : Runtime) (fields : list field),
    Forall (fun f => truthy (confidence_of f) = false) fields ->
    analyze_confidence_scores rt fields
    = Ok {| average_confidence := round3 rt 0;
            low_confidence_fields := [];
            total_low_confidence := 0;
            conf_risk_level := high |}.
Proof.
  intros rt fields Hall. unfold analyze_confidence_scores.
  rewrite (flag_step_falsy rt fields Hall),
    (collect_confidences_falsy rt fields Hall).
  reflexivity.
Qed.

Lemma missing_confidence_is_high_risk_witness :
  analyze_confidence_scores sample_runtime
    [sample_field "invoice_total" "1300" PNone;
     sample_field "vendor_name" "Acme" (PNum 0);
     sample_field "invoice_number" "17" (PStr "")]
  = Ok {| average_confidence := 0; low_confidence_fields := [];
          total_low_confidence := 0; conf_risk_level := high |}.
Proof.
  apply (missing_confidence_is_high_risk sample_runtime).
  repeat constructor.
Defined.

(** What a flagged entry records about the field it comes from. *)
Definition flagged_from (rt : Runtime) (f : field) (e : low_confidence_field)
  : Prop :=
  lc_field e = f_field_name f
  /\ lc_value e = f_current_value f
  /\ truthy (confidence_of f) = true
  /\ conf_float rt (confidence_of f) = Some (lc_confidence e)
  /\ ((existsb (String.eqb (f_field_name f)) critical_fields = true
       /\ (lc_confidence e <? 0.70)%float = true
       /\ lc_reason e = "Critical field with low confidence")
      \/ ((lc_confidence e <? 0.50)%float = true
          /\ lc_reason e = "Extremely low extraction confidence")).

Lemma flag_step_inv (rt : Runtime) (acc : list low_confidence_field)
    (f : field) :
  flag_step rt acc f = acc
  \/ exists e, flag_step rt acc f = acc ++ [e] /\ flagged_from rt f e.
Proof.
  unfold flag_step.
  destruct (truthy (confidence_of f)) eqn:Ht; [|now left].
  destruct (conf_float rt (confidence_of f)) as [x|] eqn:Hx; [|now left].
  destruct (existsb (String.eqb (f_field_name f)) critical_fields) eqn:Hc;
    cbn [andb].
  - destruct (x <? 0.70)%float eqn:H7.
    + right. eexists. split; [reflexivity|].
      unfold flagged_from. cbn. repeat split; auto.
    + destruct (x <? 0.50)%float eqn:H5; [|now left].
      right. eexists. split; [reflexivity|].
      unfold flagged_from. cbn. repeat split; auto.
  - destruct (x <? 0.50)%float eqn:H5; [|now left].
    right. eexists. split; [reflexivity|].
    unfold flagged_from. cbn. repeat split; auto.
Qed.

Lemma flag_fold_inv (rt : Runtime) (all : list field) :
  forall fields acc,
    incl fields all ->
    Forall (fun e => exists f, In f all /\ flagged_from rt f e) acc ->
    Forall (fun e => exists f, In f all /\ flagged_from rt f e)
           (fold_left (flag_step rt) fields acc)
    /\ (List.length (fold_left (flag_step rt) fields acc)
        <= List.length acc + List.length fields)%nat.
Proof.
  induction fields as [|f fields IH]; intros acc Hincl Hacc; cbn.
  - split; [assumption|lia].
  - assert (Hf : In f all) by (apply Hincl; now left).
    assert (Hrest : incl fields all)
      by (intros x Hx; apply Hincl; now right).
    destruct (flag_step_inv rt acc f) as [->|(e & -> & He)].
    + destruct (IH acc Hrest Hacc). split; [assumption|lia].
    + destruct (IH (acc ++ [e]) Hrest) as [H1 H2].
      * apply Forall_app. split; [assumption|].
        constructor; [eauto|constructor].
      * split; [assumption|]. rewrite length_app in H2. cbn in H2. lia.
Qed.

(** X18. Every entry of [low_confidence_fields] comes from a field of the
    input that carries a confidence: it records that field's name and
    value and the number read off its confidence, and that number is
    below 0.70 for a critical field or below 0.50 otherwise. There are
    never more entries than fields, and [total_low_confidence] counts
    them. *)
Theorem flagged_fields_are_justified :
  forall (rt : Runtime) (fields : list field) (ca : confidence_analysis),
    analyze_confidence_scores rt fields = Ok ca ->
    Forall (fun e => exists f, In f fields /\ flagged_from rt f e)
           (low_confidence_fields ca)
    /\ (List.length (low_confidence_fields ca) <= List.length fields)%nat
    /\ total_low_confidence ca
       = Z.of_nat (List.length (low_confidence_fields ca)).
Proof.
  intros rt fields ca H. unfold analyze_confidence_scores in H.
  destruct (collect_confidences rt fields []) as [l|e]; cbn in H;
    [|discriminate].
  injection H as <-. cbn.
  destruct (flag_fold_inv rt fields fields [] (incl_refl _) (Forall_nil _))
    as [H1 H2].
  cbn in H2. repeat split; assumption.
Qed.

Lemma flagged_fields_are_justified_witness :
  exists ca,
    analyze_confidence_scores sample_runtime
      [sample_field "invoice_total" "1300" (PStr "0.60");
       sample_field "notes" "paid" (PStr "0.60")] = Ok ca
    /\ (List.length (low_confidence_fields ca) <= 2)%nat.
Proof.
  eexists. split; [reflexivity|].
  refine (proj1 (proj2 (flagged_fields_are_justified sample_runtime
    [sample_field "invoice_total" "1300" (PStr "0.60");
     sample_field "notes" "paid" (PStr "0.60")] _ _))).
  reflexivity.
Defined.

(** ** The overall risk *)

(** X19. A report for a document that has a completed copy by the same
    owner has a risk score of at least 3 and is never rated low; when the
    consistency check is high as well, the report is rated high. *)
Theorem duplicate_raises_overall_risk :
  forall (R : Type) (rt : Runtime) (fp : FileProbe) (clk : Clock)
         (file_path h : string) (u : Z) (fields : list field)
         (db : list (Job R)) (r : report),
    perform_full_analysis rt fp clk file_path h u fields db = Ok r ->
    prior_completed_copy db h u ->
    risk_score r >= 3
    /\ overall_risk_level r <> low
    /\ (cons_risk_level (check_text_consistency rt clk fields) = high ->
        overall_risk_level r = high).
Proof.
  intros R rt fp clk path h u fields db r Hr Hdup.
  destruct (perform_full_analysis_inv rt fp clk path h u fields db r Hr)
    as (ca & _ & Hd & Hsum & Hlv & _).
  apply (check_duplicate_spec rt) in Hdup. destruct Hdup as [info Hinfo].
  pose proof (sub_score_bounds (detailed r)) as Hb. cbv zeta in Hb.
  pose proof (overall_of_thresholds (risk_score r)) as (H6 & H3 & H0).
  rewrite <- Hlv in H6, H3, H0. unfold sum_values in Hsum.
  assert (Hdupscore : rs_duplicate (risk_scores_of (detailed r)) = 3).
  { rewrite Hd. cbn [risk_scores_of rs_duplicate duplicate_detection].
    now rewrite Hinfo. }
  assert (Hge : risk_score r >= 3) by lia.
  split; [assumption|]. split.
  - destruct (Z_lt_le_dec (risk_score r) 6).
    + rewrite H3 by lia. discriminate.
    + rewrite H6 by lia. discriminate.
  - intros Hcons. apply H6.
    assert (rs_consistency (risk_scores_of (detailed r)) = 3).
    { rewrite Hd. cbn [risk_scores_of rs_consistency da_consistency_check].
      now rewrite Hcons. }
    lia.
Qed.

Lemma duplicate_raises_overall_risk_witness :
  exists r : report,
    perform_full_analysis sample_runtime sample_probe sample_clock
      "scan.pdf" "0f1e" 7 [sample_field "vendor_name" "Acme" (PStr "0.90")]
      [sample_job 3 7 (Some "0f1e") COMPLETED] = Ok r
    /\ overall_risk_level r <> low.
Proof.
  eexists. split; [reflexivity|].
  apply (duplicate_raises_overall_risk _ sample_runtime sample_probe
           sample_clock "scan.pdf" "0f1e" 7
           [sample_field "vendor_name" "Acme" (PStr "0.90")]
           [sample_job 3 7 (Some "0f1e") COMPLETED] _ eq_refl).
  exists (sample_job 3 7 (Some "0f1e") COMPLETED).
  repeat split. now left.
Defined.

End analyzer_inputs.

(* ================================================================== *)
(** * Runs of the task: what a run writes and what it leaves alone *)
(* ================================================================== *)

Module task_runs.
Import models pdf_classifier simple_ocr_service gemini_service.
Import document_processor fraud_detection tasks samples tasks_facts.

(** The rows of the other jobs. *)
Definition others (k : Z) (l : list job) : list job :=
  filter (fun j : job => negb (id j =? k)) l.

(** The names of the rows that describe the document as a whole. *)
Definition metadata_names : list string :=
  ["_document_type"; "_confidence"; "_summary"; "_method"; "_pdf_type"].

(** What [save_extracted_fields] gives every row it adds. *)
Definition saved_row (job_id0 : Z) (f : ExtractedField) : Prop :=
  job_id f = job_id0
  /\ edited_value f = None
  /\ is_edited f = false
  /\ exists v, original_value f = Some v
     /\ ((models.confidence f = Some "0.90"
          /\ In (field_name f) metadata_names
          /\ (String.length v <= 500)%nat)
         \/ models.confidence f = Some "0.70").

Lemma metadata_fields_names (rt : Runtime) (p : processed) :
  map fst (metadata_fields rt p) = metadata_names.
Proof.
  unfold metadata_fields. now destruct (extraction_of p).
Qed.

Lemma metadata_rows_saved (rt : Runtime) (job_id0 : Z) (p : processed) :
  Forall (saved_row job_id0) (metadata_rows rt job_id0 p)
  /\ (List.length (metadata_rows rt job_id0 p) <= 5)%nat.
Proof.
  unfold metadata_rows.
  assert (Hn : Forall (fun nv => In (fst nv) metadata_names)
                      (metadata_fields rt p)).
  { rewrite <- (metadata_fields_names rt p). apply Forall_forall.
    intros nv Hnv. now apply in_map. }
  assert (Hl : (List.length (metadata_fields rt p) <= 5)%nat).
  { rewrite <- (length_map fst), metadata_fields_names. cbn. lia. }
  revert Hn Hl. generalize (metadata_fields rt p) as l.
  intros l Hn Hl.
  assert (G : Forall (saved_row job_id0)
                (flat_map
                   (fun nv : string * json =>
                      if json_truthy (snd nv)
                      then [ {| job_id := job_id0; field_name := fst nv;
                                original_value :=
                                  Some (take 500 (str_of_json rt (snd nv)));
                                edited_value := None;
                                models.confidence := Some "0.90";
                                is_edited := false |} ]
                      else []) l)
              /\ (List.length
                    (flat_map
                       (fun nv : string * json =>
                          if json_truthy (snd nv)
                          then [ {| job_id := job_id0; field_name := fst nv;
                                    original_value :=
                                      Some (take 500 (str_of_json rt (snd nv)));
                                    edited_value := None;
                                    models.confidence := Some "0.90";
                                    is_edited := false |} ]
                          else []) l)
                  <= List.length l)%nat).
  { clear Hl. induction Hn as [|nv l Hnv _ [IH1 IH2]]; cbn [flat_map].
    - split; [constructor|cbn; lia].
    - destruct (json_truthy (snd nv)); cbn [app List.length].
      + split; [|lia]. constructor; [|assumption].
        unfold saved_row. do 3 (split; [reflexivity|]).
        exists (take 500 (str_of_json rt (snd nv))).
        split; [reflexivity|]. left. split; [reflexivity|].
        split; [exact Hnv|apply service_failures.take_length].
      + split; [assumption|lia]. }
  destruct G. split; [assumption|lia].
Qed.

Lemma insert_row_saved (eng : Engine) (job_id0 : Z) (f : pending_field)
    (row : ExtractedField) :
  insert_row eng job_id0 f = Ok row -> saved_row job_id0 row.
Proof.
  unfold insert_row.
  assert (G : forall k,
             (name <- insert_field_name eng k ;;
              Ok {| job_id := job_id0; field_name := name;
                    original_value := Some (pf_original_value f);
                    edited_value := None; models.confidence := Some "0.70";
                    is_edited := false |}) = Ok row ->
             saved_row job_id0 row).
  { intros k H. destruct (insert_field_name eng k) as [name|e]; cbn in H;
      [|discriminate].
    injection H as <-. unfold saved_row. cbn. repeat split.
    eexists. split; [reflexivity|]. now right. }
  destruct (pf_field_name f); first [discriminate | apply G].
Qed.

Lemma flush_saved (eng : Engine) (job_id0 : Z) :
  forall pending rows,
    flush eng job_id0 pending = Ok rows ->
    Forall (saved_row job_id0) rows
    /\ List.length rows = List.length pending.
Proof.
  induction pending as [|f pending IH]; intros rows H; cbn in H.
  - injection H as <-. split; [constructor|reflexivity].
  - destruct (insert_row eng job_id0 f) as [row|e] eqn:Hrow; cbn in H;
      [|discriminate].
    destruct (flush eng job_id0 pending) as [rest|e]; cbn in H;
      [|discriminate].
    injection H as <-. destruct (IH rest eq_refl) as [H1 H2].
    split; [|cbn; congruence].
    constructor; [|assumption]. exact (insert_row_saved _ _ _ _ Hrow).
Qed.

(** A flush fails at a row it cannot insert. *)
Lemma flush_fails (eng : Engine) (job_id0 : Z) :
  forall pending e,
    flush eng job_id0 pending = Raise e ->
    exists f, In f pending /\ insert_row eng job_id0 f = Raise e.
Proof.
  induction pending as [|f pending IH]; intros e H; cbn in H;
    [discriminate|].
  destruct (insert_row eng job_id0 f) as [row|e0] eqn:Hrow; cbn in H.
  - destruct (flush eng job_id0 pending) as [rest|e1]; cbn in H;
      [discriminate|].
    injection H as <-. destruct (IH e1 eq_refl) as (g & Hg & Hr).
    exists g. split; [now right|assumption].
  - injection H as <-. exists f. split; [now left|assumption].
Qed.

(** The pending rows come from the pairs of the reply. *)
Lemma data_row_in (rt : Runtime) (items : list json) (f : pending_field) :
  In f (flat_map (data_row rt) items) ->
  exists d value,
    In (JObj d) items
    /\ dict_get "key" d = Some (pf_field_name f)
    /\ dict_get "value" d = Some value
    /\ pf_original_value f = str_of_json rt value.
Proof.
  intros H. apply in_flat_map in H as (item & Hitem & Hf).
  unfold data_row in Hf. destruct item as [| | | | |d]; try contradiction.
  destruct (dict_get "key" d) as [k|] eqn:Hk; [|contradiction].
  destruct (dict_get "value" d) as [value|] eqn:Hv; [|contradiction].
  destruct (json_truthy value && negb (is_not_found value)); [|contradiction].
  destruct Hf as [<-|[]]. now exists d, value.
Qed.

Lemma save_extracted_fields_inv (rt : Runtime) (eng : Engine) (db : database)
    (job_id0 : Z) (p : processed) :
  jobs (fst (save_extracted_fields rt eng db job_id0 p)) = jobs db
  /\ exists new,
       extracted_fields (fst (save_extracted_fields rt eng db job_id0 p))
       = extracted_fields db ++ new
       /\ Forall (saved_row job_id0) new
       /\ (snd (save_extracted_fields rt eng db job_id0 p) = Saved
           \/ (exists e,
                 snd (save_extracted_fields rt eng db job_id0 p) = SaveRaised e
                 /\ json_items (extracted_data_of p) = Raise e
                 /\ new = metadata_rows rt job_id0 p)
           \/ (exists e items,
                 snd (save_extracted_fields rt eng db job_id0 p)
                 = FlushFailed e
                 /\ json_items (extracted_data_of p) = Ok items
                 /\ flush eng job_id0 (flat_map (data_row rt) items) = Raise e
                 /\ new = [])).
Proof.
  unfold save_extracted_fields.
  destruct (metadata_rows_saved rt job_id0 p) as [Hm _].
  destruct (json_items (extracted_data_of p)) as [items|e]; cbn.
  - destruct (flush eng job_id0 (flat_map (data_row rt) items)) as [rows|e]
      eqn:Hflush; cbn.
    + split; [reflexivity|].
      exists (metadata_rows rt job_id0 p ++ rows).
      rewrite app_assoc. split; [reflexivity|]. split; [|now left].
      apply Forall_app. split; [assumption|].
      exact (proj1 (flush_saved _ _ _ _ Hflush)).
    + split; [reflexivity|]. exists []. rewrite app_nil_r.
      split; [reflexivity|]. split; [constructor|].
      right. right. now exists e, items.
  - split; [reflexivity|]. exists (metadata_rows rt job_id0 p).
    split; [reflexivity|]. split; [assumption|]. right. left. now exists e.
Qed.

(** X20. Every row [save_extracted_fields] adds belongs to the job, is
    unedited and has a value; it carries the confidence 0.90, one of the
    five underscore names and at most 500 characters, or the confidence
    0.70. Rows already stored are kept in place and the jobs are left
    alone. A reply whose [extracted_data] cannot be iterated still leaves
    the document-level rows behind; a pair the database refuses leaves no
    row of the call at all. *)
Theorem saved_rows_shape :
  forall (rt : Runtime) (eng : Engine) (db : database) (job_id0 : Z)
         (p : processed),
    let out := save_extracted_fields rt eng db job_id0 p in
    jobs (fst out) = jobs db
    /\ exists new,
         extracted_fields (fst out) = extracted_fields db ++ new
         /\ Forall (saved_row job_id0) new
         /\ (forall e, snd out = SaveRaised e ->
               new = metadata_rows rt job_id0 p)
         /\ (forall e, snd out = FlushFailed e -> new = []).
Proof.
  intros rt eng db job_id0 p out. subst out.
  destruct (save_extracted_fields_inv rt eng db job_id0 p)
    as (Hj & new & Hnew & Hrows & Hout).
  split; [assumption|]. exists new. repeat split; try assumption.
  - intros e He.
    destruct Hout as [Hok|[(e' & _ & _ & ->)|(e' & items & Hf & _)]];
      [|reflexivity|]; rewrite He in *; discriminate.
  - intros e He.
    destruct Hout as [Hok|[(e' & Hs & _)|(e' & items & _ & _ & _ & ->)]];
      [| |reflexivity]; rewrite He in *; discriminate.
Qed.

(** ** The job row *)

(** The columns a run never writes. *)
Definition same_upload (j j' : job) : Prop :=
  id j' = id j /\ user_id j' = user_id j /\ filename j' = filename j
  /\ s3_path j' = s3_path j /\ created_at j' = created_at j.

Lemma commit_others (db : database) (j : job) (k : Z) :
  id j = k -> others k (jobs (commit db j)) = others k (jobs db).
Proof.
  intros <-. unfold others, commit. cbn [jobs].
  induction (jobs db) as [|x l IH]; cbn; [reflexivity|].
  destruct (Z.eqb_spec (id x) (id j)) as [E|E]; cbn.
  - rewrite Z.eqb_refl. cbn. exact IH.
  - destruct (Z.eqb_spec (id x) (id j)); [contradiction|]. cbn. now rewrite IH.
Qed.

(** What one pass through the body of the [try] does to the session and
    to the job object. *)
Record body_effect (sv : Services) (db : database) (j : job)
    (db' : database) (j' : job) : Prop := {
  be_same : same_upload j j';
  be_error : error_message j' = error_message j;
  be_ids : map id (jobs db') = map id (jobs db);
  be_others : others (id j) (jobs db') = others (id j) (jobs db);
  be_rows : exists new,
      extracted_fields db' = extracted_fields db ++ new
      /\ Forall (saved_row (id j)) new
}.

(** The temporary file of a job. *)
Definition temp_file_of (sv : Services) (j : job) : string :=
  (UPLOAD_TEMP_DIR (storage sv) ++ "/job_" ++ str_of_int (id j) ++ "_"
     ++ filename j)%string.

(** The reply for the job's file holds a pair, with a value to store,
    whose row the database refuses with [e]. *)
Definition refused_pair (sv : Services) (j : job) (e : exn) : Prop :=
  exists p r items d k value,
    document_processor.process_document (rt sv) (processor sv)
      (temp_file_of sv j) = Ok p
    /\ extraction_of p = Success r
    /\ json_items (extracted_data r) = Ok items
    /\ In (JObj d) items
    /\ dict_get "key" d = Some k
    /\ dict_get "value" d = Some value
    /\ insert_row (engine sv) (id j)
         {| pf_field_name := k;
            pf_original_value := str_of_json (rt sv) value |} = Raise e.

(** The rows of a job as the task hands them to the analysis. *)
Definition job_fields (k : Z) (db : database) : list field :=
  map field_entry (filter (fun f => job_id f =? k) (extracted_fields db)).

(** What a completed run stored and returned: the digest of the job's
    file, the report of the analysis of that file and of the job's rows
    against the table in which the job has its digest, and the entries
    of the dispatcher's result. *)
Definition completed_with (sv : Services) (db db' : database) (j j' : job)
    (r : task_result) : Prop :=
  exists h rep p x items,
    calculate_file_hash (rt sv) (probe sv) (temp_file_of sv j) = Ok h
    /\ file_hash j' = Some h
    /\ perform_full_analysis (rt sv) (probe sv) (clock sv) (temp_file_of sv j)
         h (user_id j) (job_fields (id j) db')
         (jobs (commit db (with_file_hash j h))) = Ok rep
    /\ fraud_analysis j' = Some rep
    /\ document_processor.process_document (rt sv) (processor sv)
         (temp_file_of sv j) = Ok p
    /\ extraction_of p = Success x
    /\ json_items (extracted_data x) = Ok items
    /\ r = TaskCompleted (method x) (md_pdf_type (metadata p))
             (document_type x) (gemini_service.confidence x)
             (Z.of_nat (List.length items) + 3).

Lemma try_body_effect (sv : Services) (db : database) (j : job)
    (db' : database) (j' : job) (res : body_end) :
  try_body sv db j = (db', j', res) ->
  body_effect sv db j db' j'
  /\ (forall r, res = Returns r ->
        status j' = COMPLETED
        /\ completed_at j' = Some (utcnow (clock sv))
        /\ completed_with sv db db' j j' r
        /\ (In (id j) (map id (jobs db)) -> job_after db' (id j) = Some j'))
  /\ (forall e, res = RaisesInactive e ->
        exists h,
          calculate_file_hash (rt sv) (probe sv) (temp_file_of sv j) = Ok h
          /\ j' = with_file_hash j h
          /\ db' = commit db (with_file_hash j h)
          /\ refused_pair sv j e).
Proof.
  assert (Hnil : exists new : list ExtractedField,
             extracted_fields db = extracted_fields db ++ new
             /\ Forall (saved_row (id j)) new)
    by (exists []; rewrite app_nil_r; split; [reflexivity|constructor]).
  unfold try_body. fold (temp_file_of sv j).
  destruct (bind (mkdir (storage sv) _) _) as [[]|e].
  2:{ intros H. injection H as <- <- <-.
      split; [|split; discriminate].
      constructor; try reflexivity; try assumption. now repeat split. }
  destruct (calculate_file_hash (rt sv) (probe sv) _) as [h|e] eqn:Hh.
  2:{ intros H. injection H as <- <- <-.
      split; [|split; discriminate].
      constructor; try reflexivity; try assumption. now repeat split. }
  destruct (document_processor.process_document (rt sv) (processor sv) _)
    as [p|e] eqn:Hp.
  2:{ intros H. injection H as <- <- <-.
      split; [|split; discriminate].
      constructor; try reflexivity; try assumption.
      - now repeat split.
      - apply commit_ids.
      - now apply commit_others. }
  destruct (extraction_of p) as [r|err raw m] eqn:Hex.
  2:{ intros H. injection H as <- <- <-.
      split; [|split; discriminate].
      constructor; try reflexivity; try assumption.
      - now repeat split.
      - apply commit_ids.
      - now apply commit_others. }
  destruct (save_extracted_fields_inv (rt sv) (engine sv)
              (commit db (with_file_hash j h)) (id j) p)
    as (Hjobs & new & Hnew & Hrows & Hout).
  destruct (save_extracted_fields (rt sv) (engine sv)
              (commit db (with_file_hash j h)) (id j) p)
    as [db2 [|e|e]] eqn:Hsave; cbn [fst snd] in Hjobs, Hnew, Hout.
  2:{ intros H. injection H as <- <- <-.
      split; [|split; discriminate].
      constructor; try reflexivity.
      - now repeat split.
      - rewrite Hjobs. apply commit_ids.
      - rewrite Hjobs. now apply commit_others.
      - now exists new. }
  2:{ intros H. injection H as <- <- <-.
      split; [|split; [discriminate|]].
      - constructor; try reflexivity.
        + now repeat split.
        + rewrite Hjobs. apply commit_ids.
        + rewrite Hjobs. now apply commit_others.
        + now exists new.
      - intros e0 He0. injection He0 as <-. exists h.
        split; [first [exact Hh | reflexivity]|]. split; [reflexivity|].
        destruct Hout as [Hout|[(e' & Hout & _)|(e' & items & Hout & Hit & Hfl & _)]];
          try discriminate.
        injection Hout as <-.
        split.
        + unfold save_extracted_fields in Hsave. rewrite Hit, Hfl in Hsave.
          now injection Hsave as <-.
        + destruct (flush_fails _ _ _ _ Hfl) as (f & Hf & Hins).
          destruct (data_row_in _ _ _ Hf) as (d & value & Hd & Hk & Hv & Hval).
          unfold extracted_data_of in Hit. rewrite Hex in Hit.
          exists p, r, items, d, (pf_field_name f), value.
          repeat split; try assumption.
          rewrite <- Hval. now destruct f. }
  destruct (perform_full_analysis _ _ _ _ _ _ _ _) as [rep|e] eqn:Hrep.
  2:{ intros H. injection H as <- <- <-.
      split; [|split; discriminate].
      constructor; try reflexivity.
      - now repeat split.
      - rewrite Hjobs. apply commit_ids.
      - rewrite Hjobs. now apply commit_others.
      - now exists new. }
  assert (Hids : map id
                   (jobs (commit
                            (commit db2
                               (with_fraud_analysis (with_file_hash j h) rep))
                            (completed
                               (with_fraud_analysis (with_file_hash j h) rep)
                               (utcnow (clock sv)))))
                 = map id (jobs db))
    by (rewrite !commit_ids, Hjobs; apply commit_ids).
  assert (Heff : body_effect sv db j
                   (commit
                      (commit db2
                         (with_fraud_analysis (with_file_hash j h) rep))
                      (completed
                         (with_fraud_analysis (with_file_hash j h) rep)
                         (utcnow (clock sv))))
                   (completed (with_fraud_analysis (with_file_hash j h) rep)
                              (utcnow (clock sv)))).
  { constructor; try reflexivity.
    - now repeat split.
    - exact Hids.
    - rewrite !commit_others by reflexivity. rewrite Hjobs.
      now apply commit_others.
    - now exists new. }
  destruct (json_items (extracted_data r)) as [items|e] eqn:Hitems;
    intros H; injection H as <- <- <-;
    (split; [exact Heff|split; [|discriminate]]); [|discriminate].
  intros r0 Hr0. injection Hr0 as <-.
  split; [reflexivity|]. split; [reflexivity|].
  split.
  { exists h, rep, p, r, items.
    split; [first [exact Hh | reflexivity]|]. split; [reflexivity|].
    split.
    - unfold job_fields. cbn [extracted_fields commit].
      rewrite <- Hjobs. exact Hrep.
    - now repeat split. }
  intros Hin.
  change (id j) with
    (id (completed (with_fraud_analysis (with_file_hash j h) rep)
                   (utcnow (clock sv)))) at 1.
  apply job_after_commit.
  rewrite !commit_ids, Hjobs, commit_ids. exact Hin.
Qed.

(** X21. A run touches only its own job: the ids and their order are
    kept, the rows of all other jobs are unchanged, stored fields are
    kept and every field added belongs to the job; and a run for an id
    that is not in the table changes nothing at all. *)
Theorem run_touches_only_its_job :
  forall (sv : Services) (db : database) (job_id0 : Z),
    let out := process_document sv db job_id0 in
    map id (jobs (fst out)) = map id (jobs db)
    /\ others job_id0 (jobs (fst out)) = others job_id0 (jobs db)
    /\ (exists new,
          extracted_fields (fst out) = extracted_fields db ++ new
          /\ Forall (fun f => job_id f = job_id0) new)
    /\ (snd out = JobNotFound <-> ~ In job_id0 (map id (jobs db)))
    /\ (snd out = JobNotFound -> fst out = db).
Proof.
  intros sv db job_id0 out. subst out. unfold process_document.
  destruct (find (fun j : job => id j =? job_id0) (jobs db)) as [j0|] eqn:Hf.
  - destruct (find_by_id_some _ _ _ Hf) as [Hin Hid].
    destruct (try_body sv (commit db (with_status j0 PROCESSING))
                (with_status j0 PROCESSING)) as [[db' j'] res] eqn:Hb.
    destruct (try_body_effect _ _ _ _ _ _ Hb)
      as ([Hs He Hids Ho Hr] & Hok & _).
    destruct Hs as (Hid' & _). cbn [id with_status] in Hid', Ho, Hr.
    rewrite commit_ids in Hids.
    rewrite Hid, commit_others in Ho by (cbn; congruence).
    rewrite Hid in Hr. destruct Hr as (new & Hnew & Hrows).
    cbn [extracted_fields commit] in Hnew.
    assert (Hrows' : Forall (fun f => job_id f = job_id0) new).
    { eapply Forall_impl; [|exact Hrows]. now intros f [? _]. }
    destruct res as [r|e|e]; cbn [fst snd].
    + destruct (Hok r eq_refl)
        as (_ & _ & (h & rep & p & x & items & _ & _ & _ & _ & _ & _ & _ & ->)
            & _).
      repeat split; try assumption; eauto; try discriminate.
      intros Hn. contradiction.
    + rewrite commit_ids, commit_others by (cbn; congruence).
      repeat split; try assumption; eauto; try discriminate.
      intros Hn. contradiction.
    + repeat split; try assumption; eauto; try discriminate.
      intros Hn. contradiction.
  - cbn [fst snd]. repeat split; auto.
    + exists []. rewrite app_nil_r. split; [reflexivity|constructor].
    + intros _ Hin. apply in_map_iff in Hin as (j & Hj & Hin).
      apply (find_none _ _ Hf) in Hin. cbn in Hin.
      apply Z.eqb_neq in Hin. contradiction.
Qed.

Lemma commit_twice (db : database) (a b : job) :
  id a = id b -> jobs (commit (commit db a) b) = jobs (commit db b).
Proof.
  intros E. unfold commit. cbn [jobs]. rewrite map_map.
  apply map_ext. intros x. rewrite E.
  destruct (Z.eqb_spec (id x) (id b)) as [Hx|Hx].
  - now rewrite E, Z.eqb_refl.
  - destruct (Z.eqb_spec (id x) (id b)); [contradiction|reflexivity].
Qed.

(** The job's row while its file is processed: in PROCESSING, with the
    digest of the file. *)
Definition processing_row (j0 : job) (h : string) : job :=
  with_file_hash (with_status j0 PROCESSING) h.

(** X22. A run for a job that is in the table ends in one of three ways,
    and never changes the owner, the file name, the storage path or the
    creation time. It leaves the job COMPLETED, with [completed_at] set,
    the digest of its file and the report of the analysis stored, the
    task returning the entries of the dispatcher's result and the error
    message left as it was; or FAILED, with [completed_at] set and the
    task's error as the error message; or, when the reply holds a pair
    whose row the database refuses, the handler's own commit fails as
    well: the task raises, and the job stays PROCESSING with the digest
    stored, no field added and nothing else written. *)
Theorem run_ends_terminal_unless_refused :
  forall (sv : Services) (db : database) (job_id0 : Z) (j0 : job),
    find (fun j : job => id j =? job_id0) (jobs db) = Some j0 ->
    let out := process_document sv db job_id0 in
    exists j',
      job_after (fst out) job_id0 = Some j'
      /\ same_upload j0 j'
      /\ ((status j' = COMPLETED
           /\ completed_at j' = Some (utcnow (clock sv))
           /\ error_message j' = error_message j0
           /\ exists h rep p x items,
                calculate_file_hash (rt sv) (probe sv) (temp_file_of sv j0)
                = Ok h
                /\ file_hash j' = Some h
                /\ perform_full_analysis (rt sv) (probe sv) (clock sv)
                     (temp_file_of sv j0) h (user_id j0)
                     (job_fields job_id0 (fst out))
                     (jobs (commit db (processing_row j0 h))) = Ok rep
                /\ fraud_analysis j' = Some rep
                /\ document_processor.process_document (rt sv) (processor sv)
                     (temp_file_of sv j0) = Ok p
                /\ extraction_of p = Success x
                /\ json_items (extracted_data x) = Ok items
                /\ snd out
                   = TaskCompleted (method x) (md_pdf_type (metadata p))
                       (document_type x) (gemini_service.confidence x)
                       (Z.of_nat (List.length items) + 3))
          \/ (status j' = FAILED
              /\ completed_at j' = Some (utcnow (clock sv))
              /\ exists msg,
                   snd out = TaskFailed msg /\ error_message j' = Some msg)
          \/ (status j' = PROCESSING
              /\ extracted_fields (fst out) = extracted_fields db
              /\ exists h e,
                   calculate_file_hash (rt sv) (probe sv)
                     (temp_file_of sv j0) = Ok h
                   /\ j' = processing_row j0 h
                   /\ snd out = TaskRaised e
                   /\ refused_pair sv j0 e)).
Proof.
  intros sv db job_id0 j0 Hf out. subst out. unfold process_document.
  rewrite Hf. destruct (find_by_id_some _ _ _ Hf) as [Hin Hid].
  destruct (try_body sv (commit db (with_status j0 PROCESSING))
              (with_status j0 PROCESSING)) as [[db' j'] res] eqn:Hb.
  destruct (try_body_effect _ _ _ _ _ _ Hb)
    as ([Hs He Hids Ho Hr] & Hok & Hinactive).
  cbn [id with_status error_message] in Hs, He, Hids, Hok.
  rewrite commit_ids in Hids, Hok.
  destruct Hs as (Hid' & Hu & Hn & Hp & Hc).
  cbn [id user_id filename s3_path created_at with_status] in Hid', Hu, Hn, Hp, Hc.
  destruct res as [r|e|e]; cbn [fst snd].
  - destruct (Hok r eq_refl) as (Hst & Hat & Hdone & Hafter).
    exists j'. rewrite <- Hid. split; [apply Hafter; congruence|].
    split; [now repeat split|]. left.
    split; [assumption|]. split; [assumption|]. split; [assumption|].
    destruct Hdone as (h & rep & p & x & items & H1 & H2 & H3 & H4 & H5 & H6
                       & H7 & H8).
    exists h, rep, p, x, items.
    rewrite commit_twice in H3 by reflexivity.
    repeat split; assumption.
  - exists (failed j' (exn_msg e) (utcnow (clock sv))).
    split.
    + replace job_id0 with (id (failed j' (exn_msg e) (utcnow (clock sv))))
        by (cbn; congruence).
      apply job_after_commit. cbn [id failed].
      rewrite Hids. congruence.
    + split; [now repeat split|]. right. left.
      split; [reflexivity|]. split; [reflexivity|]. now exists (exn_msg e).
  - destruct (Hinactive e eq_refl) as (h & Hh & -> & -> & Href).
    exists (processing_row j0 h).
    split.
    + replace job_id0 with (id (processing_row j0 h)) by (cbn; congruence).
      apply job_after_commit.
      cbn [id processing_row with_file_hash with_status].
      rewrite commit_ids. congruence.
    + split; [now repeat split|]. right. right.
      split; [reflexivity|]. split; [reflexivity|].
      exists h, e. now repeat split.
Qed.

Lemma run_ends_terminal_unless_refused_witness :
  exists j',
    job_after
      (fst (process_document (reply_services null_key_genai)
              {| jobs := [sample_job 1 7 None QUEUED];
                 extracted_fields := [] |} 1)) 1 = Some j'
    /\ status j' = PROCESSING
    /\ completed_at j' = None.
Proof.
  destruct (run_ends_terminal_unless_refused (reply_services null_key_genai)
              {| jobs := [sample_job 1 7 None QUEUED]; extracted_fields := [] |}
              1 (sample_job 1 7 None QUEUED) eq_refl)
    as (j' & Hafter & _ & Hcases).
  exists j'. split; [exact Hafter|].
  vm_compute in Hafter. injection Hafter as <-. split; reflexivity.
Defined.

(** A pair with a null key: the rows of the call are rolled back, the
    task raises, and the job is left in PROCESSING; with the same file
    and an empty object for a reply the job completes. *)
Example null_key_leaves_job_processing :
  process_document (reply_services null_key_genai)
    {| jobs := [sample_job 1 7 None QUEUED]; extracted_fields := [] |} 1
  = ({| jobs :=
          [ {| id := 1; user_id := 7; filename := "invoice.pdf";
               s3_path := "uploads/invoice.pdf";
               file_hash := Some "%PDF-1.4 sample"; status := PROCESSING;
               error_message := None; fraud_analysis := None;
               created_at := 0; completed_at := None |} ];
        extracted_fields := [] |},
     TaskRaised
       (Exn OtherError
          "null value in column field_name violates not-null constraint")).
Proof. reflexivity. Qed.

(** ** The stored rows and the confidence analysis *)

(** The two confidences the task writes. *)
Definition pipeline_confidence (f : ExtractedField) : Prop :=
  models.confidence f = Some "0.90" \/ models.confidence f = Some "0.70".

Lemma saved_row_confidence (job_id0 : Z) (f : ExtractedField) :
  saved_row job_id0 f -> pipeline_confidence f.
Proof.
  intros (_ & _ & _ & v & _ & [(H & _)|H]); [now left|now right].
Qed.

Lemma field_entry_confidence (f : ExtractedField) (c : string) :
  models.confidence f = Some c ->
  confidence_of (field_entry f)
  = match c with "" => PNone | _ => PStr c end.
Proof.
  intros H. unfold confidence_of, field_entry.
  cbn [f_confidence f_extraction_confidence]. rewrite H. now destruct c.
Qed.

Section pipeline_rows.
Variable rt : Runtime.
Hypothesis float_090 : py_float rt "0.90" = Some 0.9%float.
Hypothesis float_070 : py_float rt "0.70" = Some 0.7%float.

Lemma flag_step_pipeline (acc : list low_confidence_field)
    (f : ExtractedField) :
  pipeline_confidence f -> flag_step rt acc (field_entry f) = acc.
Proof.
  intros [H|H]; unfold flag_step; rewrite (field_entry_confidence f _ H);
    cbn; rewrite ?float_090, ?float_070; now rewrite andb_false_r.
Qed.

Lemma collect_pipeline (rows : list ExtractedField) :
  Forall pipeline_confidence rows ->
  forall acc, exists l,
    collect_confidences rt (map field_entry rows) acc = Ok l.
Proof.
  induction 1 as [|f rows Hf _ IH]; intros acc; cbn [map collect_confidences].
  - now exists acc.
  - destruct Hf as [H|H]; rewrite (field_entry_confidence f _ H);
      cbn; rewrite ?float_090, ?float_070; cbn; apply IH.
Qed.

Lemma flag_fold_pipeline (rows : list ExtractedField) :
  Forall pipeline_confidence rows ->
  forall acc, fold_left (flag_step rt) (map field_entry rows) acc = acc.
Proof.
  induction 1 as [|f rows Hf _ IH]; intros acc; cbn [map fold_left];
    [reflexivity|].
  rewrite (flag_step_pipeline acc f Hf). apply IH.
Qed.

Lemma analysis_of_pipeline_rows (rows : list ExtractedField) :
  Forall pipeline_confidence rows ->
  exists ca,
    analyze_confidence_scores rt (map field_entry rows) = Ok ca
    /\ low_confidence_fields ca = [].
Proof.
  intros Hrows. unfold analyze_confidence_scores.
  destruct (collect_pipeline rows Hrows []) as [l ->].
  rewrite (flag_fold_pipeline rows Hrows). cbn. eexists. split; reflexivity.
Qed.

End pipeline_rows.

(** X23. The rows the task stores go through the confidence analysis
    unharmed: when [float] reads the two stored confidences as 0.9 and
    0.7 and the job's earlier rows (if any) carry one of them, the
    analysis of the job's rows after [save_extracted_fields] returns and
    flags no field. *)
Theorem stored_rows_are_never_flagged :
  forall (rt : Runtime) (eng : Engine) (db : database) (job_id0 : Z)
         (p : processed),
    py_float rt "0.90" = Some 0.9%float ->
    py_float rt "0.70" = Some 0.7%float ->
    Forall (fun f => job_id f = job_id0 -> pipeline_confidence f)
           (extracted_fields db) ->
    exists ca,
      analyze_confidence_scores rt
        (map field_entry
           (filter (fun f => job_id f =? job_id0)
              (extracted_fields
                 (fst (save_extracted_fields rt eng db job_id0 p)))))
      = Ok ca
      /\ low_confidence_fields ca = []
      /\ total_low_confidence ca = 0.
Proof.
  intros rt eng db job_id0 p H9 H7 Hold.
  destruct (save_extracted_fields_inv rt eng db job_id0 p)
    as (_ & new & -> & Hrows & _).
  destruct (analysis_of_pipeline_rows rt H9 H7
              (filter (fun f => job_id f =? job_id0)
                      (extracted_fields db ++ new)))
    as (ca & Hca & Hlow).
  - apply Forall_forall. intros f Hf. apply filter_In in Hf as [Hin Hid].
    apply Z.eqb_eq in Hid. apply in_app_iff in Hin as [Hin|Hin].
    + rewrite Forall_forall in Hold. now apply Hold.
    + rewrite Forall_forall in Hrows.
      apply (saved_row_confidence job_id0). now apply Hrows.
  - exists ca. split; [exact Hca|]. split; [exact Hlow|].
    unfold analyze_confidence_scores in Hca.
    destruct (collect_confidences _ _ _); cbn in Hca; [|discriminate].
    injection Hca as <-. cbn in *. now rewrite Hlow.
Qed.

Lemma stored_rows_are_never_flagged_witness :
  exists ca,
    analyze_confidence_scores sample_runtime
      (map field_entry
         (filter (fun f => job_id f =? 1)
            (extracted_fields
               (fst (save_extracted_fields sample_runtime sample_engine
                       {| jobs := []; extracted_fields := [] |} 1
                       {| extraction_of :=
                            Failure "no reply" None "text";
                          metadata :=
                            {| md_pdf_type := "text_only"; md_page_count := 1;
                               md_image_count := 0; md_has_text := true;
                               md_text_length := 120 |} |})))))
    = Ok ca
    /\ low_confidence_fields ca = [].
Proof.
  destruct (stored_rows_are_never_flagged sample_runtime sample_engine
              {| jobs := []; extracted_fields := [] |} 1
              {| extraction_of := Failure "no reply" None "text";
                 metadata :=
                   {| md_pdf_type := "text_only"; md_page_count := 1;
                      md_image_count := 0; md_has_text := true;
                      md_text_length := 120 |} |}
              eq_refl eq_refl (Forall_nil _))
    as (ca & Hca & Hlow & _).
  exists ca. split; [exact Hca|exact Hlow].
Defined.

End task_runs.

(* ================================================================== *)
(** * The code fence around a reply *)
(* ================================================================== *)

Module reply_fences.
Import gemini_service.

Lemma append_empty (s t : string) : (s ++ t)%string = "" -> t = "".
Proof. destruct s; cbn; [trivial|discriminate]. Qed.

Lemma append_assoc (s t u : string) :
  ((s ++ t) ++ u)%string = (s ++ t ++ u)%string.
Proof. induction s as [|a s IH]; cbn; [reflexivity|now rewrite IH]. Qed.

Lemma rstrip_append (s t : string) :
  rstrip t <> "" -> rstrip (s ++ t) = (s ++ rstrip t)%string.
Proof.
  intros Ht. induction s as [|c s IH]; cbn; [reflexivity|].
  rewrite IH.
  destruct ((s ++ rstrip t)%string =? "")%string eqn:E.
  - apply String.eqb_eq, append_empty in E. contradiction.
  - now rewrite andb_false_r.
Qed.

Lemma rstrip_idem (s : string) : rstrip (rstrip s) = rstrip s.
Proof.
  induction s as [|c s IH]; cbn; [reflexivity|].
  destruct (isspace c && (rstrip s =? "")%string) eqn:E; cbn;
    [reflexivity|].
  now rewrite IH, E.
Qed.

Lemma lstrip_idem (s : string) : lstrip (lstrip s) = lstrip s.
Proof.
  induction s as [|c s IH]; cbn; [reflexivity|].
  destruct (isspace c) eqn:E; [exact IH|]. cbn. now rewrite E.
Qed.

(** Stripping the left end of a string with a clean right end leaves the
    right end clean. *)
Lemma rstrip_lstrip (s : string) :
  rstrip s = s -> rstrip (lstrip s) = lstrip s.
Proof.
  induction s as [|c s IH]; cbn; [reflexivity|].
  destruct (isspace c) eqn:Ec; cbn [andb].
  - destruct (rstrip s =? "")%string; [discriminate|].
    intros H. injection H as H. now apply IH.
  - intros H. injection H as H. cbn. now rewrite Ec, H.
Qed.

Lemma strip_idem (s : string) : strip (strip s) = strip s.
Proof.
  unfold strip.
  rewrite (rstrip_lstrip (rstrip s) (rstrip_idem s)). apply lstrip_idem.
Qed.

Lemma length_app_string (s t : string) :
  String.length (s ++ t) = (String.length s + String.length t)%nat.
Proof. induction s; cbn; congruence. Qed.

Lemma drop_append (s t : string) : drop (String.length s) (s ++ t) = t.
Proof. induction s; cbn; [now destruct t|assumption]. Qed.

Lemma take_append (s t : string) : take (String.length s) (s ++ t) = s.
Proof. induction s; cbn; [now destruct t|congruence]. Qed.

Lemma endswith_append (s p : string) : endswith (s ++ p) p = true.
Proof.
  unfold endswith. rewrite length_app_string.
  replace (String.length s + String.length p - String.length p)%nat
    with (String.length s) by lia.
  rewrite drop_append, String.eqb_refl, andb_true_r.
  apply Nat.leb_le. lia.
Qed.

Lemma cut_fence (s : string) :
  take (String.length (s ++ "```") - 3) (s ++ "```") = s.
Proof.
  rewrite length_app_string. cbn [String.length].
  replace (String.length s + 3 - 3)%nat with (String.length s) by lia.
  apply take_append.
Qed.

Lemma no_fence_no_json_fence (s : string) :
  startswith s "```" = false -> startswith s "```json" = false.
Proof.
  unfold startswith.
  intros H. destruct (String.prefix "```json" s) eqn:E; [|reflexivity].
  destruct s as [|a [|b [|c s]]]; cbn -[ascii_dec] in *;
    repeat match goal with
    | H : context [ascii_dec ?x ?y] |- _ =>
        destruct (ascii_dec x y); cbn -[ascii_dec] in *
    end; try congruence. now destruct s.
Qed.

(** X24. A reply wrapped in a code fence, with or without the json tag,
    is cleaned to the stripped text between the fences, whenever that
    text begins with neither a backquote nor the letter j (as it does
    when a line break follows the opening fence). *)
Theorem fenced_reply_is_unwrapped :
  forall (c : ascii) (r : string),
    c <> "`"%char -> c <> "j"%char ->
    clean_response ("```json" ++ String c r ++ "```") = strip (String c r)
    /\ clean_response ("```" ++ String c r ++ "```") = strip (String c r).
Proof.
  intros c r Hc Hj.
  assert (Hp : startswith (String c r ++ "```") "```" = false).
  { unfold startswith. cbn -[ascii_dec].
    destruct (ascii_dec "`" c); [congruence|reflexivity]. }
  assert (Hr3 : rstrip "```" <> "") by (cbn; discriminate).
  assert (Hw : forall p : string,
             lstrip (p ++ String c r ++ "```") = (p ++ String c r ++ "```")%string ->
             strip (p ++ String c r ++ "```")
             = (p ++ String c r ++ "```")%string).
  { intros p Hl. unfold strip.
    rewrite <- (append_assoc p (String c r) "```") at 1.
    rewrite (rstrip_append _ _ Hr3).
    change (rstrip "```") with "```". rewrite append_assoc. exact Hl. }
  split; unfold clean_response.
  - rewrite (Hw "```json" eq_refl).
    change (startswith ("```json" ++ String c r ++ "```") "```json") with true.
    cbv iota.
    change (drop 7 ("```json" ++ String c r ++ "```"))
      with (String c r ++ "```")%string.
    rewrite Hp, endswith_append, cut_fence. reflexivity.
  - rewrite (Hw "```" eq_refl).
    assert (Hjs : startswith ("```" ++ String c r ++ "```") "```json" = false).
    { unfold startswith. cbn -[ascii_dec].
      destruct (ascii_dec "j" c); [congruence|reflexivity]. }
    rewrite Hjs.
    change (startswith ("```" ++ String c r ++ "```") "```") with true.
    cbv iota.
    change (drop 3 ("```" ++ String c r ++ "```"))
      with (String c r ++ "```")%string.
    rewrite endswith_append, cut_fence. reflexivity.
Qed.

Lemma fenced_reply_is_unwrapped_witness :
  clean_response ("```json" ++ nl ++ "{}" ++ nl ++ "```") = "{}".
Proof.
  exact (proj1 (fenced_reply_is_unwrapped "010"%char ("{}" ++ nl)
                  ltac:(discriminate) ltac:(discriminate))).
Defined.

(** X25. A reply whose stripped text neither begins nor ends with a
    fence is cleaned to its stripped text, and cleaning it again changes
    nothing. *)
Theorem unfenced_reply_is_stripped :
  forall text : string,
    startswith (strip text) "```" = false ->
    endswith (strip text) "```" = false ->
    clean_response text = strip text
    /\ clean_response (clean_response text) = clean_response text.
Proof.
  assert (G : forall text, startswith (strip text) "```" = false ->
                endswith (strip text) "```" = false ->
                clean_response text = strip text).
  { intros text Hs He. unfold clean_response.
    rewrite (no_fence_no_json_fence _ Hs), Hs, He. apply strip_idem. }
  intros text Hs He. split; [now apply G|].
  rewrite (G text Hs He). rewrite G; rewrite ?strip_idem; auto.
Qed.

Lemma unfenced_reply_is_stripped_witness :
  clean_response "  {}  " = "{}".
Proof.
  exact (proj1 (unfenced_reply_is_stripped "  {}  " eq_refl eq_refl)).
Defined.

End reply_fences.

(* ================================================================== *)
(** * The loaders of image files *)
(* ================================================================== *)

Module image_files_facts.
Import pdf_classifier image_files.

(** A page as the loaders return it: the frame with its size, in RGB or
    in its own mode when that is RGB or L. *)
Definition page_of (frame page : pil_image) : Prop :=
  img_width page = img_width frame
  /\ img_height page = img_height frame
  /\ (img_mode page = "RGB" \/ img_mode page = "L")
  /\ (needs_rgb frame = false -> page = frame).

Lemma needs_rgb_false (im : pil_image) :
  needs_rgb im = false -> img_mode im = "RGB" \/ img_mode im = "L".
Proof.
  unfold needs_rgb. intros H. apply negb_false_iff, orb_true_iff in H.
  destruct H as [H|H]; apply String.eqb_eq in H; auto.
Qed.

Lemma startswith_append (p x : string) : startswith (p ++ x) p = true.
Proof.
  unfold startswith. induction p as [|a p IH]; cbn -[ascii_dec].
  - now destruct x.
  - destruct (ascii_dec a a); [exact IH|congruence].
Qed.

Ltac loader_prefix :=
  first [ exact (startswith_append "Invalid TIFF file: " _)
        | exact (startswith_append "Invalid image file: " _) ].

Lemma tiff_pages_spec (frames : list (result pil_image)) :
  forall pages out,
    tiff_pages frames pages = Ok out ->
    exists imgs new,
      frames = map Ok imgs /\ out = pages ++ new
      /\ Forall2 page_of imgs new.
Proof.
  induction frames as [|[img|e] rest IH]; intros pages out H;
    cbn [tiff_pages] in H.
  - injection H as <-. exists [], []. rewrite app_nil_r.
    repeat split. constructor.
  - destruct (needs_rgb img) eqn:Hn.
    + unfold convert_rgb in H. destruct (img_decodes img); cbn in H;
        [|discriminate].
      destruct (IH _ _ H) as (imgs & new & -> & -> & Hall).
      eexists (img :: imgs), (_ :: new). rewrite <- app_assoc.
      split; [reflexivity|]. split; [reflexivity|].
      constructor; [|assumption].
      unfold page_of. cbn. repeat split; auto. intros; congruence.
    + unfold copy in H. destruct (img_decodes img); cbn in H;
        [|discriminate].
      destruct (IH _ _ H) as (imgs & new & -> & -> & Hall).
      eexists (img :: imgs), (_ :: new). rewrite <- app_assoc.
      split; [reflexivity|]. split; [reflexivity|].
      constructor; [|assumption].
      unfold page_of. repeat split; auto. now apply needs_rgb_false.
  - discriminate.
Qed.

(** X26. Whatever goes wrong in a loader comes out as a ValueError whose
    message begins with the loader's own prefix. When the TIFF loader
    returns, it returns one page for every frame of the file, in order,
    each with the frame's size and in RGB or L; when the image loader
    returns, it returns one such page for the opened image. *)
Theorem loaders_return_rgb_or_grey_pages :
  forall (pil : Pillow) (path : string),
    (forall e, process_tiff_to_images pil path = Raise e ->
       exn_kind_of e = ValueError
       /\ startswith (exn_msg e) "Invalid TIFF file: " = true)
    /\ (forall e, process_image_file pil path = Raise e ->
          exn_kind_of e = ValueError
          /\ startswith (exn_msg e) "Invalid image file: " = true)
    /\ (forall pages, process_tiff_to_images pil path = Ok pages ->
          exists img imgs,
            image_open pil path = Ok img
            /\ later_frames img = map Ok imgs
            /\ Forall2 page_of (first_frame img :: imgs) pages)
    /\ (forall pages, process_image_file pil path = Ok pages ->
          exists img page,
            image_open pil path = Ok img
            /\ pages = [page] /\ page_of (first_frame img) page).
Proof.
  intros pil path. unfold process_tiff_to_images, process_image_file.
  destruct (image_open pil path) as [img|e0]; cbn [bind].
  2:{ split; [|split; [|split]]; try discriminate;
        intros x H; injection H as <-;
        (split; [reflexivity|loader_prefix]). }
  split; [|split; [|split]].
  - intros e H.
    destruct (tiff_pages _ _) as [[|p ps]|e1]; cbn [bind] in H;
      try discriminate;
      injection H as <-; (split; [reflexivity|loader_prefix]).
  - intros e H.
    destruct (if needs_rgb (first_frame img) then _ else _) as [p|e1];
      cbn [bind] in H; [discriminate|]. injection H as <-.
    split; [reflexivity|loader_prefix].
  - intros pages H.
    destruct (tiff_pages _ _) as [out|e1] eqn:Ht; cbn in H; [|discriminate].
    destruct out as [|p ps]; [discriminate|]. injection H as <-.
    destruct (tiff_pages_spec _ _ _ Ht) as (imgs & new & Hf & Hout & Hall).
    cbn in Hout. subst new. destruct imgs as [|i0 imgs]; [discriminate|].
    cbn in Hf. injection Hf as <- Hl.
    exists img, imgs. repeat split; assumption.
  - intros pages H.
    destruct (needs_rgb (first_frame img)) eqn:Hn.
    + unfold convert_rgb in H.
      destruct (img_decodes (first_frame img)); cbn in H; [|discriminate].
      injection H as <-. eexists img, _. split; [reflexivity|].
      split; [reflexivity|]. unfold page_of. cbn.
      repeat split; auto. intros; congruence.
    + cbn in H. injection H as <-. exists img, (first_frame img).
      split; [reflexivity|]. split; [reflexivity|].
      unfold page_of. repeat split; auto. now apply needs_rgb_false.
Qed.

(** The image loader hands an RGB image on without reading its pixels;
    the TIFF loader copies every frame and so reads them. *)
Example unreadable_rgb_image :
  let im := {| img_width := 640; img_height := 480; img_mode := "RGB";
               img_decodes := false |} in
  let pil := {| image_open := fun _ =>
                  Ok {| first_frame := im; later_frames := [] |} |} in
  process_image_file pil "scan.png" = Ok [im]
  /\ process_tiff_to_images pil "scan.tiff"
     = Raise (Exn ValueError "Invalid TIFF file: cannot decode image data").
Proof. split; reflexivity. Qed.

End image_files_facts.

(* ================================================================== *)
(** * Credits *)
(* ================================================================== *)

Module credit_service_facts.
Import credit_service.

Lemma check_sufficient_credits_spec (settings : Settings) (user : User)
    (file_type : string) (page_count : Z) :
  fst (fst (check_sufficient_credits settings user file_type page_count))
  = (calculate_credits_required settings file_type page_count
     <=? credits user).
Proof.
  unfold check_sufficient_credits.
  now destruct (_ <=? credits user).
Qed.

Lemma deduct_credits_inv (settings : Settings) (user : User)
    (db : list CreditLog) (file_type : string) (page_count : Z)
    (filename : string) (job_id : option Z)
    (user' : User) (db' : list CreditLog) (n : Z) :
  deduct_credits settings user db file_type page_count filename job_id
  = Ok (user', db', n) ->
  n = calculate_credits_required settings file_type page_count
  /\ n <= credits user
  /\ u_id user' = u_id user
  /\ credits user' = credits user - n
  /\ exists reason,
       db' = db ++ [ {| cl_user_id := u_id user; cl_amount := - n;
                        cl_reason := reason |} ].
Proof.
  unfold deduct_credits.
  pose proof (check_sufficient_credits_spec settings user file_type page_count)
    as Hc.
  destruct (check_sufficient_credits settings user file_type page_count)
    as [[has req] msg]. cbn [fst] in Hc. subst has.
  destruct (Z.leb_spec
              (calculate_credits_required settings file_type page_count)
              (credits user)) as [Hle|Hgt]; cbn [negb]; [|discriminate].
  intros H. injection H as <- <- <-. cbn. repeat split; try assumption.
  eexists. reflexivity.
Qed.

(** X27. A deduction goes through exactly when the balance covers the
    price: it then takes exactly the price of the file, leaves a balance
    that is not negative, returns the price, and appends one log entry
    for the same user with the opposite amount. *)
Theorem deduction_is_exact :
  forall (settings : Settings) (user : User) (db : list CreditLog)
         (file_type : string) (page_count : Z) (filename : string)
         (job_id : option Z),
    let price := calculate_credits_required settings file_type page_count in
    (is_ok (deduct_credits settings user db file_type page_count filename
              job_id) = (price <=? credits user))
    /\ forall user' db' n,
         deduct_credits settings user db file_type page_count filename job_id
         = Ok (user', db', n) ->
         n = price
         /\ credits user' = credits user - price
         /\ 0 <= credits user'
         /\ u_id user' = u_id user
         /\ exists reason,
              db' = db ++ [ {| cl_user_id := u_id user; cl_amount := - price;
                               cl_reason := reason |} ].
Proof.
  intros settings user db file_type page_count filename job_id price.
  split.
  - unfold deduct_credits.
    pose proof (check_sufficient_credits_spec settings user file_type
                  page_count) as Hc.
    destruct (check_sufficient_credits settings user file_type page_count)
      as [[has req] msg]. cbn [fst] in Hc. subst has. fold price.
    now destruct (price <=? credits user).
  - intros user' db' n H.
    destruct (deduct_credits_inv _ _ _ _ _ _ _ _ _ _ H)
      as (Hn & Hle & Hid & Hcr & reason & Hdb).
    fold price in Hn. subst n.
    repeat split; try assumption; [lia|]. now exists reason.
Qed.

(** The requests that reach the service. *)
Inductive request :=
| Deduct (file_type : string) (page_count : Z) (filename : string)
         (job_id : option Z)
| Add (amount : Z) (reason : string).

(** One request: a request that raises leaves the user and the log as
    they were. *)
Definition serve (settings : Settings) (st : User * list CreditLog)
    (rq : request) : User * list CreditLog :=
  match rq with
  | Deduct file_type page_count filename job_id =>
      match deduct_credits settings (fst st) (snd st) file_type page_count
              filename job_id with
      | Ok (user, db, _) => (user, db)
      | Raise _ => st
      end
  | Add amount reason =>
      match add_credits (fst st) (snd st) amount reason with
      | Ok (user, db) => (user, db)
      | Raise _ => st
      end
  end.

Definition total (l : list CreditLog) : Z :=
  fold_right (fun e acc => cl_amount e + acc) 0 l.

Lemma total_app (l l' : list CreditLog) : total (l ++ l') = total l + total l'.
Proof.
  induction l as [|e l IH]; cbn; [reflexivity|].
  fold (total (l ++ l')). fold (total l). fold (total l'). lia.
Qed.

Lemma serve_ledger (settings : Settings) (st : User * list CreditLog)
    (rq : request) :
  exists new,
    snd (serve settings st rq) = snd st ++ new
    /\ credits (fst (serve settings st rq)) = credits (fst st) + total new
    /\ u_id (fst (serve settings st rq)) = u_id (fst st)
    /\ Forall (fun e => cl_user_id e = u_id (fst st)) new
    /\ (0 <= credits (fst st) -> 0 <= credits (fst (serve settings st rq))).
Proof.
  assert (Hsame : exists new : list CreditLog,
             snd st = snd st ++ new
             /\ credits (fst st) = credits (fst st) + total new
             /\ u_id (fst st) = u_id (fst st)
             /\ Forall (fun e => cl_user_id e = u_id (fst st)) new
             /\ (0 <= credits (fst st) -> 0 <= credits (fst st))).
  { exists []. rewrite app_nil_r. cbn. repeat split; auto; lia. }
  destruct rq as [ft pc fn jid|amount reason]; cbn [serve].
  - destruct (deduct_credits settings (fst st) (snd st) ft pc fn jid)
      as [[[user db] n]|e] eqn:Hd; [|exact Hsame].
    destruct (deduct_credits_inv _ _ _ _ _ _ _ _ _ _ Hd)
      as (_ & Hle & Hid & Hcr & reason & ->).
    eexists. cbn [fst snd]. split; [reflexivity|]. cbn.
    repeat split; auto; try lia.
  - unfold add_credits. destruct (Z.leb_spec amount 0); [exact Hsame|].
    eexists. cbn [fst snd]. split; [reflexivity|]. cbn.
    repeat split; auto; try lia.
Qed.

(** X28. The log accounts for the balance: over any sequence of
    deductions and additions, whether they go through or are refused,
    the balance changes by exactly the sum of the entries appended to
    the log; those entries are all for this user, the earlier entries
    are kept, and a balance that is not negative stays so. *)
Theorem log_accounts_for_balance :
  forall (settings : Settings) (rqs : list request) (user : User)
         (db : list CreditLog),
    let st := fold_left (serve settings) rqs (user, db) in
    exists new,
      snd st = db ++ new
      /\ credits (fst st) = credits user + total new
      /\ u_id (fst st) = u_id user
      /\ Forall (fun e => cl_user_id e = u_id user) new
      /\ (0 <= credits user -> 0 <= credits (fst st)).
Proof.
  intros settings rqs. induction rqs as [|rq rqs IH]; intros user db;
    cbn [fold_left].
  - exists []. rewrite app_nil_r. cbn. repeat split; auto; lia.
  - destruct (serve_ledger settings (user, db) rq)
      as (new1 & H1 & H2 & H3 & H4 & H5).
    destruct (serve settings (user, db) rq) as [user1 db1].
    cbn [fst snd] in *. subst db1.
    destruct (IH user1 (db ++ new1)) as (new2 & G1 & G2 & G3 & G4 & G5).
    exists (new1 ++ new2). rewrite G1, <- app_assoc.
    split; [reflexivity|]. rewrite total_app.
    split; [lia|]. split; [congruence|]. split.
    + apply Forall_app. split; [assumption|].
      eapply Forall_impl; [|exact G4]. cbn. intros; congruence.
    + auto.
Qed.

(** The price ignores the letter case of the file type, the log entry
    does not: three pages of a "PDF" cost three credits and are logged as
    an image. *)
Example upper_case_pdf :
  deduct_credits {| CREDITS_PER_DOCUMENT := 1; upper := fun s => s |}
    {| u_id := 7; credits := 10 |} [] "PDF" 3 "deed.PDF" (Some 12)
  = Ok ({| u_id := 7; credits := 7 |},
        [ {| cl_user_id := 7; cl_amount := -3;
             cl_reason := "Image processing: deed.PDF [Job #12]" |} ],
        3).
Proof. reflexivity. Qed.

End credit_service_facts.
